(** * Verification of the Proxmox dynamic provider (LXC and QEMU lifecycle)

    A shallow embedding of [proxmox_api.py], [proxmox_lxc.py] and
    [proxmox_vm_qemu.py].  Python values are an inductive type, dictionaries
    are association lists in insertion order, and the effects of the code
    (remote requests, sleeps, log lines, exceptions) are explicit: every
    operation reads the history of events so far and returns a result
    together with the events it adds. *)

From Stdlib Require Import ZArith List String Ascii Bool Lia DecimalString DecimalPos.
Import ListNotations.
Local Open Scope string_scope.
Local Open Scope list_scope.
Set Warnings "-register-all".

(* ================================================================== *)
(** * Python values *)
(* ================================================================== *)

(** The values that travel through property bags and JSON bodies. *)
Inductive pyval : Type :=
| VNone
| VBool (b : bool)
| VInt (z : Z)
| VStr (s : string)
| VDict (d : list (string * pyval)).

Definition pydict := list (string * pyval).

(** ** Dictionaries: association lists with unique keys, insertion order *)

Section Dict.
Context {V : Type}.

(** [d.get(k)] as an option; [None] is "key absent". *)
Fixpoint dict_get (d : list (string * V)) (k : string) : option V :=
  match d with
  | [] => None
  | (k', v) :: rest => if String.eqb k' k then Some v else dict_get rest k
  end.

(** [d[k] = v]: overwrite in place, or append a new key at the end. *)
Fixpoint dict_set (d : list (string * V)) (k : string) (v : V)
  : list (string * V) :=
  match d with
  | [] => [(k, v)]
  | (k', v') :: rest =>
      if String.eqb k' k then (k', v) :: rest
      else (k', v') :: dict_set rest k v
  end.

(** [d.update(other)] *)
Definition dict_update (d other : list (string * V)) : list (string * V) :=
  fold_left (fun acc kv => dict_set acc (fst kv) (snd kv)) other d.

Definition dict_keys (d : list (string * V)) : list string := map fst d.

Definition dict_has (d : list (string * V)) (k : string) : bool :=
  match dict_get d k with Some _ => true | None => false end.
End Dict.

(** [d.get(k, default)] *)
Definition get_default (d : pydict) (k : string) (default : pyval) : pyval :=
  match dict_get d k with Some v => v | None => default end.

(** [d.get(k)], with Python's [None] for an absent key. *)
Definition get_or_none (d : pydict) (k : string) : pyval :=
  get_default d k VNone.

(** ** Equality and truthiness *)

(** Python's [==] on these values: [True == 1], and dictionaries compare
    by content, not by insertion order. *)
Fixpoint py_eqb (a b : pyval) : bool :=
  match a, b with
  | VNone, VNone => true
  | VBool x, VBool y => Bool.eqb x y
  | VBool x, VInt y => Z.eqb (Z.b2z x) y
  | VInt x, VBool y => Z.eqb x (Z.b2z y)
  | VInt x, VInt y => Z.eqb x y
  | VStr x, VStr y => String.eqb x y
  | VDict d1, VDict d2 =>
      Nat.eqb (List.length d1) (List.length d2) &&
      (fix items (l : list (string * pyval)) : bool :=
         match l with
         | [] => true
         | (k, v) :: rest =>
             match dict_get d2 k with
             | Some v' => py_eqb v v' && items rest
             | None => false
             end
         end) d1
  | _, _ => false
  end.

(** [a != b] *)
Definition py_neb (a b : pyval) : bool := negb (py_eqb a b).

(** [bool(v)], the test of [if v:] and of [a or b]. *)
Definition truthy (v : pyval) : bool :=
  match v with
  | VNone => false
  | VBool b => b
  | VInt z => negb (Z.eqb z 0)
  | VStr s => negb (String.eqb s EmptyString)
  | VDict d => match d with [] => false | _ => true end
  end.

(** [a or b] *)
Definition py_or (a b : pyval) : pyval := if truthy a then a else b.

(* ================================================================== *)
(** * Text *)
(* ================================================================== *)

Definition is_digit (c : ascii) : bool :=
  let n := nat_of_ascii c in (48 <=? n)%nat && (n <=? 57)%nat.

Fixpoint all_digits (s : string) : bool :=
  match s with
  | EmptyString => true
  | String c rest => is_digit c && all_digits rest
  end.

(** [s.isdigit()]: at least one character and every character a digit. *)
Definition isdigit (s : string) : bool :=
  match s with
  | EmptyString => false
  | _ => all_digits s
  end.

Definition lower_ascii (c : ascii) : ascii :=
  let n := nat_of_ascii c in
  if (65 <=? n)%nat && (n <=? 90)%nat then ascii_of_nat (n + 32) else c.

(** [s.lower()] *)
Fixpoint lower (s : string) : string :=
  match s with
  | EmptyString => EmptyString
  | String c rest => String (lower_ascii c) (lower rest)
  end.

(** [needle in hay] *)
Fixpoint contains (needle hay : string) : bool :=
  String.prefix needle hay ||
  match hay with
  | EmptyString => false
  | String _ rest => contains needle rest
  end.

(** [s.split(sep, 1)] for a one-character separator that occurs in [s]:
    [None] when [sep] does not occur. *)
Fixpoint split_once (sep : ascii) (s : string) : option (string * string) :=
  match s with
  | EmptyString => None
  | String c rest =>
      if Ascii.eqb c sep then Some (EmptyString, rest)
      else match split_once sep rest with
           | Some (l, r) => Some (String c l, r)
           | None => None
           end
  end.

(** The value of a string of decimal digits, most significant first. *)
Fixpoint digits_value (acc : Z) (s : string) : Z :=
  match s with
  | EmptyString => acc
  | String c rest =>
      digits_value (10 * acc + Z.of_nat (nat_of_ascii c - 48)) rest
  end.

(** [str(n)] for an integer. *)
Definition str_of_int (z : Z) : string := NilZero.string_of_int (Z.to_int z).

(* ================================================================== *)
(** * Exceptions, results, events *)
(* ================================================================== *)

(** An exception: its class and [str(e)]. *)
Record exn := MkExn { exn_class : string; exn_msg : string }.

Inductive result (A : Type) : Type :=
| Ok (a : A)
| Raise (e : exn).
Arguments Ok {A} a.
Arguments Raise {A} e.

(** An f-string kept as its parts: literal text and interpolated values. *)
Inductive part : Type :=
| Lit (s : string)
| Val (v : pyval)
| Err (e : exn).

Definition fstring := list part.

Inductive http_method := GET | POST | PUT | DELETE.

Record request := Req {
  req_method : http_method;
  req_path : fstring;
  req_data : option pydict
}.

Inductive level := Info | Warn | Error.

(** What the code does to the outside world, in order. *)
Inductive event : Type :=
| Call (r : request) (o : result pyval)   (* [_make_request], with its outcome *)
| Sleep (seconds : nat)                   (* [time.sleep] *)
| Log (l : level) (msg : fstring).        (* [pulumi.log.*] *)

Definition history := list event.

(** The remote side: the outcome of a request may depend on everything
    that happened before it (earlier requests, elapsed sleeps). *)
Definition remote := history -> request -> result pyval.

(** ** The effect monad

    A computation reads the history so far and returns its result with
    the events it appended. *)
Definition M (A : Type) : Type := history -> result A * list event.

Definition ret {A} (a : A) : M A := fun _ => (Ok a, []).

Definition raise {A} (e : exn) : M A := fun _ => (Raise e, []).

Definition bind {A B} (m : M A) (k : A -> M B) : M B :=
  fun h =>
    match m h with
    | (Ok a, ev1) =>
        match k a (h ++ ev1) with
        | (r, ev2) => (r, ev1 ++ ev2)
        end
    | (Raise e, ev1) => (Raise e, ev1)
    end.

(** [try: body  except Exception as e: handler e] *)
Definition try_except {A} (body : M A) (handler : exn -> M A) : M A :=
  fun h =>
    match body h with
    | (Ok a, ev1) => (Ok a, ev1)
    | (Raise e, ev1) =>
        match handler e (h ++ ev1) with
        | (r, ev2) => (r, ev1 ++ ev2)
        end
    end.

Definition emit (ev : event) : M unit := fun _ => (Ok tt, [ev]).

Definition lift {A} (r : result A) : M A := fun _ => (r, []).

Notation "x <- m ;; k" := (bind m (fun x => k))
  (at level 61, m at next level, right associativity).
Notation "m ;;; k" := (bind m (fun _ => k))
  (at level 61, right associativity).

Definition log (l : level) (msg : fstring) : M unit := emit (Log l msg).
Definition sleep (seconds : nat) : M unit := emit (Sleep seconds).

(** ** Built-in operations that can raise *)

Definition attribute_error (what : string) : exn :=
  MkExn "AttributeError" ("object has no attribute '" ++ what ++ "'").

Definition key_error (k : string) : exn := MkExn "KeyError" ("'" ++ k ++ "'").

(** [v.get(k, default)]: only dictionaries have [get]. *)
Definition py_get (v : pyval) (k : string) (default : pyval) : result pyval :=
  match v with
  | VDict d => Ok (get_default d k default)
  | _ => Raise (attribute_error "get")
  end.

(** [d[k]] *)
Definition py_index (d : pydict) (k : string) : result pyval :=
  match dict_get d k with
  | Some v => Ok v
  | None => Raise (key_error k)
  end.

(** [v.items()] *)
Definition py_items (v : pyval) : result pydict :=
  match v with
  | VDict d => Ok d
  | _ => Raise (attribute_error "items")
  end.

(** Python's white space, as [str.strip] and [int] see it (ASCII). *)
Definition is_space (c : ascii) : bool :=
  let n := nat_of_ascii c in
  ((9 <=? n)%nat && (n <=? 13)%nat) || (n =? 32)%nat || ((28 <=? n)%nat && (n <=? 31)%nat).

Fixpoint lstrip (s : string) : string :=
  match s with
  | String c rest => if is_space c then lstrip rest else s
  | EmptyString => EmptyString
  end.

Fixpoint rstrip (s : string) : string :=
  match s with
  | EmptyString => EmptyString
  | String c rest =>
      match rstrip rest with
      | EmptyString => if is_space c then EmptyString else String c EmptyString
      | r => String c r
      end
  end.

(** Digits with single underscores between them, as [int] accepts. *)
Fixpoint int_body (prev_digit : bool) (acc : Z) (s : string) : option Z :=
  match s with
  | EmptyString => if prev_digit then Some acc else None
  | String c rest =>
      if is_digit c
      then int_body true (10 * acc + Z.of_nat (nat_of_ascii c - 48)) rest
      else if Ascii.eqb c "_"%char && prev_digit then int_body false acc rest
      else None
  end.

(** [int(s)] for a string, base 10. *)
Definition int_of_str (s : string) : option Z :=
  match rstrip (lstrip s) with
  | String "-"%char rest => option_map Z.opp (int_body false 0 rest)
  | String "+"%char rest => int_body false 0 rest
  | t => int_body false 0 t
  end.

(** [int(v)] *)
Definition py_int (v : pyval) : result Z :=
  match v with
  | VInt z => Ok z
  | VBool b => Ok (Z.b2z b)
  | VStr s =>
      match int_of_str s with
      | Some z => Ok z
      | None => Raise (MkExn "ValueError" "invalid literal for int() with base 10")
      end
  | _ => Raise (MkExn "TypeError" "int() argument must be a string, a bytes-like object or a real number")
  end.

(** [str(v)]; inside a dictionary strings are shown quoted, as [repr]
    does for text without quotes or escapes. *)
Fixpoint py_str_aux (quoted : bool) (v : pyval) : string :=
  match v with
  | VNone => "None"
  | VBool true => "True"
  | VBool false => "False"
  | VInt z => str_of_int z
  | VStr s => if quoted then ("'" ++ s ++ "'")%string else s
  | VDict d =>
      ("{" ++
       (fix items (l : list (string * pyval)) : string :=
          match l with
          | [] => EmptyString
          | (k, x) :: rest =>
              ("'" ++ k ++ "': " ++ py_str_aux true x ++
               match rest with [] => EmptyString | _ => ", " ++ items rest end)%string
          end) d ++ "}")%string
  end.

Definition py_str (v : pyval) : string := py_str_aux false v.

(** [sep.join(l)] *)
Fixpoint join (sep : string) (l : list string) : string :=
  match l with
  | [] => EmptyString
  | [x] => x
  | x :: rest => (x ++ sep ++ join sep rest)%string
  end.

(** [for k, v in items: body k v] *)
Fixpoint for_items (items : pydict) (body : string -> pyval -> M unit) : M unit :=
  match items with
  | [] => ret tt
  | (k, v) :: rest => body k v ;;; for_items rest body
  end.

(** [",".join([f"{k}={v}" for k, v in features.items()])] *)
Definition features_str (features : pydict) : string :=
  join "," (map (fun kv => (fst kv ++ "=" ++ py_str (snd kv))%string) features).

Definition rbind {A B} (r : result A) (k : A -> result B) : result B :=
  match r with
  | Ok a => k a
  | Raise e => Raise e
  end.

(** [if params.get(k): lxc_params[wire] = params[k]] *)
Definition set_if_truthy (params : pydict) (k wire : string)
           (lxc_params : pydict) : pydict :=
  if truthy (get_or_none params k)
  then dict_set lxc_params wire (get_or_none params k)
  else lxc_params.

(** ** The parameter set of [create_lxc]

    The statements of [create_lxc] between its first log line and the
    request build the dictionary [lxc_params] and touch nothing else. *)
Definition lxc_create_params (vm_id : pyval) (params : pydict) : result pydict :=
  rbind (py_int vm_id) (fun vmid =>
  rbind (py_int (get_default params "cores" (VInt 1))) (fun cores =>
  rbind (py_int (get_default params "memory" (VInt 512))) (fun memory =>
  rbind (py_int (get_default params "swap" (VInt 512))) (fun swap =>
  let hostname := get_default params "hostname" (VStr ("lxc-" ++ py_str vm_id)) in
  rbind (py_int (get_default params "unprivileged" (VBool true))) (fun unprivileged =>
  let lxc_params : pydict :=
    [("vmid", VInt vmid); ("cores", VInt cores); ("memory", VInt memory);
     ("swap", VInt swap); ("hostname", hostname);
     ("unprivileged", VInt unprivileged)] in
  let lxc_params := set_if_truthy params "ostemplate" "ostemplate" lxc_params in
  let lxc_params := set_if_truthy params "password" "password" lxc_params in
  let lxc_params := set_if_truthy params "ssh_public_keys" "ssh-public-keys" lxc_params in
  rbind (py_items (get_default params "disks" (VDict []))) (fun disks =>
  let lxc_params := dict_update lxc_params disks in
  rbind (py_items (get_default params "networks" (VDict []))) (fun networks =>
  let lxc_params := dict_update lxc_params networks in
  let features := get_default params "features" (VDict []) in
  rbind (if truthy features
         then rbind (py_items features) (fun fs =>
                Ok (dict_set lxc_params "features" (VStr (features_str fs))))
         else Ok lxc_params) (fun lxc_params =>
  let lxc_params := set_if_truthy params "startup" "startup" lxc_params in
  Ok (match get_or_none params "onboot" with
      | VNone => lxc_params
      | onboot => dict_set lxc_params "onboot" (VInt (if truthy onboot then 1 else 0))
      end))))))))).

(** ** The configuration body of [update_lxc]

    The statements of [update_lxc] that fill [lxc_params] touch nothing
    but that dictionary; they come in two runs, before and after the loop
    over the disks. *)

(** [if k in params: lxc_params[k] = int(params[k])] *)
Definition set_int_if_present (params : pydict) (k : string)
           (lxc_params : pydict) : result pydict :=
  match dict_get params k with
  | Some v => rbind (py_int v) (fun z => Ok (dict_set lxc_params k (VInt z)))
  | None => Ok lxc_params
  end.

(** [cores], [memory], [swap], [hostname]: the part before the disks. *)
Definition scalar_params (params : pydict) : result pydict :=
  rbind (set_int_if_present params "cores" []) (fun lxc_params =>
  rbind (set_int_if_present params "memory" lxc_params) (fun lxc_params =>
  rbind (set_int_if_present params "swap" lxc_params) (fun lxc_params =>
  Ok (match dict_get params "hostname" with
      | Some v => dict_set lxc_params "hostname" v
      | None => lxc_params
      end)))).

(** [networks], [features], [startup], [onboot]: the part after the disks. *)
Definition rest_params (params : pydict) (lxc_params : pydict) : result pydict :=
  rbind (match dict_get params "networks" with
         | Some networks =>
             rbind (py_items networks) (fun items => Ok (dict_update lxc_params items))
         | None => Ok lxc_params
         end) (fun lxc_params =>
  rbind (match dict_get params "features" with
         | Some features =>
             if truthy features
             then rbind (py_items features) (fun fs =>
                    Ok (dict_set lxc_params "features" (VStr (features_str fs))))
             else Ok lxc_params
         | None => Ok lxc_params
         end) (fun lxc_params =>
  let lxc_params :=
    match dict_get params "startup" with
    | Some v => dict_set lxc_params "startup" v
    | None => lxc_params
    end in
  Ok (match dict_get params "onboot" with
      | Some v => dict_set lxc_params "onboot" (VInt (if truthy v then 1 else 0))
      | None => lxc_params
      end))).

(* ================================================================== *)
(** * proxmox_api.py: the API client *)
(* ================================================================== *)

(** What lies outside the program: the hypervisor behind [_make_request]
    (session, authentication handshake and HTTP transport included; the
    error lines [_make_request] writes itself belong to that side), the
    ambient [pulumi.Config("proxmox")], and the conversion [int(float(s))]
    of a resource id. *)
Record context := MkContext {
  ctx_remote : remote;
  ctx_config : pydict;
  ctx_int_float : string -> result Z
}.

(** The fields [ProxmoxAPI.__init__] stores. *)
Record ProxmoxAPI := Api {
  api_endpoint : pyval;
  api_username : pyval;
  api_password : pyval;
  api_node : pyval;
  api_insecure : pyval
}.

Section Client.
Variable ctx : context.

(** [config.require(k)] *)
Definition config_require (k : string) : result pyval :=
  match dict_get (ctx_config ctx) k with
  | Some v => Ok v
  | None => Raise (MkExn "ConfigMissingError" k)
  end.

(** [ProxmoxAPI(endpoint, username, password, node, insecure)] *)
Definition ProxmoxAPI_init (endpoint username password node insecure : pyval)
  : result ProxmoxAPI :=
  match endpoint with
  | VNone =>
      match config_require "endpoint" with
      | Raise e => Raise e
      | Ok ep =>
          match config_require "username" with
          | Raise e => Raise e
          | Ok us =>
              match config_require "password" with
              | Raise e => Raise e
              | Ok pw =>
                  Ok (Api ep us pw
                          (get_default (ctx_config ctx) "node" (VStr "pve"))
                          (get_default (ctx_config ctx) "insecure" (VBool false)))
              end
          end
      end
  | _ => Ok (Api endpoint username password (py_or node (VStr "pve")) insecure)
  end.

Variable api : ProxmoxAPI.

(** [_make_request(method, path, data)]: the remote side answers with
    the parsed JSON body or with an exception. *)
Definition _make_request (m : http_method) (path : fstring)
           (data : option pydict) : M pyval :=
  fun h =>
    let o := ctx_remote ctx h (Req m path data) in
    (o, [Call (Req m path data) o]).

Definition lxc_path (vm_id : pyval) (suffix : string) : fstring :=
  [Lit "nodes/"; Val (api_node api); Lit "/lxc/"; Val vm_id; Lit suffix].

Definition qemu_path (vm_id : pyval) (suffix : string) : fstring :=
  [Lit "nodes/"; Val (api_node api); Lit "/qemu/"; Val vm_id; Lit suffix].

(** ** [create_vm] *)
Definition create_vm (vm_id : pyval) (params : pydict) : M pyval :=
  log Info [Lit "Creating VM "; Val vm_id; Lit " on node "; Val (api_node api)] ;;;
  vmid <- lift (py_int vm_id) ;;
  cores <- lift (py_int (get_default params "cores" (VInt 1))) ;;
  memory <- lift (py_int (get_default params "memory" (VInt 512))) ;;
  let vm_params : pydict :=
    [("vmid", VInt vmid); ("cores", VInt cores); ("memory", VInt memory);
     ("name", get_default params "name" (VStr ("vm-" ++ py_str vm_id)))] in
  disks <- lift (py_items (get_default params "disks" (VDict []))) ;;
  let vm_params := dict_update vm_params disks in
  networks <- lift (py_items (get_default params "networks" (VDict []))) ;;
  let vm_params := dict_update vm_params networks in
  log Info [Lit "VM params: "; Val (VDict vm_params)] ;;;
  result <- _make_request POST [Lit "nodes/"; Val (api_node api); Lit "/qemu"]
              (Some vm_params) ;;
  log Info [Lit "VM creation initiated: "; Val result] ;;;
  ret result.

(** ** [get_vm] *)
Definition get_vm (vm_id : pyval) : M pyval :=
  match py_int vm_id with
  | Raise e =>
      log Warn [Lit "Failed to get VM "; Val vm_id; Lit ": "; Err e] ;;;
      ret (VDict [])
  | Ok vid =>
      try_except
        (result <- _make_request GET (qemu_path (VInt vid) "/status/current") None ;;
         lift (py_get result "data" (VDict [])))
        (fun e =>
           log Warn [Lit "Failed to get VM "; Val (VInt vid); Lit ": "; Err e] ;;;
           ret (VDict []))
  end.

(** ** [create_lxc] *)
Definition create_lxc (vm_id : pyval) (params : pydict) : M pyval :=
  log Info [Lit "Creating LXC "; Val vm_id; Lit " on node "; Val (api_node api)] ;;;
  lxc_params <- lift (lxc_create_params vm_id params) ;;
  (match get_or_none params "onboot" with
   | VNone => log Info [Lit "onboot not found in params: "]
   | onboot =>
       log Info [Lit "Added onboot: "; Val onboot; Lit " -> ";
                 Val (get_or_none lxc_params "onboot")]
   end) ;;;
  log Info [Lit "LXC params: "; Val (VDict lxc_params)] ;;;
  result <- _make_request POST [Lit "nodes/"; Val (api_node api); Lit "/lxc"]
              (Some lxc_params) ;;
  log Info [Lit "LXC creation initiated: "; Val result] ;;;
  ret result.

(** ** [get_lxc] *)
Definition get_lxc (vm_id : pyval) : M pyval :=
  match py_int vm_id with
  | Raise e =>
      log Warn [Lit "Failed to get LXC "; Val vm_id; Lit ": "; Err e] ;;;
      ret (VDict [])
  | Ok vid =>
      try_except
        (result <- _make_request GET (lxc_path (VInt vid) "/status/current") None ;;
         lift (py_get result "data" (VDict [])))
        (fun e =>
           log Warn [Lit "Failed to get LXC "; Val (VInt vid); Lit ": "; Err e] ;;;
           ret (VDict []))
  end.

(** ** [start_lxc] *)
Definition start_lxc (vm_id : pyval) : M pyval :=
  log Info [Lit "Starting LXC "; Val vm_id] ;;;
  vid <- lift (py_int vm_id) ;;
  _make_request POST (lxc_path (VInt vid) "/status/start") None.

(** ** [_resize_lxc_disk] *)
Definition _resize_lxc_disk (vm_id : pyval) (disk_name : string)
           (disk_config : pyval) : M pyval :=
  match disk_config with
  | VStr cfg =>
      if String.eqb cfg EmptyString then ret (VDict [])
      else
        match split_once ":"%char cfg with
        | None =>
            log Warn [Lit "Invalid disk config format: "; Val disk_config] ;;;
            ret (VDict [])
        | Some (storage, size_part) =>
            if negb (isdigit size_part) then
              log Warn [Lit "Invalid disk size format: "; Val (VStr size_part)] ;;;
              ret (VDict [])
            else
              let new_size_gb := digits_value 0 size_part in
              log Info [Lit "Resizing LXC "; Val vm_id; Lit " disk ";
                        Val (VStr disk_name); Lit " to "; Val (VInt new_size_gb);
                        Lit "G"] ;;;
              let resize_params : pydict :=
                [("disk", VStr disk_name);
                 ("size", VStr (str_of_int new_size_gb ++ "G"))] in
              try_except
                (result <- _make_request PUT (lxc_path vm_id "/resize")
                             (Some resize_params) ;;
                 log Info [Lit "Disk resize completed: "; Val result] ;;;
                 ret result)
                (fun e =>
                   log Error [Lit "Failed to resize disk: "; Err e] ;;;
                   raise e)
        end
  | _ => ret (VDict [])
  end.
End Client.

Section Lifecycle.
Variable ctx : context.
Variable api : ProxmoxAPI.

(** ** [update_lxc] *)

(** The loop over [disks.items()]: one resize attempt per slot, a failure
    is logged and the loop goes on. *)
Definition resize_disks (vm_id : pyval) (disks : pydict) : M unit :=
  for_items disks (fun disk_name disk_config =>
    try_except
      (_resize_lxc_disk ctx api vm_id disk_name disk_config ;;; ret tt)
      (fun e =>
         log Warn [Lit "Failed to resize disk "; Val (VStr disk_name);
                   Lit ": "; Err e])).

Definition update_lxc (vm_id : pyval) (params : pydict) : M pyval :=
  log Info [Lit "Updating LXC "; Val vm_id] ;;;
  lxc_params <- lift (scalar_params params) ;;
  (match dict_get params "disks" with
   | Some disks => items <- lift (py_items disks) ;; resize_disks vm_id items
   | None => ret tt
   end) ;;;
  lxc_params <- lift (rest_params params lxc_params) ;;
  log Info [Lit "LXC update params: "; Val (VDict lxc_params)] ;;;
  match lxc_params with
  | _ :: _ =>
      result <- _make_request ctx PUT (lxc_path api vm_id "/config")
                  (Some lxc_params) ;;
      log Info [Lit "LXC update completed: "; Val result] ;;;
      ret result
  | [] =>
      log Info [Lit "No configuration parameters to update"] ;;;
      ret (VDict [("data", VNone)])
  end.

(** ** [_wait_for_lxc_unlock]

    The body of [for attempt in range(max_retries)], with [left]
    iterations still to run; [Some b] is [return b], [None] is
    [continue]. *)
Definition lock_classified (e : exn) : bool :=
  contains "timeout" (lower (exn_msg e)) || contains "lock" (lower (exn_msg e)).

Definition unlock_poll (vm_id : pyval) (max_retries attempt : nat)
  : M (option bool) :=
  try_except
    (result <- _make_request ctx GET (lxc_path api vm_id "/status/current") None ;;
     log Info [Lit "LXC "; Val vm_id; Lit " is unlocked (attempt ";
               Val (VInt (Z.of_nat (attempt + 1))); Lit ")"] ;;;
     ret (Some true))
    (fun e =>
       if lock_classified e then
         log Info [Lit "LXC "; Val vm_id; Lit " still locked, waiting... (attempt ";
                   Val (VInt (Z.of_nat (attempt + 1))); Lit "/";
                   Val (VInt (Z.of_nat max_retries)); Lit ")"] ;;;
         sleep 1 ;;;
         ret None
       else
         log Warn [Lit "Unexpected error checking LXC "; Val vm_id; Lit ": "; Err e] ;;;
         ret (Some true)).

Fixpoint unlock_loop (vm_id : pyval) (max_retries attempt left : nat) : M bool :=
  match left with
  | O =>
      log Warn [Lit "LXC "; Val vm_id; Lit " is still locked after ";
                Val (VInt (Z.of_nat max_retries)); Lit " seconds"] ;;;
      ret false
  | S left' =>
      step <- unlock_poll vm_id max_retries attempt ;;
      match step with
      | Some b => ret b
      | None => unlock_loop vm_id max_retries (S attempt) left'
      end
  end.

Definition _wait_for_lxc_unlock (vm_id : pyval) (max_retries : nat) : M bool :=
  unlock_loop vm_id max_retries 0 max_retries.

(** ** [_wait_for_lxc_stop] *)
Definition stop_poll (vm_id : pyval) (attempt : nat) : M (option bool) :=
  try_except
    (result <- _make_request ctx GET (lxc_path api vm_id "/status/current") None ;;
     data <- lift (py_get result "data" (VDict [])) ;;
     status <- lift (py_get data "status" (VStr "unknown")) ;;
     log Info [Lit "LXC "; Val vm_id; Lit " status: "; Val status;
               Lit " (attempt "; Val (VInt (Z.of_nat (attempt + 1))); Lit ")"] ;;;
     if py_eqb status (VStr "stopped") then
       log Info [Lit "LXC "; Val vm_id; Lit " successfully stopped"] ;;;
       ret (Some true)
     else
       sleep 1 ;;;
       ret None)
    (fun e =>
       log Warn [Lit "Error checking LXC "; Val vm_id; Lit " status: "; Err e] ;;;
       sleep 1 ;;;
       ret None).

Fixpoint stop_loop (vm_id : pyval) (max_retries attempt left : nat) : M bool :=
  match left with
  | O =>
      log Warn [Lit "LXC "; Val vm_id; Lit " did not stop after ";
                Val (VInt (Z.of_nat max_retries)); Lit " seconds"] ;;;
      ret false
  | S left' =>
      step <- stop_poll vm_id attempt ;;
      match step with
      | Some b => ret b
      | None => stop_loop vm_id max_retries (S attempt) left'
      end
  end.

Definition _wait_for_lxc_stop (vm_id : pyval) (max_retries : nat) : M bool :=
  stop_loop vm_id max_retries 0 max_retries.

(** ** [delete_lxc] *)

Definition max_delete_retries : nat := 10.

Definition delete_retryable (e : exn) : bool :=
  let error_msg := lower (exn_msg e) in
  contains "container is running" error_msg
  || contains "timeout" error_msg
  || contains "lock" error_msg.

(** The status check and second stop attempt made before a retry; any
    exception in it is swallowed. *)
Definition recheck_before_retry (vm_id : pyval) : M unit :=
  try_except
    (current_status <- get_lxc ctx api vm_id ;;
     status <- lift (py_get current_status "status" (VStr "unknown")) ;;
     log Info [Lit "LXC "; Val vm_id; Lit " status before retry: "; Val status] ;;;
     if py_eqb status (VStr "running") then
       log Warn [Lit "LXC "; Val vm_id; Lit " still running, attempting to stop again"] ;;;
       _make_request ctx POST (lxc_path api vm_id "/status/shutdown") None ;;;
       _wait_for_lxc_stop vm_id 15 ;;;
       ret tt
     else ret tt)
    (fun _ => ret tt).

(** One iteration of the deletion loop: [Some r] is [return r], [None]
    is [continue]; a raise leaves the loop. *)
Definition delete_attempt (vm_id : pyval) (attempt : nat) : M (option pyval) :=
  try_except
    (result <- _make_request ctx DELETE (lxc_path api vm_id EmptyString) None ;;
     log Info [Lit "LXC deletion completed: "; Val result] ;;;
     ret (Some result))
    (fun e =>
       if delete_retryable e && (attempt <? max_delete_retries - 1)%nat then
         let wait_time := ((attempt + 1) * 3)%nat in
         log Warn [Lit "Delete failed ("; Err e; Lit "), retrying in ";
                   Val (VInt (Z.of_nat wait_time)); Lit "s... (attempt ";
                   Val (VInt (Z.of_nat (attempt + 1))); Lit "/";
                   Val (VInt (Z.of_nat max_delete_retries)); Lit ")"] ;;;
         recheck_before_retry vm_id ;;;
         sleep wait_time ;;;
         ret None
       else
         log Error [Lit "Failed to delete LXC "; Val vm_id; Lit " after ";
                    Val (VInt (Z.of_nat max_delete_retries)); Lit " attempts: ";
                    Err e] ;;;
         raise e).

Fixpoint delete_loop (vm_id : pyval) (attempt left : nat) : M pyval :=
  match left with
  | O => ret (VDict [("data", VNone)])
  | S left' =>
      step <- delete_attempt vm_id attempt ;;
      match step with
      | Some r => ret r
      | None => delete_loop vm_id (S attempt) left'
      end
  end.

(** The graceful stop; its failure is only logged. *)
Definition graceful_stop (vm_id : pyval) : M unit :=
  try_except
    (_make_request ctx POST (lxc_path api vm_id "/status/stop") None ;;;
     log Info [Lit "Stop command sent to LXC "; Val vm_id])
    (fun e =>
       log Error [Lit "Failed to send stop command to LXC "; Val vm_id;
                  Lit ": "; Err e]).

(** The forced shutdown and the wait after it; a failure is only
    logged. *)
Definition force_shutdown (vm_id : pyval) : M unit :=
  log Warn [Lit "LXC "; Val vm_id;
            Lit " did not stop gracefully, forcing shutdown"] ;;;
  try_except
    (_make_request ctx POST (lxc_path api vm_id "/status/shutdown") None ;;;
     _wait_for_lxc_stop vm_id 30 ;;;
     ret tt)
    (fun e =>
       log Error [Lit "Failed to force shutdown LXC "; Val vm_id;
                  Lit ": "; Err e]).

(** The branch [if status == "running":] of the stop phase. *)
Definition stop_running (vm_id : pyval) : M unit :=
  log Info [Lit "Stopping LXC "; Val vm_id] ;;;
  graceful_stop vm_id ;;;
  stopped <- _wait_for_lxc_stop vm_id 60 ;;
  if negb stopped then force_shutdown vm_id else ret tt.

(** The stop phase: status read, graceful stop, forced shutdown. *)
Definition stop_phase (vm_id : pyval) : M unit :=
  try_except
    (current_status <- get_lxc ctx api vm_id ;;
     status <- lift (py_get current_status "status" (VStr "unknown")) ;;
     log Info [Lit "LXC "; Val vm_id; Lit " current status: "; Val status] ;;;
     if py_eqb status (VStr "running") then stop_running vm_id else ret tt)
    (fun e =>
       log Warn [Lit "Could not check LXC "; Val vm_id; Lit " status: "; Err e]).

Definition delete_lxc (vm_id : pyval) : M pyval :=
  log Info [Lit "Deleting LXC "; Val vm_id] ;;;
  _wait_for_lxc_unlock vm_id 30 ;;;
  stop_phase vm_id ;;;
  _wait_for_lxc_unlock vm_id 30 ;;;
  delete_loop vm_id 0 max_delete_retries.
End Lifecycle.

(* ================================================================== *)
(** * proxmox_lxc.py: the container resource *)
(* ================================================================== *)

(** [s.replace(c, EmptyString)] for a one-character [c] *)
Fixpoint remove_char (c : ascii) (s : string) : string :=
  match s with
  | EmptyString => EmptyString
  | String x rest =>
      if Ascii.eqb x c then remove_char c rest else String x (remove_char c rest)
  end.

(** [disk_size.replace("G", "").replace("g", "")]: only text has [replace]. *)
Definition strip_size_unit (disk_size : pyval) : result string :=
  match disk_size with
  | VStr s => Ok (remove_char "g"%char (remove_char "G"%char s))
  | _ => Raise (attribute_error "replace")
  end.

(** The keyword arguments of [LXCContainerArgs.__init__]; [VNone] is an
    argument left out. *)
Record lxc_args_in := LxcArgsIn {
  in_node : pyval;
  in_vm_id : pyval;
  in_hostname : pyval;
  in_template : pyval;
  in_cores : pyval;
  in_memory : pyval;
  in_swap : pyval;
  in_disks : pyval;
  in_networks : pyval;
  in_disk_size : pyval;
  in_network : pyval;
  in_ostemplate : pyval;
  in_password : pyval;
  in_ssh_public_keys : pyval;
  in_unprivileged : pyval;
  in_features : pyval;
  in_startup : pyval;
  in_onboot : pyval;
  in_start_on_create : pyval
}.

(** The attributes of an [LXCContainerArgs] object. *)
Record LXCContainerArgs := LxcArgs {
  node : pyval;
  vm_id : pyval;
  hostname : pyval;
  template : pyval;
  cores : pyval;
  memory : pyval;
  swap : pyval;
  disks : pyval;
  networks : pyval;
  ostemplate : pyval;
  password : pyval;
  ssh_public_keys : pyval;
  unprivileged : pyval;
  features : pyval;
  startup : pyval;
  onboot : pyval;
  start_on_create : pyval
}.

Definition is_none (v : pyval) : bool :=
  match v with VNone => true | _ => false end.

Definition LXCContainerArgs_init (a : lxc_args_in) : result LXCContainerArgs :=
  match
    (if negb (is_none (in_disks a)) then Ok (in_disks a)
     else if negb (is_none (in_disk_size a)) then
       match strip_size_unit (in_disk_size a) with
       | Ok size => Ok (VDict [("rootfs", VStr ("local-lvm:" ++ size))])
       | Raise e => Raise e
       end
     else Ok (VDict [("rootfs", VStr "local-lvm:8")]))
  with
  | Raise e => Raise e
  | Ok the_disks =>
      let the_networks :=
        if negb (is_none (in_networks a)) then in_networks a
        else if negb (is_none (in_network a)) then VDict [("net0", in_network a)]
        else VDict [("net0", VStr "name=eth0,bridge=vmbr0,ip=dhcp")] in
      Ok {| node := in_node a;
            vm_id := in_vm_id a;
            hostname := in_hostname a;
            template := in_template a;
            cores := py_or (in_cores a) (VInt 1);
            memory := py_or (in_memory a) (VInt 512);
            swap := py_or (in_swap a) (VInt 512);
            disks := the_disks;
            networks := the_networks;
            ostemplate := in_ostemplate a;
            password := in_password a;
            ssh_public_keys := in_ssh_public_keys a;
            unprivileged :=
              if negb (is_none (in_unprivileged a)) then in_unprivileged a
              else VBool true;
            features := py_or (in_features a) (VDict []);
            startup := in_startup a;
            onboot := in_onboot a;
            start_on_create :=
              if negb (is_none (in_start_on_create a)) then in_start_on_create a
              else VBool true |}
  end.

(** [{k: v for k, v in props.items() if v is not None}] *)
Definition drop_none (props : pydict) : pydict :=
  filter (fun kv => negb (is_none (snd kv))) props.

Record CreateResult := MkCreateResult { id_ : string; create_outs : pydict }.
Record UpdateResult := MkUpdateResult { update_outs : pydict }.

(** The outputs [create] returns for a given id, node and status. *)
Definition create_outputs (props : pydict) (vm_id the_node status : pyval) : pydict :=
  [("vm_id", vm_id);
   ("node", the_node);
   ("hostname", get_default props "hostname" (VStr ("lxc-" ++ py_str vm_id)));
   ("status", status);
   ("cores", get_default props "cores" (VInt 1));
   ("memory", get_default props "memory" (VInt 512));
   ("swap", get_default props "swap" (VInt 512));
   ("disks", get_default props "disks" (VDict []));
   ("networks", get_default props "networks" (VDict []));
   ("unprivileged", get_default props "unprivileged" (VBool true));
   ("proxmox_endpoint", get_or_none props "proxmox_endpoint");
   ("proxmox_node", get_or_none props "proxmox_node")].

Section LXCContainerProvider.
Variable ctx : context.

(** The property bag [LXCContainer.__init__] hands to the provider. *)
Definition LXCContainer_props (args : LXCContainerArgs) : result pydict :=
  match config_require ctx "endpoint" with
  | Raise e => Raise e
  | Ok endpoint =>
      match config_require ctx "username" with
      | Raise e => Raise e
      | Ok username =>
          match config_require ctx "password" with
          | Raise e => Raise e
          | Ok secret =>
              Ok (drop_none
                    [("node", node args);
                     ("vm_id", vm_id args);
                     ("hostname", hostname args);
                     ("template", template args);
                     ("cores", cores args);
                     ("memory", memory args);
                     ("swap", swap args);
                     ("disks", disks args);
                     ("networks", networks args);
                     ("ostemplate", ostemplate args);
                     ("password", password args);
                     ("ssh_public_keys", ssh_public_keys args);
                     ("unprivileged", unprivileged args);
                     ("features", features args);
                     ("startup", startup args);
                     ("onboot", onboot args);
                     ("start_on_create", start_on_create args);
                     ("proxmox_endpoint", endpoint);
                     ("proxmox_username", username);
                     ("proxmox_password", secret);
                     ("proxmox_node", get_default (ctx_config ctx) "node" (VStr "pve"));
                     ("proxmox_insecure",
                      get_default (ctx_config ctx) "insecure" (VBool false))])
          end
      end
  end.

(** [ProxmoxAPI(endpoint=props.get("proxmox_endpoint"), ...)] *)
Definition api_of_props (props : pydict) : result ProxmoxAPI :=
  ProxmoxAPI_init ctx
    (get_or_none props "proxmox_endpoint")
    (get_or_none props "proxmox_username")
    (get_or_none props "proxmox_password")
    (get_or_none props "proxmox_node")
    (get_default props "proxmox_insecure" (VBool false)).

(** The keyword arguments [create] passes to [create_lxc]. *)
Definition create_lxc_kwargs (props : pydict) (vm_id : pyval) : pydict :=
  [("hostname", get_default props "hostname" (VStr ("lxc-" ++ py_str vm_id)));
   ("cores", get_default props "cores" (VInt 1));
   ("memory", get_default props "memory" (VInt 512));
   ("swap", get_default props "swap" (VInt 512));
   ("disks", get_default props "disks" (VDict []));
   ("networks", get_default props "networks" (VDict []));
   ("ostemplate", get_or_none props "ostemplate");
   ("password", get_or_none props "password");
   ("ssh_public_keys", get_or_none props "ssh_public_keys");
   ("unprivileged", get_default props "unprivileged" (VBool true));
   ("features", get_default props "features" (VDict []));
   ("startup", get_or_none props "startup");
   ("onboot", get_or_none props "onboot")].

(** The start issued after creation; its failure is only logged. *)
Definition start_after_create (api : ProxmoxAPI) (vm_id : pyval) : M unit :=
  try_except
    (start_lxc ctx api vm_id ;;;
     log Info [Lit "LXC "; Val vm_id; Lit " started automatically after creation"] ;;;
     sleep 3)
    (fun e =>
       log Error [Lit "Failed to start LXC "; Val vm_id; Lit " after creation: "; Err e]).

(** The [try] block of [LXCContainerProvider.create]. *)
Definition create_body (props : pydict) : M CreateResult :=
  api <- lift (api_of_props props) ;;
  let vm_id := py_or (get_or_none props "vm_id") (VInt 200) in
  create_lxc ctx api vm_id (create_lxc_kwargs props vm_id) ;;;
  (if truthy (get_default props "start_on_create" (VBool true))
   then start_after_create api vm_id
   else ret tt) ;;;
  lxc_info <- get_lxc ctx api vm_id ;;
  the_node <- lift (py_index props "node") ;;
  status <- lift (py_get lxc_info "status" (VStr "unknown")) ;;
  let outputs := create_outputs props vm_id the_node status in
  log Info [Lit "Successfully created LXC "; Val vm_id] ;;;
  ret (MkCreateResult (py_str vm_id) outputs).

(** [LXCContainerProvider.create] *)
Definition create (props : pydict) : M CreateResult :=
  try_except
    (create_body props)
    (fun e =>
       log Error [Lit "Failed to create LXC: "; Err e] ;;;
       raise e).

(** The mutable fields [update] compares, in the order it compares them. *)
Definition mutable_fields : list string :=
  ["cores"; "memory"; "swap"; "hostname"; "disks"; "networks"; "features";
   "startup"; "onboot"].

(** [if new_props.get(k) != old_props.get(k): update_params[k] = new_props[k]],
    for each field in turn. *)
Fixpoint diff_fields (fields : list string) (old_props new_props : pydict)
         (update_params : pydict) : result pydict :=
  match fields with
  | [] => Ok update_params
  | k :: rest =>
      if py_neb (get_or_none new_props k) (get_or_none old_props k) then
        match py_index new_props k with
        | Ok v => diff_fields rest old_props new_props (dict_set update_params k v)
        | Raise e => Raise e
        end
      else diff_fields rest old_props new_props update_params
  end.

(** [LXCContainerProvider.update] *)
Definition update (id : string) (old_props new_props : pydict) : M UpdateResult :=
  try_except
    (api <- lift (api_of_props new_props) ;;
     vid <- lift (ctx_int_float ctx id) ;;
     let vm_id := VInt vid in
     update_params <- lift (diff_fields mutable_fields old_props new_props []) ;;
     (match update_params with
      | _ :: _ => update_lxc ctx api vm_id update_params ;;; ret tt
      | [] => ret tt
      end) ;;;
     lxc_info <- get_lxc ctx api vm_id ;;
     let outputs := dict_update old_props new_props in
     status <- lift (py_get lxc_info "status" (VStr "unknown")) ;;
     let outputs := dict_set outputs "status" status in
     log Info [Lit "Successfully updated LXC "; Val vm_id] ;;;
     ret (MkUpdateResult outputs))
    (fun e =>
       log Error [Lit "Failed to update LXC: "; Err e] ;;;
       raise e).

(** [LXCContainerProvider.delete] *)
Definition delete (id : string) (props : pydict) : M unit :=
  try_except
    (api <- lift (api_of_props props) ;;
     vid <- lift (ctx_int_float ctx id) ;;
     let vm_id := VInt vid in
     delete_lxc ctx api vm_id ;;;
     log Info [Lit "Successfully deleted LXC "; Val vm_id])
    (fun e =>
       log Error [Lit "Failed to delete LXC: "; Err e] ;;;
       raise e).
End LXCContainerProvider.

(* ================================================================== *)
(** * proxmox_vm_qemu.py: the virtual machine resource *)
(* ================================================================== *)

Module VM.

(** The keyword arguments of [VirtualMachineArgs.__init__]. *)
Record vm_args_in := VmArgsIn {
  in_node : pyval;
  in_vm_id : pyval;
  in_name : pyval;
  in_template : pyval;
  in_cores : pyval;
  in_memory : pyval;
  in_disks : pyval;
  in_networks : pyval;
  in_disk_size : pyval;
  in_network : pyval;
  in_ssh_keys : pyval;
  in_ip_config : pyval;
  in_user : pyval;
  in_password : pyval
}.

(** The attributes of a [VirtualMachineArgs] object. *)
Record VirtualMachineArgs := VmArgs {
  node : pyval;
  vm_id : pyval;
  name : pyval;
  template : pyval;
  cores : pyval;
  memory : pyval;
  disks : pyval;
  networks : pyval;
  ssh_keys : pyval;
  ip_config : pyval;
  user : pyval;
  password : pyval
}.

Definition VirtualMachineArgs_init (a : vm_args_in) : result VirtualMachineArgs :=
  match
    (if negb (is_none (in_disks a)) then Ok (in_disks a)
     else if negb (is_none (in_disk_size a)) then
       match strip_size_unit (in_disk_size a) with
       | Ok size => Ok (VDict [("scsi0", VStr ("local-lvm:" ++ size))])
       | Raise e => Raise e
       end
     else Ok (VDict [("scsi0", VStr "local-lvm:20")]))
  with
  | Raise e => Raise e
  | Ok the_disks =>
      let the_networks :=
        if negb (is_none (in_networks a)) then in_networks a
        else if negb (is_none (in_network a)) then VDict [("net0", in_network a)]
        else VDict [("net0", VStr "virtio,bridge=vmbr0")] in
      Ok {| node := in_node a;
            vm_id := in_vm_id a;
            name := in_name a;
            template := in_template a;
            cores := py_or (in_cores a) (VInt 1);
            memory := py_or (in_memory a) (VInt 512);
            disks := the_disks;
            networks := the_networks;
            ssh_keys := in_ssh_keys a;
            ip_config := in_ip_config a;
            user := in_user a;
            password := in_password a |}
  end.

Section VirtualMachineProvider.
Variable ctx : context.

(** The property bag [VirtualMachine.__init__] hands to the provider. *)
Definition VirtualMachine_props (args : VirtualMachineArgs) : result pydict :=
  match config_require ctx "endpoint" with
  | Raise e => Raise e
  | Ok endpoint =>
      match config_require ctx "username" with
      | Raise e => Raise e
      | Ok username =>
          match config_require ctx "password" with
          | Raise e => Raise e
          | Ok secret =>
              Ok (drop_none
                    [("node", node args);
                     ("vm_id", vm_id args);
                     ("name", name args);
                     ("template", template args);
                     ("cores", cores args);
                     ("memory", memory args);
                     ("disks", disks args);
                     ("networks", networks args);
                     ("ssh_keys", ssh_keys args);
                     ("ip_config", ip_config args);
                     ("user", user args);
                     ("password", password args);
                     ("proxmox_endpoint", endpoint);
                     ("proxmox_username", username);
                     ("proxmox_password", secret);
                     ("proxmox_node", get_default (ctx_config ctx) "node" (VStr "pve"));
                     ("proxmox_insecure",
                      get_default (ctx_config ctx) "insecure" (VBool false))])
          end
      end
  end.

(** The keyword arguments [create] passes to [create_vm]. *)
Definition create_vm_kwargs (props : pydict) (vm_id : pyval) : pydict :=
  [("cores", get_default props "cores" (VInt 1));
   ("memory", get_default props "memory" (VInt 512));
   ("name", get_default props "name" (VStr ("vm-" ++ py_str vm_id)));
   ("disks", get_default props "disks" (VDict []));
   ("networks", get_default props "networks" (VDict []))].

(** [VirtualMachineProvider.create] *)
Definition create (props : pydict) : M CreateResult :=
  try_except
    (api <- lift (api_of_props ctx props) ;;
     let vm_id := py_or (get_or_none props "vm_id") (VInt 100) in
     create_vm ctx api vm_id (create_vm_kwargs props vm_id) ;;;
     vm_info <- get_vm ctx api vm_id ;;
     the_node <- lift (py_index props "node") ;;
     status <- lift (py_get vm_info "status" (VStr "unknown")) ;;
     let outputs : pydict :=
       [("vm_id", vm_id);
        ("node", the_node);
        ("name", get_default props "name" (VStr ("vm-" ++ py_str vm_id)));
        ("status", status);
        ("cores", get_default props "cores" (VInt 1));
        ("memory", get_default props "memory" (VInt 512));
        ("disks", get_default props "disks" (VDict []));
        ("networks", get_default props "networks" (VDict []));
        ("proxmox_endpoint", get_or_none props "proxmox_endpoint");
        ("proxmox_node", get_or_none props "proxmox_node");
        ("proxmox_insecure", get_or_none props "proxmox_insecure")] in
     log Info [Lit "Successfully created VM "; Val vm_id] ;;;
     ret (MkCreateResult (py_str vm_id) outputs))
    (fun e =>
       log Error [Lit "Failed to create VM: "; Err e] ;;;
       raise e).
End VirtualMachineProvider.

End VM.

(* ================================================================== *)
(** * Reading a trace *)
(* ================================================================== *)

(** The requests of a trace, in order. *)
Fixpoint requests (evs : list event) : list request :=
  match evs with
  | [] => []
  | Call r _ :: rest => r :: requests rest
  | _ :: rest => requests rest
  end.

Definition is_method (m : http_method) (r : request) : bool :=
  match m, req_method r with
  | GET, GET | POST, POST | PUT, PUT | DELETE, DELETE => true
  | _, _ => false
  end.

(** The seconds slept, in order. *)
Fixpoint sleeps (evs : list event) : list nat :=
  match evs with
  | [] => []
  | Sleep s :: rest => s :: sleeps rest
  | _ :: rest => sleeps rest
  end.

(** The text after the first colon of a disk spec, when the spec is a
    string that has one. *)
Definition size_segment (disk_config : pyval) : option string :=
  match disk_config with
  | VStr cfg => option_map snd (split_once ":"%char cfg)
  | _ => None
  end.


(** The body of the resize request for one slot. *)
Definition resize_request (api : ProxmoxAPI) (vm_id : pyval) (slot : string)
           (size : Z) : request :=
  Req PUT (lxc_path api vm_id "/resize")
      (Some [("disk", VStr slot); ("size", VStr (str_of_int size ++ "G"))]).

(** The outcomes of the requests of a trace, in order. *)
Fixpoint outcomes (evs : list event) : list (result pyval) :=
  match evs with
  | [] => []
  | Call _ o :: rest => o :: outcomes rest
  | _ :: rest => outcomes rest
  end.

(** The status read both wait loops poll with. *)
Definition status_request (api : ProxmoxAPI) (vm_id : pyval) : request :=
  Req GET (lxc_path api vm_id "/status/current") None.

(** A poll outcome that [_wait_for_lxc_unlock] takes for "still locked". *)
Definition still_locked (o : result pyval) : bool :=
  match o with
  | Raise e => lock_classified e
  | Ok _ => false
  end.

(** A poll outcome that reports the status [stopped]. *)
Definition reports_stopped (o : result pyval) : bool :=
  match o with
  | Ok body =>
      match py_get body "data" (VDict []) with
      | Ok data =>
          match py_get data "status" (VStr "unknown") with
          | Ok status => py_eqb status (VStr "stopped")
          | Raise _ => false
          end
      | Raise _ => false
      end
  | Raise _ => false
  end.


(** The outcomes of the delete calls of a trace, in order. *)
Fixpoint delete_outcomes (evs : list event) : list (result pyval) :=
  match evs with
  | [] => []
  | Call r o :: rest =>
      if is_method DELETE r then o :: delete_outcomes rest else delete_outcomes rest
  | _ :: rest => delete_outcomes rest
  end.

(** The sleeps that come immediately before a delete call, in order. *)
Fixpoint retry_waits (evs : list event) : list nat :=
  match evs with
  | [] => []
  | Sleep s :: rest =>
      match rest with
      | Call r _ :: _ =>
          if is_method DELETE r then s :: retry_waits rest else retry_waits rest
      | _ => retry_waits rest
      end
  | _ :: rest => retry_waits rest
  end.


(** What [get_lxc] returns for a given outcome of its status read: the
    [data] member of the body, the empty dictionary on any failure. *)
Definition lxc_info_of (o : result pyval) : pyval :=
  match o with
  | Ok body =>
      match py_get body "data" (VDict []) with
      | Ok data => data
      | Raise _ => VDict []
      end
  | Raise _ => VDict []
  end.





(** A failed request whose exception is named in an error line of the
    trace. *)
Definition failure_logged (evs : list event) (e : exn) : Prop :=
  exists msg, In (Log Error msg) evs /\ In (Err e) msg.


(** The resize requests [update_lxc] issues for a dictionary of disks:
    one per slot whose spec passes the validation, in the order of the
    dictionary. *)
Definition slot_resize_requests (api : ProxmoxAPI) (vm_id : pyval)
           (slot : string) (disk_config : pyval) : list request :=
  match size_segment disk_config with
  | Some seg =>
      if isdigit seg then [resize_request api vm_id slot (digits_value 0 seg)] else []
  | None => []
  end.

Definition resize_requests (api : ProxmoxAPI) (vm_id : pyval) (disks : pydict)
  : list request :=
  flat_map (fun kv => slot_resize_requests api vm_id (fst kv) (snd kv)) disks.

(** The generic configuration update. *)
Definition config_request (api : ProxmoxAPI) (vm_id : pyval) (body : pydict)
  : request :=
  Req PUT (lxc_path api vm_id "/config") (Some body).


(** The create call and the start call of [create]. *)
Definition create_request (api : ProxmoxAPI) (body : pydict) : request :=
  Req POST [Lit "nodes/"; Val (api_node api); Lit "/lxc"] (Some body).

Definition start_request (api : ProxmoxAPI) (vm_id : pyval) : request :=
  Req POST (lxc_path api vm_id "/status/start") None.

(** A poll outcome that does not report [stopped]. *)
Definition not_stopped (o : result pyval) : bool := negb (reports_stopped o).

(** A failed request whose exception is named in a warning of the trace. *)
Definition failure_warned (evs : list event) (e : exn) : Prop :=
  exists msg, In (Log Warn msg) evs /\ In (Err e) msg.

(** Every request a computation issues satisfies [P], from any history. *)
Definition sends_only {A} (P : request -> Prop) (m : M A) : Prop :=
  forall h, Forall P (requests (snd (m h))).

(** A computation that returns normally from any history. *)
Definition never_raises {A} (m : M A) : Prop :=
  forall h, exists a, fst (m h) = Ok a.



(** Pairwise distinct strings, decided by computation. *)
Fixpoint distinct (l : list string) : bool :=
  match l with
  | [] => true
  | x :: rest => negb (existsb (String.eqb x) rest) && distinct rest
  end.

(** ** Cost of a run *)

(** From any history, a computation issues at most [nreq] requests and
    sleeps at most [nsleep] seconds in all. *)
Definition costs_at_most {A} (nreq nsleep : nat) (m : M A) : Prop :=
  forall h,
    List.length (requests (snd (m h))) <= nreq
    /\ list_sum (sleeps (snd (m h))) <= nsleep.

(* ================================================================== *)
(** * proxmox_api.py: the remaining virtual machine calls *)
(* ================================================================== *)

(** The statements of [update_vm] that fill [vm_params]; unlike
    [update_lxc], the disks go into the same dictionary. *)
Definition vm_update_params (params : pydict) : result pydict :=
  rbind (set_int_if_present params "cores" []) (fun vm_params =>
  rbind (set_int_if_present params "memory" vm_params) (fun vm_params =>
  let vm_params :=
    match dict_get params "name" with
    | Some v => dict_set vm_params "name" v
    | None => vm_params
    end in
  rbind (match dict_get params "disks" with
         | Some disks =>
             rbind (py_items disks) (fun items => Ok (dict_update vm_params items))
         | None => Ok vm_params
         end) (fun vm_params =>
  match dict_get params "networks" with
  | Some networks =>
      rbind (py_items networks) (fun items => Ok (dict_update vm_params items))
  | None => Ok vm_params
  end))).

Section VirtualMachineClient.
Variable ctx : context.
Variable api : ProxmoxAPI.

(** ** [update_vm] *)
Definition update_vm (vm_id : pyval) (params : pydict) : M pyval :=
  log Info [Lit "Updating VM "; Val vm_id] ;;;
  vm_params <- lift (vm_update_params params) ;;
  log Info [Lit "VM update params: "; Val (VDict vm_params)] ;;;
  result <- _make_request ctx PUT (qemu_path api vm_id "/config") (Some vm_params) ;;
  log Info [Lit "VM update completed: "; Val result] ;;;
  ret result.

(** ** [delete_vm] *)
Definition delete_vm (vm_id : pyval) : M pyval :=
  log Info [Lit "Deleting VM "; Val vm_id] ;;;
  try_except
    (_make_request ctx POST (qemu_path api vm_id "/status/stop") None ;;;
     log Info [Lit "VM "; Val vm_id; Lit " stopped"])
    (fun e => log Warn [Lit "Failed to stop VM "; Val vm_id; Lit ": "; Err e]) ;;;
  result <- _make_request ctx DELETE (qemu_path api vm_id EmptyString) None ;;
  log Info [Lit "VM deletion completed: "; Val result] ;;;
  ret result.

(** ** [start_vm] *)
Definition start_vm (vm_id : pyval) : M pyval :=
  log Info [Lit "Starting VM "; Val vm_id] ;;;
  vid <- lift (py_int vm_id) ;;
  _make_request ctx POST (qemu_path api (VInt vid) "/status/start") None.
End VirtualMachineClient.

(* ================================================================== *)
(** * proxmox_vm_qemu.py: update and delete *)
(* ================================================================== *)

Module VirtualMachineProvider.
Section Provider.
Variable ctx : context.

(** The fields [update] compares, in the order it compares them. *)
Definition mutable_fields : list string :=
  ["cores"; "memory"; "name"; "disks"; "networks"].

(** [VirtualMachineProvider.update] *)
Definition update (id : string) (old_props new_props : pydict) : M UpdateResult :=
  try_except
    (api <- lift (api_of_props ctx new_props) ;;
     vid <- lift (ctx_int_float ctx id) ;;
     let vm_id := VInt vid in
     update_params <- lift (diff_fields mutable_fields old_props new_props []) ;;
     (match update_params with
      | _ :: _ => update_vm ctx api vm_id update_params ;;; ret tt
      | [] => ret tt
      end) ;;;
     vm_info <- get_vm ctx api vm_id ;;
     let outputs := dict_update old_props new_props in
     status <- lift (py_get vm_info "status" (VStr "unknown")) ;;
     let outputs := dict_set outputs "status" status in
     log Info [Lit "Successfully updated VM "; Val vm_id] ;;;
     ret (MkUpdateResult outputs))
    (fun e =>
       log Error [Lit "Failed to update VM: "; Err e] ;;;
       raise e).

(** [VirtualMachineProvider.delete] *)
Definition delete (id : string) (props : pydict) : M unit :=
  try_except
    (api <- lift (api_of_props ctx props) ;;
     vid <- lift (ctx_int_float ctx id) ;;
     let vm_id := VInt vid in
     delete_vm ctx api vm_id ;;;
     log Info [Lit "Successfully deleted VM "; Val vm_id])
    (fun e =>
       log Error [Lit "Failed to delete VM: "; Err e] ;;;
       raise e).
End Provider.
End VirtualMachineProvider.

(** ** The calls of the virtual machine resource *)

Definition vm_create_request (api : ProxmoxAPI) (body : pydict) : request :=
  Req POST [Lit "nodes/"; Val (api_node api); Lit "/qemu"] (Some body).

Definition vm_status_request (api : ProxmoxAPI) (vm_id : pyval) : request :=
  Req GET (qemu_path api vm_id "/status/current") None.

Definition vm_config_request (api : ProxmoxAPI) (vm_id : pyval) (body : pydict)
  : request :=
  Req PUT (qemu_path api vm_id "/config") (Some body).

Definition vm_stop_request (api : ProxmoxAPI) (vm_id : pyval) : request :=
  Req POST (qemu_path api vm_id "/status/stop") None.

Definition vm_delete_request (api : ProxmoxAPI) (vm_id : pyval) : request :=
  Req DELETE (qemu_path api vm_id EmptyString) None.

(* ================================================================== *)
(** * proxmox_lxc.py: reading the status of a container *)
(* ================================================================== *)

Section LXCContainerStatus.
Variable ctx : context.

(** The [try] block of the inner function [_get_status]. *)
Definition _get_status_body (vm_id_str : string) : M pyval :=
  endpoint <- lift (config_require ctx "endpoint") ;;
  username <- lift (config_require ctx "username") ;;
  secret <- lift (config_require ctx "password") ;;
  api <- lift (ProxmoxAPI_init ctx endpoint username secret
                 (get_default (ctx_config ctx) "node" (VStr "pve"))
                 (get_default (ctx_config ctx) "insecure" (VBool false))) ;;
  vm_id <- lift (py_int (VStr vm_id_str)) ;;
  lxc_info <- get_lxc ctx api (VInt vm_id) ;;
  status <- lift (py_get lxc_info "status" VNone) ;;
  ret (if is_none status then VStr "unknown" else status).

(** The inner function [_get_status] of [LXCContainer.get_status]. *)
Definition _get_status (vm_id_str : string) : M pyval :=
  try_except
    (_get_status_body vm_id_str)
    (fun e =>
       log Warn [Lit "Failed to get LXC status: "; Err e] ;;;
       ret (VStr "unknown")).

(** [LXCContainer.get_status], applied to the id of the resource. *)
Definition get_status (vm_id : pyval) : M pyval := _get_status (py_str vm_id).
End LXCContainerStatus.

(** The value of a decimal numeral, most significant digit first. *)
Fixpoint uint_value (acc : Z) (d : Decimal.uint) : Z :=
  match d with
  | Decimal.Nil => acc
  | Decimal.D0 d => uint_value (10 * acc + 0) d
  | Decimal.D1 d => uint_value (10 * acc + 1) d
  | Decimal.D2 d => uint_value (10 * acc + 2) d
  | Decimal.D3 d => uint_value (10 * acc + 3) d
  | Decimal.D4 d => uint_value (10 * acc + 4) d
  | Decimal.D5 d => uint_value (10 * acc + 5) d
  | Decimal.D6 d => uint_value (10 * acc + 6) d
  | Decimal.D7 d => uint_value (10 * acc + 7) d
  | Decimal.D8 d => uint_value (10 * acc + 8) d
  | Decimal.D9 d => uint_value (10 * acc + 9) d
  end.

(* ================================================================== *)
(** * proxmox_api.py: authentication and transport *)
(* ================================================================== *)

(** The inside of [_make_request]: the ticket the client holds, the
    session it sends with, and the HTTP exchange itself.  What lies
    outside is the network: it answers one exchange at a time. *)

Definition upper_ascii (c : ascii) : ascii :=
  let n := nat_of_ascii c in
  if (97 <=? n)%nat && (n <=? 122)%nat then ascii_of_nat (n - 32) else c.

(** [s.upper()] *)
Fixpoint upper (s : string) : string :=
  match s with
  | EmptyString => EmptyString
  | String c rest => String (upper_ascii c) (upper rest)
  end.

(** [s.lstrip(c)] for a one-character [c] *)
Fixpoint lstrip_char (c : ascii) (s : string) : string :=
  match s with
  | String x rest => if Ascii.eqb x c then lstrip_char c rest else s
  | EmptyString => EmptyString
  end.

(** [v[k]] for a string key: dictionaries look the key up, nothing else
    can be indexed by a string. *)
Definition py_subscript (v : pyval) (k : string) : result pyval :=
  match v with
  | VDict d => py_index d k
  | VStr _ => Raise (MkExn "TypeError" "string indices must be integers, not 'str'")
  | _ => Raise (MkExn "TypeError" "object is not subscriptable")
  end.

Module Transport.

(** What the code itself puts into its [requests.Session]. *)
Record session := MkSession {
  headers : pydict;
  cookies : pydict
}.

(** One HTTP exchange as [requests] is asked to perform it. *)
Record wire_request := Wire {
  w_method : http_method;
  w_url : fstring;
  w_data : option pydict;
  w_verify : bool;
  w_timeout : nat
}.

(** How an exchange ends, as far as the code can tell: the parsed JSON
    body; a [requests.exceptions.RequestException], with the parsed body
    and the text of its response if it has one; or any other exception. *)
Inductive wire_outcome : Type :=
| Json (body : pyval)
| RequestError (e : exn) (response : option (result pyval * string))
| OtherError (e : exn).

Inductive wire_event : Type :=
| Sent (s : session) (r : wire_request) (o : wire_outcome)
| Logged (l : level) (msg : fstring).

Definition wire_history := list wire_event.

(** The network: the outcome of an exchange may depend on everything
    before it and on the session it is sent with. *)
Definition http := wire_history -> session -> wire_request -> wire_outcome.

(** The attributes of a [ProxmoxAPI] object: the fields of [__init__]
    and the three it changes later. *)
Record client := MkClient {
  api : ProxmoxAPI;
  ticket : pyval;
  csrf_token : pyval;
  http_session : session
}.

(** The last three lines of [ProxmoxAPI.__init__]. *)
Definition new_client (a : ProxmoxAPI) : client :=
  MkClient a VNone VNone (MkSession [] []).

(** [cookies.set(name, value)]: a [None] value removes the cookie. *)
Definition cookies_set (jar : pydict) (name : string) (value : pyval) : pydict :=
  if is_none value
  then filter (fun kv => negb (String.eqb (fst kv) name)) jar
  else dict_set jar name value.

Section Wire.
Variable net : http.

Definition auth_request (c : client) : wire_request :=
  Wire POST [Val (api_endpoint (api c)); Lit "/access/ticket"]
       (Some [("username", api_username (api c)); ("password", api_password (api c))])
       (negb (truthy (api_insecure (api c)))) 30.

Definition auth_failed_line (e : exn) : wire_event :=
  Logged Error [Lit "Authentication failed: "; Err e].

(** [_authenticate]: the result, the client afterwards, the events. *)
Definition _authenticate (c : client) (h : wire_history)
  : bool * client * list wire_event :=
  let o := net h (http_session c) (auth_request c) in
  let sent := Sent (http_session c) (auth_request c) o in
  match o with
  | Json result =>
      match py_get result "data" VNone with
      | Raise e => (false, c, [sent; auth_failed_line e])
      | Ok data =>
          if truthy data then
            match py_subscript data "ticket" with
            | Raise e => (false, c, [sent; auth_failed_line e])
            | Ok t =>
                let c1 := MkClient (api c) t (csrf_token c) (http_session c) in
                match py_subscript data "CSRFPreventionToken" with
                | Raise e => (false, c1, [sent; auth_failed_line e])
                | Ok token =>
                    (true,
                     MkClient (api c) t token
                       (MkSession
                          (dict_update (headers (http_session c))
                                       [("CSRFPreventionToken", token)])
                          (cookies_set (cookies (http_session c)) "PVEAuthCookie" t)),
                     [sent])
                end
            end
          else (false, c, [sent])
      end
  | RequestError e _ => (false, c, [sent; auth_failed_line e])
  | OtherError e => (false, c, [sent; auth_failed_line e])
  end.

(** The branch on [method.upper()]. *)
Definition wire_method (m : string) : option http_method :=
  let u := upper m in
  if String.eqb u "GET" then Some GET
  else if String.eqb u "POST" then Some POST
  else if String.eqb u "PUT" then Some PUT
  else if String.eqb u "DELETE" then Some DELETE
  else None.

(** The exchange for an API call: [get] and [delete] are given no body. *)
Definition api_request (c : client) (wm : http_method) (path : string)
           (data : option pydict) : wire_request :=
  Wire wm [Val (api_endpoint (api c)); Lit "/"; Lit (lstrip_char "/"%char path)]
       (match wm with
        | POST | PUT => data
        | GET | DELETE => None
        end)
       (negb (truthy (api_insecure (api c)))) 30.

(** The lines of the [except requests.exceptions.RequestException]
    clause. *)
Definition request_failed_lines (e : exn) (response : option (result pyval * string))
  : list wire_event :=
  Logged Error [Lit "API request failed: "; Err e]
  :: match response with
     | None => []
     | Some (Ok error_details, _) =>
         [Logged Error [Lit "Error details: "; Val error_details]]
     | Some (Raise _, text) =>
         [Logged Error [Lit "Response text: "; Val (VStr text)]]
     end.

(** The [try] statement of [_make_request]. *)
Definition send (c : client) (m path : string) (data : option pydict)
           (h : wire_history) : result pyval * list wire_event :=
  match wire_method m with
  | None => (Raise (MkExn "ValueError" ("Unsupported HTTP method: " ++ m)), [])
  | Some wm =>
      let r := api_request c wm path data in
      let o := net h (http_session c) r in
      match o with
      | Json body => (Ok body, [Sent (http_session c) r o])
      | RequestError e response =>
          (Raise e, Sent (http_session c) r o :: request_failed_lines e response)
      | OtherError e => (Raise e, [Sent (http_session c) r o])
      end
  end.

(** [_make_request]: the result, the client afterwards, the events. *)
Definition _make_request (c : client) (m path : string) (data : option pydict)
           (h : wire_history) : result pyval * client * list wire_event :=
  if negb (truthy (ticket c)) then
    match _authenticate c h with
    | (false, c', evs) =>
        (Raise (MkExn "Exception" "Failed to authenticate with Proxmox"), c', evs)
    | (true, c', evs) =>
        match send c' m path data (h ++ evs) with
        | (r, evs') => (r, c', evs ++ evs')
        end
    end
  else
    match send c m path data h with
    | (r, evs) => (r, c, evs)
    end.
End Wire.

(** The exchanges of a trace, each with the session it was sent with. *)
Fixpoint exchanges (evs : list wire_event) : list (session * wire_request) :=
  match evs with
  | [] => []
  | Sent s r _ :: rest => (s, r) :: exchanges rest
  | Logged _ _ :: rest => exchanges rest
  end.

End Transport.

(** ** Sample surroundings used to run the code on concrete inputs *)

Definition sample_api : ProxmoxAPI :=
  Api (VStr "https://pve.example:8006/api2/json") (VStr "root@pam") (VStr "secret")
      (VStr "pve") (VBool false).

Definition sample_config : pydict :=
  [("endpoint", VStr "https://pve.example:8006/api2/json");
   ("username", VStr "root@pam");
   ("password", VStr "secret")].

(** [int(float(s))] on the ids the provider writes itself: decimal
    integers. *)
Definition sample_int_float (s : string) : result Z :=
  match int_of_str s with
  | Some z => Ok z
  | None => Raise (MkExn "ValueError" "could not convert string to float")
  end.

Definition status_body (status : string) : pyval :=
  VDict [("data", VDict [("status", VStr status)])].

Definition count_deletes (h : history) : nat := List.length (delete_outcomes h).

(** A property bag as [LXCContainer.__init__] builds it, with the given
    [cores] and [disks]. *)
Definition sample_props (the_cores : Z) (the_disks : pydict) : pydict :=
  [("node", VStr "pve");
   ("vm_id", VInt 215);
   ("hostname", VStr "web");
   ("cores", VInt the_cores);
   ("memory", VInt 2024);
   ("swap", VInt 512);
   ("disks", VDict the_disks);
   ("networks", VDict [("net0", VStr "name=eth0,bridge=vmbr0,ip=dhcp")]);
   ("unprivileged", VBool true);
   ("features", VDict [("nesting", VStr "1")]);
   ("start_on_create", VBool true);
   ("proxmox_endpoint", VStr "https://pve.example:8006/api2/json");
   ("proxmox_username", VStr "root@pam");
   ("proxmox_password", VStr "secret");
   ("proxmox_node", VStr "pve");
   ("proxmox_insecure", VBool false)].




(** Arguments of [LXCContainerArgs] with only [node] given, and the same
    with the legacy [disk_size] added. *)
Definition bare_lxc_args : lxc_args_in :=
  LxcArgsIn (VStr "pve") VNone VNone VNone VNone VNone VNone VNone VNone VNone
            VNone VNone VNone VNone VNone VNone VNone VNone VNone.

Definition legacy_lxc_args : lxc_args_in :=
  LxcArgsIn (VStr "pve") VNone VNone VNone VNone VNone VNone VNone VNone
            (VStr "16G") VNone VNone VNone VNone VNone VNone VNone VNone VNone.


(** A container that reports [running] twice and [stopped] from then on. *)
Definition stops_at_third_remote : remote :=
  fun h _ =>
    if (List.length (outcomes h) <? 2)%nat
    then Ok (status_body "running")
    else Ok (status_body "stopped").

(** A container that keeps running: every status read says [running],
    start, stop and shutdown are accepted, and the delete call fails with
    a busy message until it has been tried [failures] times. *)
Definition busy_remote (failures : nat) : remote :=
  fun h r =>
    match req_method r with
    | GET => Ok (status_body "running")
    | DELETE =>
        if (count_deletes h <? failures)%nat
        then Raise (MkExn "HTTPError" "500 Server Error: CT is running - destroy failed: container is running")
        else Ok (VDict [("data", VStr "UPID:pve:destroy")])
    | _ => Ok (VDict [("data", VNone)])
    end.

(** A remote side that accepts everything and reports a stopped
    container. *)
Definition calm_remote : remote :=
  fun _ r =>
    match req_method r with
    | GET => Ok (status_body "stopped")
    | _ => Ok (VDict [("data", VNone)])
    end.

Definition sample_ctx (r : remote) : context :=
  MkContext r sample_config sample_int_float.

(** A remote side that drives [delete_lxc] through its longest run: the
    container is locked during both unlock waits, keeps running in
    between and afterwards, and every delete call fails as busy. *)
Definition worst_case_remote : remote :=
  fun h r =>
    let n := List.length (outcomes h) in
    if ((n <? 30) || ((123 <=? n) && (n <? 153)))%nat
    then Raise (MkExn "HTTPError" "500 Server Error: CT is locked (snapshot)")
    else busy_remote 10 h r.

(** A remote side that refuses every request. *)
Definition failing_remote : remote :=
  fun _ _ => Raise (MkExn "HTTPError" "500 Server Error: Internal Server Error").

(** A virtual machine's property bag as [VirtualMachine.__init__] builds
    it, with the given [disks]. *)
Definition sample_vm_props (the_disks : pydict) : pydict :=
  [("node", VStr "pve");
   ("vm_id", VInt 115);
   ("name", VStr "db");
   ("cores", VInt 2);
   ("memory", VInt 2048);
   ("disks", VDict the_disks);
   ("networks", VDict [("net0", VStr "virtio,bridge=vmbr0")]);
   ("proxmox_endpoint", VStr "https://pve.example:8006/api2/json");
   ("proxmox_username", VStr "root@pam");
   ("proxmox_password", VStr "secret");
   ("proxmox_node", VStr "pve");
   ("proxmox_insecure", VBool false)].

(** A network whose ticket endpoint answers with a ticket but without
    the CSRF token, and which accepts everything else. *)
Definition ticket_only_net : Transport.http :=
  fun _ _ r =>
    match Transport.w_method r, Transport.w_data r with
    | POST, Some (("username", _) :: _) =>
        Transport.Json (VDict [("data", VDict [("ticket", VStr "PVE:root@pam:66F0")])])
    | _, _ => Transport.Json (VDict [("data", VNone)])
    end.

(** A network that hands out a ticket and a CSRF token. *)
Definition granting_net : Transport.http :=
  fun _ _ r =>
    match Transport.w_method r, Transport.w_data r with
    | POST, Some (("username", _) :: _) =>
        Transport.Json
          (VDict [("data", VDict [("ticket", VStr "PVE:root@pam:66F0");
                                  ("CSRFPreventionToken", VStr "66F0:abc")])])
    | _, _ => Transport.Json (VDict [("data", VNone)])
    end.

(* ================================================================== *)
(** * Disk resize: validation of the disk spec *)
(* ================================================================== *)

Ltac run :=
  unfold bind, try_except, log, sleep, emit, ret, raise, lift, _make_request;
  cbn [fst snd app requests sleeps negb].

Ltac case_remote :=
  match goal with
  | |- context [ctx_remote ?c ?h ?r] => destruct (ctx_remote c h r) eqn:?
  end.

Lemma split_once_empty sep : split_once sep EmptyString = None.
Proof. reflexivity. Qed.


(** Leading zeros are not kept: the size is printed from the integer. *)
Example resize_leading_zeros :
  requests (snd (_resize_lxc_disk (sample_ctx calm_remote) sample_api (VInt 215)
                   "rootfs" (VStr "local-lvm:007") []))
  = [Req PUT (lxc_path sample_api (VInt 215) "/resize")
         (Some [("disk", VStr "rootfs"); ("size", VStr "7G")])].
Proof. vm_compute. reflexivity. Qed.



(* ================================================================== *)
(** * Traces and the monad *)
(* ================================================================== *)

Lemma requests_app a b : requests (a ++ b) = requests a ++ requests b.
Proof.
  induction a as [| [r o | n | l m] a IH]; cbn; [reflexivity | f_equal; exact IH | exact IH | exact IH].
Qed.

Lemma outcomes_app a b : outcomes (a ++ b) = outcomes a ++ outcomes b.
Proof.
  induction a as [| [r o | n | l m] a IH]; cbn; [reflexivity | f_equal; exact IH | exact IH | exact IH].
Qed.

Lemma sleeps_app a b : sleeps (a ++ b) = sleeps a ++ sleeps b.
Proof.
  induction a as [| [r o | n | l m] a IH]; cbn; [reflexivity | exact IH | f_equal; exact IH | exact IH].
Qed.

Lemma requests_outcomes_length evs :
  List.length (requests evs) = List.length (outcomes evs).
Proof.
  induction evs as [| [r o | n | l m] evs IH]; cbn; auto.
Qed.

(** How a sequenced computation runs. *)
Lemma bind_run {A B} (m : M A) (k : A -> M B) (h : history) :
  bind m k h =
  match fst (m h) with
  | Ok a => (fst (k a (h ++ snd (m h))), snd (m h) ++ snd (k a (h ++ snd (m h))))
  | Raise e => (Raise e, snd (m h))
  end.
Proof.
  unfold bind. destruct (m h) as [[a | e] ev1]; cbn; [| reflexivity].
  destruct (k a (h ++ ev1)); reflexivity.
Qed.

Lemma try_except_run {A} (m : M A) (handler : exn -> M A) (h : history) :
  try_except m handler h =
  match fst (m h) with
  | Ok a => (Ok a, snd (m h))
  | Raise e => (fst (handler e (h ++ snd (m h))),
                snd (m h) ++ snd (handler e (h ++ snd (m h))))
  end.
Proof.
  unfold try_except. destruct (m h) as [[a | e] ev1]; cbn; [reflexivity |].
  destruct (handler e (h ++ ev1)); reflexivity.
Qed.

Lemma bind_log {B} l msg (k : unit -> M B) (h : history) :
  bind (log l msg) k h
  = (fst (k tt (h ++ [Log l msg])), Log l msg :: snd (k tt (h ++ [Log l msg]))).
Proof. rewrite bind_run. reflexivity. Qed.

Lemma bind_sleep {B} n (k : unit -> M B) (h : history) :
  bind (sleep n) k h
  = (fst (k tt (h ++ [Sleep n])), Sleep n :: snd (k tt (h ++ [Sleep n]))).
Proof. rewrite bind_run. reflexivity. Qed.

Lemma bind_lift {A B} (r : result A) (k : A -> M B) (h : history) :
  bind (lift r) k h
  = match r with
    | Ok a => k a h
    | Raise e => (Raise e, [])
    end.
Proof.
  rewrite bind_run. unfold lift. cbn [fst snd].
  destruct r as [a | e]; [| reflexivity].
  rewrite app_nil_r. now destruct (k a h).
Qed.

Lemma bind_ret {A B} (a : A) (k : A -> M B) (h : history) :
  bind (ret a) k h = k a h.
Proof. apply (bind_lift (Ok a)). Qed.

Lemma bind_request {B} ctx m path data (k : pyval -> M B) (h : history) :
  bind (_make_request ctx m path data) k h
  = let o := ctx_remote ctx h (Req m path data) in
    match o with
    | Ok r => (fst (k r (h ++ [Call (Req m path data) o])),
               Call (Req m path data) o :: snd (k r (h ++ [Call (Req m path data) o])))
    | Raise e => (Raise e, [Call (Req m path data) o])
    end.
Proof.
  rewrite bind_run. unfold _make_request. cbn [fst snd].
  destruct (ctx_remote ctx h (Req m path data)); reflexivity.
Qed.

(* ================================================================== *)
(** * The wait loops *)
(* ================================================================== *)

Section WaitLoops.
Variable ctx : context.
Variable api : ProxmoxAPI.
Variable vm_id : pyval.

(** One unlock poll: a single status read; it ends the loop with [True]
    unless the read failed with a lock or timeout message, in which case
    it sleeps one second and lets the loop go on. *)
Lemma unlock_poll_run (max_retries attempt : nat) (h : history) :
  let o := ctx_remote ctx h (status_request api vm_id) in
  fst (unlock_poll ctx api vm_id max_retries attempt h)
  = Ok (if still_locked o then None else Some true)
  /\ requests (snd (unlock_poll ctx api vm_id max_retries attempt h))
     = [status_request api vm_id]
  /\ outcomes (snd (unlock_poll ctx api vm_id max_retries attempt h)) = [o]
  /\ sleeps (snd (unlock_poll ctx api vm_id max_retries attempt h))
     = if still_locked o then [1] else [].
Proof.
  unfold unlock_poll, status_request. run.
  destruct (ctx_remote ctx h _) as [body | e] eqn:Ho; cbn.
  - repeat split; reflexivity.
  - destruct (lock_classified e); cbn; repeat split; reflexivity.
Qed.


(** The unlock loop with [left] iterations to go: either it returns
    [True] at the first poll that is not lock-classified, or every one of
    the [left] polls was lock-classified and it returns [False]. *)
Lemma unlock_loop_run (max_retries left attempt : nat) (h : history) :
  let p := unlock_loop ctx api vm_id max_retries attempt left h in
  Forall (eq (status_request api vm_id)) (requests (snd p))
  /\ ((fst p = Ok true
       /\ exists pre o,
           outcomes (snd p) = pre ++ [o]
           /\ forallb still_locked pre = true
           /\ still_locked o = false
           /\ List.length pre < left
           /\ sleeps (snd p) = repeat 1 (List.length pre))
      \/ (fst p = Ok false
          /\ forallb still_locked (outcomes (snd p)) = true
          /\ List.length (outcomes (snd p)) = left
          /\ sleeps (snd p) = repeat 1 left)).
Proof.
  revert attempt h. induction left as [| left IH]; intros attempt h.
  - cbn. split; [constructor |]. right. repeat split; reflexivity.
  - cbn [unlock_loop]. cbv zeta. rewrite bind_run.
    destruct (unlock_poll_run max_retries attempt h) as (Hf & Hr & Ho & Hs).
    cbv zeta in Hf, Ho, Hs. rewrite Hf.
    destruct (still_locked (ctx_remote ctx h (status_request api vm_id))) eqn:Hl;
      cbn [fst snd].
    + specialize (IH (S attempt)
                     (h ++ snd (unlock_poll ctx api vm_id max_retries attempt h))).
      cbv zeta in IH. destruct IH as (IHr & IHc).
      rewrite requests_app, outcomes_app, sleeps_app, Hr, Ho, Hs.
      split; [constructor; [reflexivity | exact IHr] |].
      destruct IHc as [(Ht & pre & o & Hpo & Hpre & Hlast & Hlen & Hsl)
                      | (Hfalse & Hall & Hlen & Hsl)].
      * left. split; [exact Ht |].
        exists (ctx_remote ctx h (status_request api vm_id) :: pre), o.
        rewrite Hpo, Hsl. cbn. rewrite Hl, Hpre.
        repeat split; try reflexivity; try assumption. lia.
      * right. split; [exact Hfalse |].
        rewrite Hsl. cbn. rewrite Hl, Hall, Hlen. repeat split; reflexivity.
    + rewrite app_nil_r, Hr, Ho, Hs.
      split; [repeat constructor |].
      left. split; [reflexivity |].
      exists [], (ctx_remote ctx h (status_request api vm_id)).
      cbn. repeat split; try reflexivity; try assumption. lia.
Qed.
End WaitLoops.


Section StopLoop.
Variable ctx : context.
Variable api : ProxmoxAPI.
Variable vm_id : pyval.

(** One stop poll: a single status read; it ends the loop with [True]
    when the read reports [stopped]; otherwise (another status, a body
    without a status, a failed read) it sleeps one second and lets the
    loop go on, and a failed read is written to the log. *)
Lemma stop_poll_run (attempt : nat) (h : history) :
  let o := ctx_remote ctx h (status_request api vm_id) in
  let p := stop_poll ctx api vm_id attempt h in
  fst p = Ok (if reports_stopped o then Some true else None)
  /\ requests (snd p) = [status_request api vm_id]
  /\ outcomes (snd p) = [o]
  /\ sleeps (snd p) = (if reports_stopped o then [] else [1])
  /\ (forall e, o = Raise e -> failure_warned (snd p) e).
Proof.
  unfold stop_poll, status_request, reports_stopped, failure_warned. run.
  destruct (ctx_remote ctx h _) as [body | e] eqn:Ho; cbn.
  - destruct (py_get body "data" (VDict [])) as [data | e1]; cbn.
    + destruct (py_get data "status" (VStr "unknown")) as [status | e2]; cbn.
      * destruct (py_eqb status (VStr "stopped")); cbn;
          repeat split; try reflexivity; discriminate.
      * repeat split; try reflexivity; discriminate.
    + repeat split; try reflexivity; discriminate.
  - repeat split; try reflexivity.
    intros e' He'. injection He' as <-.
    eexists. split; [right; left; reflexivity |]. cbn. tauto.
Qed.

Lemma failure_warned_app_l evs evs' e :
  failure_warned evs e -> failure_warned (evs ++ evs') e.
Proof.
  intros (msg & Hin & Hmsg). exists msg. split; [| exact Hmsg].
  apply in_or_app. now left.
Qed.

Lemma failure_warned_app_r evs evs' e :
  failure_warned evs' e -> failure_warned (evs ++ evs') e.
Proof.
  intros (msg & Hin & Hmsg). exists msg. split; [| exact Hmsg].
  apply in_or_app. now right.
Qed.

(** The stop loop with [left] iterations to go. *)
Lemma stop_loop_run (max_retries left attempt : nat) (h : history) :
  let p := stop_loop ctx api vm_id max_retries attempt left h in
  Forall (eq (status_request api vm_id)) (requests (snd p))
  /\ (forall e, In (Raise e) (outcomes (snd p)) -> failure_warned (snd p) e)
  /\ ((fst p = Ok true
       /\ exists pre o,
           outcomes (snd p) = pre ++ [o]
           /\ forallb not_stopped pre = true
           /\ reports_stopped o = true
           /\ List.length pre < left
           /\ sleeps (snd p) = repeat 1 (List.length pre))
      \/ (fst p = Ok false
          /\ forallb not_stopped (outcomes (snd p)) = true
          /\ List.length (outcomes (snd p)) = left
          /\ sleeps (snd p) = repeat 1 left)).
Proof.
  revert attempt h. induction left as [| left IH]; intros attempt h.
  - cbn. split; [constructor |]. split; [intros e [] |].
    right. repeat split; reflexivity.
  - cbn [stop_loop]. cbv zeta. rewrite bind_run.
    destruct (stop_poll_run attempt h) as (Hf & Hr & Ho & Hs & Hw).
    cbv zeta in Hf, Hr, Ho, Hs, Hw. rewrite Hf.
    destruct (reports_stopped (ctx_remote ctx h (status_request api vm_id))) eqn:Hl;
      cbn [fst snd].
    + rewrite app_nil_r, Hr, Ho, Hs.
      split; [repeat constructor |]. split.
      * intros e [He | []]. apply Hw. now symmetry.
      * left. split; [reflexivity |].
        exists [], (ctx_remote ctx h (status_request api vm_id)).
        cbn. repeat split; try reflexivity; try assumption. lia.
    + specialize (IH (S attempt) (h ++ snd (stop_poll ctx api vm_id attempt h))).
      cbv zeta in IH. destruct IH as (IHr & IHw & IHc).
      rewrite requests_app, outcomes_app, sleeps_app, Hr, Ho, Hs.
      split; [constructor; [reflexivity | exact IHr] |]. split.
      * intros e [He | He].
        -- apply failure_warned_app_l, Hw. now symmetry.
        -- apply failure_warned_app_r, IHw, He.
      * destruct IHc as [(Ht & pre & o & Hpo & Hpre & Hlast & Hlen & Hsl)
                        | (Hfalse & Hall & Hlen & Hsl)].
        -- left. split; [exact Ht |].
           exists (ctx_remote ctx h (status_request api vm_id) :: pre), o.
           rewrite Hpo, Hsl. cbn. unfold not_stopped at 1. rewrite Hl, Hpre.
           repeat split; try reflexivity; try assumption. lia.
        -- right. split; [exact Hfalse |].
           rewrite Hsl. cbn. unfold not_stopped at 1. rewrite Hl, Hall, Hlen.
           repeat split; reflexivity.
Qed.
End StopLoop.

(** C4: [_wait_for_lxc_stop] only issues status reads and never raises.
    It returns [True] if and only if one of the reads it made reported
    the status [stopped]; that read is then the last one and is among the
    first [max_retries].  It returns [False] after exactly [max_retries]
    reads none of which reported [stopped], whether they failed or
    reported something else.  Every failed read is named in a warning of
    the log, and every read that did not report [stopped] is followed by
    a one-second sleep. *)
Theorem wait_for_lxc_stop_spec
        (ctx : context) (api : ProxmoxAPI) (vm_id : pyval)
        (max_retries : nat) (h : history) :
  let p := _wait_for_lxc_stop ctx api vm_id max_retries h in
  let polls := outcomes (snd p) in
  Forall (eq (status_request api vm_id)) (requests (snd p))
  /\ (fst p = Ok true \/ fst p = Ok false)
  /\ (fst p = Ok true <-> existsb reports_stopped polls = true)
  /\ (fst p = Ok true ->
      exists pre o,
        polls = pre ++ [o]
        /\ forallb not_stopped pre = true
        /\ reports_stopped o = true
        /\ List.length pre < max_retries
        /\ sleeps (snd p) = repeat 1 (List.length pre))
  /\ (fst p = Ok false ->
      List.length polls = max_retries
      /\ forallb not_stopped polls = true
      /\ sleeps (snd p) = repeat 1 max_retries)
  /\ (forall e, In (Raise e) polls -> failure_warned (snd p) e).
Proof.
  unfold _wait_for_lxc_stop. cbv zeta.
  destruct (stop_loop_run ctx api vm_id max_retries max_retries 0 h)
    as (Hreq & Hwarn & Hc).
  cbv zeta in Hc, Hwarn.
  split; [exact Hreq |].
  assert (Hnone : forall l, forallb not_stopped l = true ->
                            existsb reports_stopped l = false).
  { induction l as [| x l IHl]; cbn; [reflexivity |].
    unfold not_stopped at 1. destruct (reports_stopped x); cbn; [discriminate | exact IHl]. }
  destruct Hc as [(Ht & pre & o & Hpo & Hpre & Hlast & Hlen & Hsl)
                 | (Hfalse & Hall & Hlen & Hsl)].
  - split; [left; exact Ht |]. repeat split.
    + intros _. rewrite Hpo, existsb_app. cbn. rewrite Hlast.
      now rewrite orb_true_r.
    + intros _. exact Ht.
    + intros _. exists pre, o. repeat split; assumption.
    + rewrite Ht in H. discriminate.
    + rewrite Ht in H. discriminate.
    + rewrite Ht in H. discriminate.
    + exact Hwarn.
  - split; [right; exact Hfalse |]. repeat split.
    + rewrite Hfalse. discriminate.
    + intros Hex. rewrite (Hnone _ Hall) in Hex. discriminate.
    + rewrite Hfalse. discriminate.
    + exact Hlen.
    + exact Hall.
    + exact Hsl.
    + exact Hwarn.
Qed.

(* ================================================================== *)
(** * What a computation may send *)
(* ================================================================== *)

Section SendsOnly.
Variable P : request -> Prop.

Lemma sends_only_ret {A} (a : A) : sends_only P (ret a).
Proof. intros h. constructor. Qed.

Lemma sends_only_raise {A} (e : exn) : sends_only P (@raise A e).
Proof. intros h. constructor. Qed.

Lemma sends_only_lift {A} (r : result A) : sends_only P (lift r).
Proof. intros h. constructor. Qed.

Lemma sends_only_log l msg : sends_only P (log l msg).
Proof. intros h. constructor. Qed.

Lemma sends_only_sleep n : sends_only P (sleep n).
Proof. intros h. constructor. Qed.

Lemma sends_only_bind {A B} (m : M A) (k : A -> M B) :
  sends_only P m -> (forall a, sends_only P (k a)) -> sends_only P (bind m k).
Proof.
  intros Hm Hk h. rewrite bind_run.
  destruct (fst (m h)) as [a | e]; cbn [snd]; [| apply Hm].
  rewrite requests_app. apply Forall_app. split; [apply Hm | apply Hk].
Qed.

Lemma sends_only_try {A} (m : M A) (handler : exn -> M A) :
  sends_only P m -> (forall e, sends_only P (handler e)) ->
  sends_only P (try_except m handler).
Proof.
  intros Hm Hk h. rewrite try_except_run.
  destruct (fst (m h)) as [a | e]; cbn [snd]; [apply Hm |].
  rewrite requests_app. apply Forall_app. split; [apply Hm | apply Hk].
Qed.

Lemma sends_only_request ctx m path data :
  P (Req m path data) -> sends_only P (_make_request ctx m path data).
Proof. intros HP h. cbn. constructor; [exact HP | constructor]. Qed.
End SendsOnly.

Lemma never_raises_ret {A} (a : A) : never_raises (ret a).
Proof. intros h. now exists a. Qed.

Lemma never_raises_log l msg : never_raises (log l msg).
Proof. intros h. now exists tt. Qed.

Lemma never_raises_sleep n : never_raises (sleep n).
Proof. intros h. now exists tt. Qed.

Lemma never_raises_bind {A B} (m : M A) (k : A -> M B) :
  never_raises m -> (forall a, never_raises (k a)) -> never_raises (bind m k).
Proof.
  intros Hm Hk h. rewrite bind_run. destruct (Hm h) as [a Ha]. rewrite Ha.
  cbn [fst]. apply Hk.
Qed.

Lemma never_raises_try {A} (m : M A) (handler : exn -> M A) :
  (forall e, never_raises (handler e)) -> never_raises (try_except m handler).
Proof.
  intros Hk h. rewrite try_except_run.
  destruct (fst (m h)) as [a | e]; cbn [fst]; [now exists a | apply Hk].
Qed.

Create HintDb effects.
#[export] Hint Resolve sends_only_ret sends_only_raise sends_only_lift
  sends_only_log sends_only_sleep never_raises_ret never_raises_log
  never_raises_sleep : effects.

Ltac effects :=
  repeat first
    [ progress intros
    | apply sends_only_bind | apply sends_only_try
    | apply never_raises_bind | apply never_raises_try
    | solve [auto with effects]
    | apply sends_only_request
    | match goal with
      | |- sends_only _ (if ?b then _ else _) => destruct b
      | |- never_raises (if ?b then _ else _) => destruct b
      | |- sends_only _ (match ?x with _ => _ end) => destruct x
      | |- never_raises (match ?x with _ => _ end) => destruct x
      end ].

Section Quiet.
Variable ctx : context.
Variable api : ProxmoxAPI.


Lemma get_lxc_never_raises vm_id : never_raises (get_lxc ctx api vm_id).
Proof. unfold get_lxc. effects. Qed.








End Quiet.

(* ================================================================== *)
(** * The deletion retry loop *)
(* ================================================================== *)





Section DeleteLoop.
Variable ctx : context.
Variable api : ProxmoxAPI.
Variable vm_id : pyval.



End DeleteLoop.

(* ================================================================== *)
(** * [delete_lxc]: phases and retry policy *)
(* ================================================================== *)

Section DeleteLxc.
Variable ctx : context.
Variable api : ProxmoxAPI.
Variable vm_id : pyval.



End DeleteLxc.


(** The scenario of a container that keeps running: nine busy failures,
    success at the tenth delete call, 3 + 6 + ... + 27 = 135 seconds of
    back-off. *)
Example delete_lxc_busy_nine_times :
  let p := delete_lxc (sample_ctx (busy_remote 9)) sample_api (VInt 215) [] in
  fst p = Ok (VDict [("data", VStr "UPID:pve:destroy")])
  /\ List.length (delete_outcomes (snd p)) = 10
  /\ retry_waits (snd p) = [3; 6; 9; 12; 15; 18; 21; 24; 27]
  /\ fold_right Nat.add 0 (retry_waits (snd p)) = 135.
Proof. vm_compute. repeat split. Qed.

(** Ten busy failures: the tenth is raised. *)
Example delete_lxc_busy_ten_times :
  let p := delete_lxc (sample_ctx (busy_remote 10)) sample_api (VInt 215) [] in
  fst p = Raise (MkExn "HTTPError"
                   "500 Server Error: CT is running - destroy failed: container is running")
  /\ List.length (delete_outcomes (snd p)) = 10.
Proof. vm_compute. repeat split. Qed.

Section StopPhase.
Variable ctx : context.
Variable api : ProxmoxAPI.
Variable vid : Z.

(** [get_lxc] on an integer id: one status read, never an exception. *)
Lemma get_lxc_run (h : history) :
  let o := ctx_remote ctx h (status_request api (VInt vid)) in
  let p := get_lxc ctx api (VInt vid) h in
  fst p = Ok (lxc_info_of o)
  /\ requests (snd p) = [status_request api (VInt vid)]
  /\ outcomes (snd p) = [o]
  /\ sleeps (snd p) = [].
Proof.
  cbv zeta. unfold get_lxc, status_request, lxc_info_of. cbn [py_int]. run.
  destruct (ctx_remote ctx h _) as [body | e]; cbn.
  - destruct (py_get body "data" (VDict [])); cbn; repeat split; reflexivity.
  - repeat split; reflexivity.
Qed.

Lemma failure_logged_app_l evs evs' e :
  failure_logged evs e -> failure_logged (evs ++ evs') e.
Proof.
  intros (msg & Hin & Hmsg). exists msg. split; [| exact Hmsg].
  apply in_or_app. now left.
Qed.

Lemma failure_logged_app_r evs evs' e :
  failure_logged evs' e -> failure_logged (evs ++ evs') e.
Proof.
  intros (msg & Hin & Hmsg). exists msg. split; [| exact Hmsg].
  apply in_or_app. now right.
Qed.


Local Abbreviation vm := (VInt vid).




End StopPhase.


(* ================================================================== *)
(** * Updates: diff, resize calls, configuration body *)
(* ================================================================== *)

Section UpdateLxc.
Variable ctx : context.
Variable api : ProxmoxAPI.
Variable vm_id : pyval.

(** The requests of one resize attempt. *)
Lemma resize_lxc_disk_requests slot disk_config h :
  requests (snd (_resize_lxc_disk ctx api vm_id slot disk_config h))
  = slot_resize_requests api vm_id slot disk_config.
Proof.
  unfold slot_resize_requests, size_segment, _resize_lxc_disk, resize_request.
  destruct disk_config as [| b | z | cfg | d]; try reflexivity.
  destruct (String.eqb cfg EmptyString) eqn:Hempty.
  - apply String.eqb_eq in Hempty. subst cfg. reflexivity.
  - destruct (split_once ":"%char cfg) as [[storage size_part] |];
      cbn [option_map snd]; [| reflexivity].
    destruct (isdigit size_part); run; [| reflexivity].
    case_remote; reflexivity.
Qed.

(** The loop over the disks never raises and issues the resize requests
    of the valid slots, in order. *)
Lemma resize_disks_run disks h :
  fst (resize_disks ctx api vm_id disks h) = Ok tt
  /\ requests (snd (resize_disks ctx api vm_id disks h))
     = resize_requests api vm_id disks.
Proof.
  unfold resize_disks. revert h.
  induction disks as [| [slot cfg] disks IH]; intros h; [split; reflexivity |].
  cbn [for_items resize_requests flat_map fst snd].
  rewrite bind_run, try_except_run, bind_run.
  pose proof (resize_lxc_disk_requests slot cfg h) as Hreq.
  destruct (fst (_resize_lxc_disk ctx api vm_id slot cfg h)) as [r | e];
    cbn [fst snd ret log emit].
  - destruct (IH (h ++ snd (_resize_lxc_disk ctx api vm_id slot cfg h) ++ [])) as [IHf IHr].
    split; [exact IHf |].
    rewrite !requests_app, Hreq, IHr. cbn [requests]. now rewrite app_nil_r.
  - destruct (IH (h ++ snd (_resize_lxc_disk ctx api vm_id slot cfg h)
                    ++ [Log Warn [Lit "Failed to resize disk "; Val (VStr slot);
                                  Lit ": "; Err e]])) as [IHf IHr].
    split; [exact IHf |].
    rewrite !requests_app, Hreq, IHr. cbn [requests]. now rewrite app_nil_r.
Qed.

(** The run of [update_lxc]: the resize requests of the disks, then at
    most one configuration update, whose body is the dictionary built
    from the other parameters. *)
Lemma update_lxc_run params h :
  forall disks,
    match dict_get params "disks" with
    | Some v => py_items v = Ok disks
    | None => disks = []
    end ->
    forall base body,
      scalar_params params = Ok base ->
      rest_params params base = Ok body ->
      requests (snd (update_lxc ctx api vm_id params h))
      = resize_requests api vm_id disks
        ++ match body with
           | [] => []
           | _ :: _ => [config_request api vm_id body]
           end.
Proof.
  intros disks Hdisks base body Hbase Hbody.
  unfold update_lxc. rewrite bind_log. cbn [fst snd requests].
  rewrite Hbase, bind_lift, bind_run.
  set (h0 := h ++ [Log Info [Lit "Updating LXC "; Val vm_id]]).
  assert (Hloop :
    let m := match dict_get params "disks" with
             | Some d => items <- lift (py_items d) ;; resize_disks ctx api vm_id items
             | None => ret tt
             end in
    fst (m h0) = Ok tt /\ requests (snd (m h0)) = resize_requests api vm_id disks).
  { cbv zeta. destruct (dict_get params "disks") as [v |].
    - rewrite bind_lift, Hdisks. apply resize_disks_run.
    - subst disks. split; reflexivity. }
  cbv zeta in Hloop. destruct Hloop as [Hf Hr]. rewrite Hf. cbn [fst snd].
  rewrite requests_app, Hr. f_equal.
  rewrite Hbody, bind_lift, bind_log. cbn [fst snd requests].
  destruct body as [| kv body]; [reflexivity |].
  rewrite bind_request. cbv zeta. unfold config_request.
  match goal with |- context [ctx_remote ctx ?hh ?rr] =>
    destruct (ctx_remote ctx hh rr) end; reflexivity.
Qed.
End UpdateLxc.

(* ================================================================== *)
(** * Dictionaries *)
(* ================================================================== *)

Section DictFacts.
Context {V : Type}.
Implicit Types (d other : list (string * V)) (k : string) (v : V).

Lemma dict_get_set d k v k' :
  dict_get (dict_set d k v) k' = if String.eqb k k' then Some v else dict_get d k'.
Proof.
  induction d as [| [k0 v0] d IH]; cbn.
  - destruct (String.eqb k k'); reflexivity.
  - destruct (String.eqb k0 k) eqn:H0; cbn.
    + apply String.eqb_eq in H0. subst k0.
      destruct (String.eqb k k'); reflexivity.
    + destruct (String.eqb k0 k') eqn:H1.
      * apply String.eqb_eq in H1. subst k'.
        rewrite String.eqb_sym, H0. reflexivity.
      * exact IH.
Qed.

Lemma dict_get_absent d k : ~ In k (dict_keys d) -> dict_get d k = None.
Proof.
  induction d as [| [k0 v0] d IH]; cbn; [reflexivity |]. intros Hnot.
  destruct (String.eqb k0 k) eqn:H0.
  - apply String.eqb_eq in H0. tauto.
  - apply IH. tauto.
Qed.

(** [d.update(other)] looks up like [other] first, then like [d]. *)
Lemma dict_get_update d other k :
  NoDup (dict_keys other) ->
  dict_get (dict_update d other) k
  = match dict_get other k with
    | Some v => Some v
    | None => dict_get d k
    end.
Proof.
  unfold dict_update. revert d.
  induction other as [| [k0 v0] other IH]; intros d Hnd; cbn; [reflexivity |].
  inversion Hnd as [| ? ? Hnotin Hnd']; subst.
  rewrite IH by exact Hnd'. rewrite dict_get_set.
  destruct (String.eqb k0 k) eqn:H0.
  - apply String.eqb_eq in H0. subst k0.
    now rewrite (dict_get_absent other k Hnotin).
  - reflexivity.
Qed.


End DictFacts.










(* ================================================================== *)
(** * [LXCContainerProvider.update] *)
(* ================================================================== *)

Section UpdateProvider.
Variable ctx : context.

(** The run of [update] once the client, the id and the diff are known:
    the update proper (nothing when the diff is empty), then the status
    read-back, then the merged outputs. *)
Lemma update_run id old_props new_props h api vid params :
  api_of_props ctx new_props = Ok api ->
  ctx_int_float ctx id = Ok vid ->
  diff_fields mutable_fields old_props new_props [] = Ok params ->
  let vm := VInt vid in
  let upd : M unit :=
    match params with
    | _ :: _ => update_lxc ctx api vm params ;;; ret tt
    | [] => ret tt
    end in
  let p := update ctx id old_props new_props h in
  match fst (upd h) with
  | Raise e => fst p = Raise e /\ requests (snd p) = requests (snd (upd h))
  | Ok _ =>
      let o := ctx_remote ctx (h ++ snd (upd h)) (status_request api vm) in
      requests (snd p) = requests (snd (upd h)) ++ [status_request api vm]
      /\ outcomes (snd p) = outcomes (snd (upd h)) ++ [o]
      /\ fst p = match py_get (lxc_info_of o) "status" (VStr "unknown") with
                 | Ok status =>
                     Ok (MkUpdateResult
                           (dict_set (dict_update old_props new_props) "status" status))
                 | Raise e => Raise e
                 end
  end.
Proof.
  intros Hapi Hid Hdiff. cbv zeta. unfold update.
  rewrite try_except_run, bind_lift, Hapi, bind_lift, Hid, bind_lift, Hdiff.
  rewrite bind_run.
  destruct (fst (match params with
                 | [] => ret tt
                 | _ :: _ => update_lxc ctx api (VInt vid) params ;;; ret tt
                 end h)) as [[] | e] eqn:Hupd.
  - cbn [fst snd]. rewrite bind_run.
    match goal with |- context [get_lxc ctx api (VInt vid) ?hh] =>
      destruct (get_lxc_run ctx api vid hh) as (Hf & Hr & Ho & _);
      set (g := get_lxc ctx api (VInt vid) hh) in * end.
    cbv zeta in Hf, Hr, Ho. rewrite Hf. cbn [fst snd].
    rewrite bind_lift.
    destruct (py_get _ "status" (VStr "unknown")) as [status | e].
    + rewrite bind_log. cbn [fst snd ret].
      rewrite !requests_app, !outcomes_app, Hr, Ho. cbn. rewrite ?app_nil_r.
      repeat split; reflexivity.
    + cbn [fst snd log emit raise].
      rewrite !requests_app, !outcomes_app, Hr, Ho. cbn. rewrite ?app_nil_r.
      repeat split; reflexivity.
  - cbn [fst snd log emit raise]. rewrite requests_app. cbn. rewrite ?app_nil_r.
    split; reflexivity.
Qed.

(** When the client, the id or the diff cannot be had, [update] raises
    before any request. *)
Lemma update_early_raise id old_props new_props h :
  (forall api vid params,
      api_of_props ctx new_props = Ok api ->
      ctx_int_float ctx id = Ok vid ->
      diff_fields mutable_fields old_props new_props [] = Ok params -> False) ->
  (exists e, fst (update ctx id old_props new_props h) = Raise e)
  /\ requests (snd (update ctx id old_props new_props h)) = [].
Proof.
  intros Hno. unfold update. rewrite try_except_run, bind_lift.
  destruct (api_of_props ctx new_props) as [api | e1] eqn:Hapi;
    [| cbn; split; [eexists |]; reflexivity].
  rewrite bind_lift.
  destruct (ctx_int_float ctx id) as [vid | e2] eqn:Hid;
    [| cbn; split; [eexists |]; reflexivity].
  rewrite bind_lift.
  destruct (diff_fields mutable_fields old_props new_props []) as [params | e3] eqn:Hd;
    [| cbn; split; [eexists |]; reflexivity].
  exfalso. eapply Hno; eauto.
Qed.
End UpdateProvider.

(** A diff over fields that all compare equal adds nothing. *)
Lemma diff_fields_unchanged fields old_props new_props acc :
  (forall f, In f fields ->
             py_eqb (get_or_none new_props f) (get_or_none old_props f) = true) ->
  diff_fields fields old_props new_props acc = Ok acc.
Proof.
  induction fields as [| f fields IH]; intros Heq; [reflexivity |].
  cbn [diff_fields]. unfold py_neb. rewrite (Heq f (or_introl eq_refl)). cbn [negb].
  apply IH. intros g Hg. apply Heq. now right.
Qed.


(** C2, as stated, fails: with old and new properties equal field for
    field, [update] still sends one request, the status read-back. *)
Lemma update_unchanged_reads_status :
  let props := sample_props 2 [("rootfs", VStr "local-lvm:8")] in
  forallb (fun f => py_eqb (get_or_none props f) (get_or_none props f)) mutable_fields
  = true
  /\ diff_fields mutable_fields props props [] = Ok []
  /\ requests (snd (update (sample_ctx calm_remote) "215" props props []))
     = [status_request sample_api (VInt 215)].
Proof. vm_compute. repeat split. Qed.

(** C2 (amended): when every mutable field of the new properties
    compares equal to the old one, the diff is empty, so neither a resize
    nor a configuration update is sent; the only request of [update] is
    the status read-back (and none at all when the client cannot be built
    or the id cannot be converted). *)
Theorem update_unchanged
        (ctx : context) (id : string) (old_props new_props : pydict) (h : history) :
  (forall f, In f mutable_fields ->
             py_eqb (get_or_none new_props f) (get_or_none old_props f) = true) ->
  diff_fields mutable_fields old_props new_props [] = Ok []
  /\ requests (snd (update ctx id old_props new_props h))
     = match api_of_props ctx new_props, ctx_int_float ctx id with
       | Ok api, Ok vid => [status_request api (VInt vid)]
       | _, _ => []
       end.
Proof.
  intros Heq.
  pose proof (diff_fields_unchanged mutable_fields old_props new_props [] Heq) as Hdiff.
  split; [exact Hdiff |].
  destruct (api_of_props ctx new_props) as [api | e1] eqn:Hapi.
  - destruct (ctx_int_float ctx id) as [vid | e2] eqn:Hid.
    + pose proof (update_run ctx id old_props new_props h api vid [] Hapi Hid Hdiff) as Hrun.
      cbv zeta in Hrun. cbn [ret fst snd] in Hrun.
      destruct Hrun as (Hreq & _). exact Hreq.
    + apply update_early_raise. intros api' vid' params _ H. congruence.
  - destruct (ctx_int_float ctx id);
      apply update_early_raise; intros api' vid' params H; congruence.
Qed.

Lemma update_unchanged_witness :
  let props := sample_props 2 [("rootfs", VStr "local-lvm:8")] in
  diff_fields mutable_fields props props [] = Ok []
  /\ requests (snd (update (sample_ctx calm_remote) "215" props props []))
     = [status_request sample_api (VInt 215)].
Proof.
  intros props.
  apply (update_unchanged (sample_ctx calm_remote) "215" props props []).
  intros f Hf. cbn in Hf.
  repeat (destruct Hf as [<- | Hf]; [reflexivity |]). destruct Hf.
Defined.


Section UpdateBody.
Variable ctx : context.
Variable api : ProxmoxAPI.
Variable vm_id : pyval.

End UpdateBody.



(** C10: when [update] returns, its outputs look up like the new
    properties laid over the old ones (a key of the new properties has
    its new value, a key of the old properties alone keeps its value, no
    other key exists), except for [status], which holds what the status
    read-back (the last request) delivered, and [unknown] when that read
    failed. *)
Theorem update_outputs
        (ctx : context) (id : string) (old_props new_props : pydict) (h : history)
        (res : UpdateResult) :
  NoDup (dict_keys new_props) ->
  fst (update ctx id old_props new_props h) = Ok res ->
  exists api vid earlier o status,
    requests (snd (update ctx id old_props new_props h))
    = requests earlier ++ [status_request api (VInt vid)]
    /\ outcomes (snd (update ctx id old_props new_props h)) = outcomes earlier ++ [o]
    /\ py_get (lxc_info_of o) "status" (VStr "unknown") = Ok status
    /\ (forall e, o = Raise e -> status = VStr "unknown")
    /\ forall k,
        dict_get (update_outs res) k
        = if String.eqb k "status" then Some status
          else match dict_get new_props k with
               | Some v => Some v
               | None => dict_get old_props k
               end.
Proof.
  intros Hnd Hok.
  destruct (api_of_props ctx new_props) as [api | e1] eqn:Hapi.
  2:{ destruct (update_early_raise ctx id old_props new_props h) as [[e He] _];
        [intros; congruence | congruence]. }
  destruct (ctx_int_float ctx id) as [vid | e2] eqn:Hid.
  2:{ destruct (update_early_raise ctx id old_props new_props h) as [[e He] _];
        [intros; congruence | congruence]. }
  destruct (diff_fields mutable_fields old_props new_props []) as [params | e3] eqn:Hdiff.
  2:{ destruct (update_early_raise ctx id old_props new_props h) as [[e He] _];
        [intros; congruence | congruence]. }
  pose proof (update_run ctx id old_props new_props h api vid params Hapi Hid Hdiff) as Hrun.
  cbv zeta in Hrun.
  set (upd := match params with
              | [] => ret tt
              | _ :: _ => update_lxc ctx api (VInt vid) params ;;; ret tt
              end) in *.
  destruct (fst (upd h)) as [[] | e].
  2:{ destruct Hrun as [He _]. congruence. }
  destruct Hrun as (Hreq & Hout & Hfst).
  set (o := ctx_remote ctx (h ++ snd (upd h)) (status_request api (VInt vid))) in *.
  destruct (py_get (lxc_info_of o) "status" (VStr "unknown")) as [status | e] eqn:Hst;
    [| congruence].
  rewrite Hfst in Hok. injection Hok as <-.
  exists api, vid, (snd (upd h)), o, status.
  split; [exact Hreq |]. split; [exact Hout |]. split; [exact Hst |]. split.
  - intros e He. rewrite He in Hst. cbn in Hst. now injection Hst as <-.
  - intros k. cbn [update_outs]. rewrite dict_get_set, String.eqb_sym.
    destruct (String.eqb k "status"); [reflexivity |].
    now apply dict_get_update.
Qed.

Lemma update_outputs_witness :
  let old_props := sample_props 2 [("rootfs", VStr "local-lvm:8")] in
  let new_props := sample_props 3 [("rootfs", VStr "local-lvm:8")] in
  exists res,
    fst (update (sample_ctx calm_remote) "215" old_props new_props []) = Ok res
    /\ dict_get (update_outs res) "cores" = Some (VInt 3)
    /\ dict_get (update_outs res) "status" = Some (VStr "stopped").
Proof.
  intros old_props new_props.
  destruct (fst (update (sample_ctx calm_remote) "215" old_props new_props []))
    as [res | e] eqn:Hres; [| vm_compute in Hres; discriminate].
  exists res. split; [reflexivity |].
  destruct (update_outputs (sample_ctx calm_remote) "215" old_props new_props [] res)
    as (api & vid & earlier & o & status & _ & _ & _ & _ & Hget).
  - vm_compute. repeat constructor; cbn; intuition discriminate.
  - exact Hres.
  - split; [rewrite Hget; reflexivity |].
    vm_compute in Hres. injection Hres as <-. reflexivity.
Defined.

(* ================================================================== *)
(** * [LXCContainerProvider.create] *)
(* ================================================================== *)

Section CreateProvider.
Variable ctx : context.
Variable api : ProxmoxAPI.

Lemma get_lxc_int vm vid h :
  py_int vm = Ok vid -> get_lxc ctx api vm h = get_lxc ctx api (VInt vid) h.
Proof. intros H. unfold get_lxc. rewrite H. reflexivity. Qed.

(** [create_lxc] sends exactly the create call, with the parameter set
    as its body, and returns or raises what that call does. *)
Lemma create_lxc_run vm params body h :
  lxc_create_params vm params = Ok body ->
  let p := create_lxc ctx api vm params h in
  exists o,
    fst p = o
    /\ requests (snd p) = [create_request api body]
    /\ outcomes (snd p) = [o]
    /\ sleeps (snd p) = []
    /\ forall e, ~ failure_logged (snd p) e.
Proof.
  intros Hbody. cbv zeta. unfold create_lxc, create_request.
  rewrite bind_log, Hbody, bind_lift, bind_run. cbn [fst snd].
  set (onboot_line := match get_or_none params "onboot" with
                      | VNone => log Info [Lit "onboot not found in params: "]
                      | _ => _
                      end).
  assert (Hline : forall hh, exists msg, onboot_line hh = (Ok tt, [Log Info msg])).
  { intros hh. subst onboot_line.
    destruct (get_or_none params "onboot"); eexists; reflexivity. }
  match goal with |- context [onboot_line ?hh] =>
    destruct (Hline hh) as [msg Hmsg]; rewrite Hmsg end.
  cbn [fst snd]. rewrite bind_log, bind_request. cbv zeta. cbn [fst snd].
  match goal with |- context [ctx_remote ctx ?hh ?rr] =>
    destruct (ctx_remote ctx hh rr) as [r | e] eqn:Ho end.
  - exists (Ok r). cbn. repeat split; try reflexivity.
    intros e (m & Hin & _). cbn in Hin.
    repeat (destruct Hin as [Hin | Hin]; [discriminate Hin |]). destruct Hin.
  - exists (Raise e). cbn. repeat split; try reflexivity.
    intros e' (m & Hin & _). cbn in Hin.
    repeat (destruct Hin as [Hin | Hin]; [discriminate Hin |]). destruct Hin.
Qed.

(** The start after creation: one start call; a failure is written to
    the log as an error and swallowed, a success is followed by a
    three-second sleep. *)
Lemma start_after_create_run vm vid h :
  py_int vm = Ok vid ->
  let o := ctx_remote ctx (h ++ [Log Info [Lit "Starting LXC "; Val vm]])
                      (start_request api (VInt vid)) in
  let p := start_after_create ctx api vm h in
  fst p = Ok tt
  /\ requests (snd p) = [start_request api (VInt vid)]
  /\ outcomes (snd p) = [o]
  /\ (forall e, o = Raise e -> failure_logged (snd p) e).
Proof.
  intros Hint. cbv zeta. unfold start_after_create, start_lxc, start_request.
  rewrite try_except_run, bind_run, bind_log, Hint, bind_lift.
  unfold _make_request. cbn [fst snd].
  destruct (ctx_remote ctx _ _) as [r | e]; cbn.
  - repeat split; try reflexivity. discriminate.
  - repeat split; try reflexivity.
    intros e' He'. injection He' as <-.
    eexists. split; [right; right; left; reflexivity |]. cbn. tauto.
Qed.

Lemma lxc_create_params_int vm params body :
  lxc_create_params vm params = Ok body -> exists vid, py_int vm = Ok vid.
Proof.
  unfold lxc_create_params, rbind.
  destruct (py_int vm) as [vid |]; [eauto | discriminate].
Qed.

(** A handler that logs and raises again changes neither the result
    nor the requests. *)
Lemma reraise_run {A} (m : M A) (line : exn -> fstring) (h : history) :
  let p := try_except m (fun e => log Error (line e) ;;; raise e) h in
  fst p = fst (m h)
  /\ requests (snd p) = requests (snd (m h))
  /\ outcomes (snd p) = outcomes (snd (m h))
  /\ (forall e, failure_logged (snd (m h)) e -> failure_logged (snd p) e).
Proof.
  cbv zeta. rewrite try_except_run.
  destruct (fst (m h)) as [a | e].
  - repeat split; auto.
  - rewrite bind_log. cbn [fst snd raise].
    rewrite requests_app, outcomes_app. cbn. rewrite !app_nil_r.
    repeat split; auto. intros e' He'. now apply failure_logged_app_l.
Qed.

(** The run of the body of [create] once the client and the parameter
    set are there: the create call; when it is accepted, the start call
    if asked for, then the status read-back, then the outputs. *)
Lemma create_body_run props h body :
  api_of_props ctx props = Ok api ->
  let vm := py_or (get_or_none props "vm_id") (VInt 200) in
  lxc_create_params vm (create_lxc_kwargs props vm) = Ok body ->
  let p := create_body ctx props h in
  exists o_create,
    hd_error (outcomes (snd p)) = Some o_create
    /\ match o_create with
       | Raise e => fst p = Raise e /\ requests (snd p) = [create_request api body]
       | Ok _ =>
           exists vid o,
             py_int vm = Ok vid
             /\ (if truthy (get_default props "start_on_create" (VBool true))
                 then exists o_start,
                     requests (snd p)
                     = [create_request api body; start_request api (VInt vid);
                        status_request api (VInt vid)]
                     /\ outcomes (snd p) = [o_create; o_start; o]
                     /\ (forall e, o_start = Raise e -> failure_logged (snd p) e)
                 else requests (snd p)
                      = [create_request api body; status_request api (VInt vid)]
                      /\ outcomes (snd p) = [o_create; o])
             /\ fst p
                = match dict_get props "node" with
                  | None => Raise (key_error "node")
                  | Some n =>
                      match py_get (lxc_info_of o) "status" (VStr "unknown") with
                      | Ok status =>
                          Ok (MkCreateResult (py_str vm)
                                              (create_outputs props vm n status))
                      | Raise e => Raise e
                      end
                  end
       end.
Proof.
  intros Hapi vm Hbody. cbv zeta.
  destruct (lxc_create_params_int _ _ _ Hbody) as [vid Hint].
  unfold create_body. fold vm.
  rewrite bind_lift, Hapi, bind_run.
  destruct (create_lxc_run vm (create_lxc_kwargs props vm) body h Hbody)
    as (o_create & Hcf & Hcr & Hco & _ & _).
  set (c := create_lxc ctx api vm (create_lxc_kwargs props vm) h) in *.
  exists o_create. rewrite Hcf.
  destruct o_create as [created | e].
  2:{ cbn [fst snd]. rewrite Hco, Hcr. repeat split; reflexivity. }
  cbn [fst snd].
  split; [rewrite outcomes_app, Hco; reflexivity |]. exists vid.
  rewrite bind_run.
  set (starting := truthy (get_default props "start_on_create" (VBool true))).
  set (st := (if starting then start_after_create ctx api vm else ret tt) (h ++ snd c)).
  assert (Hst : fst st = Ok tt).
  { subst st. destruct starting; [| reflexivity].
    now destruct (start_after_create_run vm vid (h ++ snd c) Hint). }
  rewrite Hst. cbn [fst snd]. rewrite bind_run.
  rewrite (get_lxc_int _ _ _ Hint).
  destruct (get_lxc_run ctx api vid ((h ++ snd c) ++ snd st)) as (Hgf & Hgr & Hgo & _).
  cbv zeta in Hgf, Hgr, Hgo.
  set (g := get_lxc ctx api (VInt vid) ((h ++ snd c) ++ snd st)) in *.
  set (o := ctx_remote ctx ((h ++ snd c) ++ snd st) (status_request api (VInt vid))) in *.
  exists o. split; [exact Hint |].
  rewrite Hgf. cbn [fst snd]. rewrite bind_lift. unfold py_index.
  assert (Hshape : forall tail : list event,
             requests tail = [] -> outcomes tail = [] ->
             if starting
             then exists o_start,
                 requests (snd c ++ snd st ++ snd g ++ tail)
                 = [create_request api body; start_request api (VInt vid);
                    status_request api (VInt vid)]
                 /\ outcomes (snd c ++ snd st ++ snd g ++ tail)
                    = [Ok created; o_start; o]
                 /\ (forall e, o_start = Raise e ->
                               failure_logged (snd c ++ snd st ++ snd g ++ tail) e)
             else requests (snd c ++ snd st ++ snd g ++ tail)
                  = [create_request api body; status_request api (VInt vid)]
                  /\ outcomes (snd c ++ snd st ++ snd g ++ tail) = [Ok created; o]).
  { intros tail Hrt Hot.
    rewrite !requests_app, !outcomes_app, Hcr, Hco, Hgr, Hgo, Hrt, Hot.
    subst st. destruct starting.
    - destruct (start_after_create_run vm vid (h ++ snd c) Hint) as (_ & Hsr & Hso & Hsl).
      cbv zeta in Hsr, Hso, Hsl. eexists. rewrite Hsr, Hso.
      repeat split; try reflexivity.
      intros e He. apply failure_logged_app_r, failure_logged_app_l, Hsl, He.
    - split; reflexivity. }
  destruct (dict_get props "node") as [n |].
  - rewrite bind_lift.
    destruct (py_get (lxc_info_of o) "status" (VStr "unknown")) as [status | e].
    + rewrite bind_log. cbn [fst snd ret].
      split; [| reflexivity].
      apply (Hshape [Log Info [Lit "Successfully created LXC "; Val vm]]); reflexivity.
    + cbn [fst snd]. split; [| reflexivity]. apply (Hshape []); reflexivity.
  - cbn [fst snd]. split; [| reflexivity]. apply (Hshape []); reflexivity.
Qed.
End CreateProvider.




(* ================================================================== *)
(** * Defaults of the resource arguments *)
(* ================================================================== *)

Lemma dict_get_drop_none (d : pydict) (k : string) :
  NoDup (dict_keys d) ->
  dict_get (drop_none d) k
  = match dict_get d k with
    | Some v => if is_none v then None else Some v
    | None => None
    end.
Proof.
  unfold drop_none.
  induction d as [| [k0 v0] d IH]; intros Hnd; [reflexivity |].
  inversion Hnd as [| ? ? Hnotin Hnd']; subst. cbn [filter dict_get fst snd].
  destruct (String.eqb k0 k) eqn:Hk.
  - apply String.eqb_eq in Hk. subst k0.
    destruct (is_none v0) eqn:Hv; cbn [negb].
    + apply dict_get_absent. intros Hin. apply Hnotin.
      unfold dict_keys in *. apply in_map_iff in Hin.
      destruct Hin as ([k1 v1] & Hfst & Hin). apply filter_In in Hin.
      apply in_map_iff. exists (k1, v1). tauto.
    + cbn [dict_get]. now rewrite String.eqb_refl.
  - destruct (is_none v0); cbn [negb]; [now apply IH |].
    cbn [dict_get]. rewrite Hk. now apply IH.
Qed.

(** C8, as stated, fails: with no [disks] supplied but the legacy
    [disk_size] given, the disks are not the default. *)
Lemma legacy_disk_size_replaces_default :
  in_disks legacy_lxc_args = VNone
  /\ in_networks legacy_lxc_args = VNone
  /\ exists args,
      LXCContainerArgs_init legacy_lxc_args = Ok args
      /\ disks args = VDict [("rootfs", VStr "local-lvm:16")]
      /\ disks args <> VDict [("rootfs", VStr "local-lvm:8")].
Proof.
  split; [reflexivity |]. split; [reflexivity |].
  eexists. split; [reflexivity |]. split; [reflexivity | discriminate].
Qed.

(** What [LXCContainerArgs] stores when neither the dictionaries nor the
    legacy arguments nor the sizing fields are given. *)
Lemma LXCContainerArgs_init_defaults (a : lxc_args_in) :
  in_disks a = VNone -> in_disk_size a = VNone ->
  in_networks a = VNone -> in_network a = VNone ->
  exists args,
    LXCContainerArgs_init a = Ok args
    /\ disks args = VDict [("rootfs", VStr "local-lvm:8")]
    /\ networks args = VDict [("net0", VStr "name=eth0,bridge=vmbr0,ip=dhcp")]
    /\ (in_cores a = VNone -> cores args = VInt 1)
    /\ (in_memory a = VNone -> memory args = VInt 512)
    /\ (in_swap a = VNone -> swap args = VInt 512)
    /\ (in_unprivileged a = VNone -> unprivileged args = VBool true).
Proof.
  intros Hd Hds Hn Hnw. unfold LXCContainerArgs_init.
  rewrite Hd, Hds, Hn, Hnw. cbn [is_none negb].
  eexists. split; [reflexivity |]. cbn.
  repeat split; intros ->; reflexivity.
Qed.

Lemma distinct_NoDup (l : list string) : distinct l = true -> NoDup l.
Proof.
  induction l as [| x l IH]; cbn [distinct]; intros H; constructor.
  - apply andb_true_iff in H. destruct H as [Hx _].
    intros Hin. apply negb_true_iff in Hx.
    assert (existsb (String.eqb x) l = true) as Hex.
    { apply existsb_exists. exists x. split; [exact Hin | apply String.eqb_refl]. }
    congruence.
  - apply IH. apply andb_true_iff in H. tauto.
Qed.

Lemma props_keys_nodup (args : LXCContainerArgs) (e u s n i : pyval) :
  NoDup (dict_keys
           [("node", node args); ("vm_id", vm_id args); ("hostname", hostname args);
            ("template", template args); ("cores", cores args);
            ("memory", memory args); ("swap", swap args); ("disks", disks args);
            ("networks", networks args); ("ostemplate", ostemplate args);
            ("password", password args); ("ssh_public_keys", ssh_public_keys args);
            ("unprivileged", unprivileged args); ("features", features args);
            ("startup", startup args); ("onboot", onboot args);
            ("start_on_create", start_on_create args);
            ("proxmox_endpoint", e); ("proxmox_username", u);
            ("proxmox_password", s); ("proxmox_node", n); ("proxmox_insecure", i)]).
Proof. apply distinct_NoDup. vm_compute. reflexivity. Qed.

Lemma Ok_inj {A} (a b : A) : Ok a = Ok b -> a = b.
Proof.
  intros H.
  change (match Ok a with Ok x => x | Raise _ => a end = b).
  now rewrite H.
Qed.

(** The properties of a resource built from such arguments. *)
Lemma LXCContainer_props_lookup ctx (args : LXCContainerArgs) props :
  LXCContainer_props ctx args = Ok props ->
  forall k v,
    In (k, v) [("cores", cores args); ("memory", memory args); ("swap", swap args);
               ("disks", disks args); ("networks", networks args);
               ("unprivileged", unprivileged args)] ->
    is_none v = false ->
    dict_get props k = Some v.
Proof.
  unfold LXCContainer_props.
  destruct (config_require ctx "endpoint") as [e |]; [| discriminate].
  destruct (config_require ctx "username") as [u |]; [| discriminate].
  destruct (config_require ctx "password") as [s |]; [| discriminate].
  intros H k v Hin Hv. apply Ok_inj in H. subst props.
  rewrite dict_get_drop_none by apply props_keys_nodup.
  cbn [In] in Hin.
  repeat (destruct Hin as [Hin | Hin];
          [injection Hin as <- <-;
           cbv [dict_get String.eqb Ascii.eqb Bool.eqb]; now rewrite Hv |]).
  destruct Hin.
Qed.

Lemma dict_get_set_if_truthy params k wire (d : pydict) k' :
  dict_get (set_if_truthy params k wire d) k'
  = if String.eqb wire k' && truthy (get_or_none params k)
    then Some (get_or_none params k)
    else dict_get d k'.
Proof.
  unfold set_if_truthy. destruct (truthy (get_or_none params k)).
  - rewrite dict_get_set. now destruct (String.eqb wire k').
  - now rewrite andb_false_r.
Qed.

Ltac lookup_body :=
  unfold dict_update; cbn [fold_left fst snd];
  repeat (rewrite dict_get_set || rewrite dict_get_set_if_truthy);
  cbv [dict_get String.eqb Ascii.eqb Bool.eqb andb];
  reflexivity.

(** The parameter set of the create call when the keyword arguments hold
    the defaults. *)
Lemma lxc_create_params_defaults vm params body :
  get_default params "cores" (VInt 1) = VInt 1 ->
  get_default params "memory" (VInt 512) = VInt 512 ->
  get_default params "swap" (VInt 512) = VInt 512 ->
  get_default params "unprivileged" (VBool true) = VBool true ->
  get_default params "disks" (VDict []) = VDict [("rootfs", VStr "local-lvm:8")] ->
  get_default params "networks" (VDict [])
  = VDict [("net0", VStr "name=eth0,bridge=vmbr0,ip=dhcp")] ->
  lxc_create_params vm params = Ok body ->
  dict_get body "cores" = Some (VInt 1)
  /\ dict_get body "memory" = Some (VInt 512)
  /\ dict_get body "swap" = Some (VInt 512)
  /\ dict_get body "unprivileged" = Some (VInt 1)
  /\ dict_get body "rootfs" = Some (VStr "local-lvm:8")
  /\ dict_get body "net0" = Some (VStr "name=eth0,bridge=vmbr0,ip=dhcp").
Proof.
  intros Hc Hm Hs Hu Hd Hn. unfold lxc_create_params.
  rewrite Hc, Hm, Hs, Hu, Hd, Hn. cbn [py_int py_items rbind Z.b2z].
  destruct (py_int vm) as [vmid |]; [| discriminate].
  destruct (truthy (get_default params "features" (VDict []))).
  - destruct (py_items (get_default params "features" (VDict []))) as [fs |];
      [| discriminate].
    intros H. apply Ok_inj in H. subst body.
    destruct (get_or_none params "onboot"); repeat split; lookup_body.
  - intros H. apply Ok_inj in H. subst body.
    destruct (get_or_none params "onboot"); repeat split; lookup_body.
Qed.

(** What [VirtualMachineArgs] stores when neither the dictionaries nor
    the legacy arguments are given. *)
Lemma VirtualMachineArgs_init_defaults (b : VM.vm_args_in) :
  VM.in_disks b = VNone -> VM.in_disk_size b = VNone ->
  VM.in_networks b = VNone -> VM.in_network b = VNone ->
  exists args,
    VM.VirtualMachineArgs_init b = Ok args
    /\ VM.disks args = VDict [("scsi0", VStr "local-lvm:20")]
    /\ VM.networks args = VDict [("net0", VStr "virtio,bridge=vmbr0")]
    /\ (VM.in_cores b = VNone -> VM.cores args = VInt 1)
    /\ (VM.in_memory b = VNone -> VM.memory args = VInt 512).
Proof.
  intros Hd Hds Hn Hnw. unfold VM.VirtualMachineArgs_init.
  rewrite Hd, Hds, Hn, Hnw. cbn [is_none negb].
  eexists. split; [reflexivity |]. cbn.
  repeat split; intros ->; reflexivity.
Qed.

(** The first request of [create] is the create call with the parameter
    set as its body. *)
Lemma create_sends_params ctx props h api body :
  api_of_props ctx props = Ok api ->
  lxc_create_params (py_or (get_or_none props "vm_id") (VInt 200))
                    (create_lxc_kwargs props (py_or (get_or_none props "vm_id") (VInt 200)))
  = Ok body ->
  exists rest, requests (snd (create ctx props h)) = create_request api body :: rest.
Proof.
  intros Hapi Hbody. unfold create.
  destruct (reraise_run (create_body ctx props)
              (fun e => [Lit "Failed to create LXC: "; Err e]) h) as (_ & Hreq & _ & _).
  cbv zeta in Hreq. rewrite Hreq.
  destruct (create_body_run ctx api props h body Hapi Hbody) as (o_create & _ & Hrun).
  destruct o_create as [created | e].
  - destruct Hrun as (vid & o & _ & Hshape & _).
    destruct (truthy (get_default props "start_on_create" (VBool true))).
    + destruct Hshape as (o_start & Hr & _). rewrite Hr. eauto.
    + destruct Hshape as (Hr & _). rewrite Hr. eauto.
  - destruct Hrun as (_ & Hr). rewrite Hr. eauto.
Qed.

(** C8 (amended): when neither [disks] nor the legacy [disk_size], and
    neither [networks] nor the legacy [network], are supplied, the
    container arguments hold the disks [rootfs = local-lvm:8] and the
    network [net0 = name=eth0,bridge=vmbr0,ip=dhcp], and the virtual
    machine arguments the disks [scsi0 = local-lvm:20] and the bridged
    network [net0 = virtio,bridge=vmbr0]; omitted [cores], [memory],
    [swap] and [unprivileged] are stored as 1, 512, 512 and true.  For a
    container built from such arguments the body of the create call,
    which is the first request of [create], has [cores] 1, [memory] 512,
    [swap] 512, [unprivileged] 1 (true on the wire), and the default
    [rootfs] and [net0]. *)
Theorem create_defaults :
  (forall a : lxc_args_in,
      in_disks a = VNone -> in_disk_size a = VNone ->
      in_networks a = VNone -> in_network a = VNone ->
      exists args,
        LXCContainerArgs_init a = Ok args
        /\ disks args = VDict [("rootfs", VStr "local-lvm:8")]
        /\ networks args = VDict [("net0", VStr "name=eth0,bridge=vmbr0,ip=dhcp")]
        /\ (in_cores a = VNone -> cores args = VInt 1)
        /\ (in_memory a = VNone -> memory args = VInt 512)
        /\ (in_swap a = VNone -> swap args = VInt 512)
        /\ (in_unprivileged a = VNone -> unprivileged args = VBool true))
  /\ (forall b : VM.vm_args_in,
         VM.in_disks b = VNone -> VM.in_disk_size b = VNone ->
         VM.in_networks b = VNone -> VM.in_network b = VNone ->
         exists args,
           VM.VirtualMachineArgs_init b = Ok args
           /\ VM.disks args = VDict [("scsi0", VStr "local-lvm:20")]
           /\ VM.networks args = VDict [("net0", VStr "virtio,bridge=vmbr0")]
           /\ (VM.in_cores b = VNone -> VM.cores args = VInt 1)
           /\ (VM.in_memory b = VNone -> VM.memory args = VInt 512))
  /\ (forall (ctx : context) (a : lxc_args_in) (args : LXCContainerArgs)
             (props body : pydict),
         in_disks a = VNone -> in_disk_size a = VNone ->
         in_networks a = VNone -> in_network a = VNone ->
         in_cores a = VNone -> in_memory a = VNone -> in_swap a = VNone ->
         in_unprivileged a = VNone ->
         LXCContainerArgs_init a = Ok args ->
         LXCContainer_props ctx args = Ok props ->
         let vm := py_or (get_or_none props "vm_id") (VInt 200) in
         lxc_create_params vm (create_lxc_kwargs props vm) = Ok body ->
         (dict_get body "cores" = Some (VInt 1)
          /\ dict_get body "memory" = Some (VInt 512)
          /\ dict_get body "swap" = Some (VInt 512)
          /\ dict_get body "unprivileged" = Some (VInt 1)
          /\ dict_get body "rootfs" = Some (VStr "local-lvm:8")
          /\ dict_get body "net0" = Some (VStr "name=eth0,bridge=vmbr0,ip=dhcp"))
         /\ forall api h,
             api_of_props ctx props = Ok api ->
             exists rest,
               requests (snd (create ctx props h)) = create_request api body :: rest).
Proof.
  split; [exact LXCContainerArgs_init_defaults |].
  split; [exact VirtualMachineArgs_init_defaults |].
  intros ctx a args props body Hd Hds Hn Hnw Hc Hm Hs Hu Hinit Hprops vm Hbody.
  destruct (LXCContainerArgs_init_defaults a Hd Hds Hn Hnw)
    as (args' & Hinit' & Hdisks & Hnets & Hcores & Hmem & Hswap & Hunpriv).
  rewrite Hinit in Hinit'. apply Ok_inj in Hinit'. subst args'.
  specialize (Hcores Hc). specialize (Hmem Hm). specialize (Hswap Hs).
  specialize (Hunpriv Hu).
  pose proof (LXCContainer_props_lookup ctx args props Hprops) as Hlook.
  assert (Hpc : dict_get props "cores" = Some (VInt 1)).
  { rewrite <- Hcores. apply Hlook; [cbn; tauto | now rewrite Hcores]. }
  assert (Hpm : dict_get props "memory" = Some (VInt 512)).
  { rewrite <- Hmem. apply Hlook; [cbn; tauto | now rewrite Hmem]. }
  assert (Hps : dict_get props "swap" = Some (VInt 512)).
  { rewrite <- Hswap. apply Hlook; [cbn; tauto | now rewrite Hswap]. }
  assert (Hpu : dict_get props "unprivileged" = Some (VBool true)).
  { rewrite <- Hunpriv. apply Hlook; [cbn; tauto | now rewrite Hunpriv]. }
  assert (Hpd : dict_get props "disks" = Some (VDict [("rootfs", VStr "local-lvm:8")])).
  { rewrite <- Hdisks. apply Hlook; [cbn; tauto | now rewrite Hdisks]. }
  assert (Hpn : dict_get props "networks"
                = Some (VDict [("net0", VStr "name=eth0,bridge=vmbr0,ip=dhcp")])).
  { rewrite <- Hnets. apply Hlook; [cbn; tauto | now rewrite Hnets]. }
  split.
  - apply (lxc_create_params_defaults vm (create_lxc_kwargs props vm) body);
      try exact Hbody;
      unfold create_lxc_kwargs;
      cbn [get_default dict_get String.eqb Ascii.eqb Bool.eqb];
      unfold get_default;
      first [now rewrite Hpc | now rewrite Hpm | now rewrite Hps
            | now rewrite Hpu | now rewrite Hpd | now rewrite Hpn].
  - intros api h Hapi. now apply create_sends_params.
Qed.

(** The theorem at work: arguments with only [node] given. *)
Lemma create_defaults_witness :
  exists args,
    LXCContainerArgs_init bare_lxc_args = Ok args
    /\ disks args = VDict [("rootfs", VStr "local-lvm:8")]
    /\ networks args = VDict [("net0", VStr "name=eth0,bridge=vmbr0,ip=dhcp")]
    /\ cores args = VInt 1.
Proof.
  destruct (proj1 create_defaults bare_lxc_args)
    as (args & Hinit & Hd & Hn & Hc & _); try reflexivity.
  exists args. repeat split; try assumption. apply Hc. reflexivity.
Defined.

(* ================================================================== *)
(** * The theorems at work on sample runs *)
(* ================================================================== *)


(** Two polls that say [running], then [stopped]: [True] at the third. *)
Lemma wait_for_lxc_stop_spec_witness :
  let p := _wait_for_lxc_stop (sample_ctx stops_at_third_remote) sample_api (VInt 215) 60 [] in
  exists pre o,
    outcomes (snd p) = pre ++ [o]
    /\ forallb not_stopped pre = true
    /\ reports_stopped o = true
    /\ List.length pre < 60
    /\ sleeps (snd p) = repeat 1 (List.length pre).
Proof.
  apply (proj1 (proj2 (proj2 (proj2 (wait_for_lxc_stop_spec
                                       (sample_ctx stops_at_third_remote) sample_api
                                       (VInt 215) 60 []))))).
  vm_compute. reflexivity.
Defined.



(* ================================================================== *)
(** * The cost of a deletion *)
(* ================================================================== *)

Section Costs.
Context {A : Type}.

Lemma costs_le (a b a' b' : nat) (m : M A) :
  a <= a' -> b <= b' -> costs_at_most a b m -> costs_at_most a' b' m.
Proof. intros Ha Hb Hm h. destruct (Hm h). split; lia. Qed.

Lemma costs_ret (a b : nat) (x : A) : costs_at_most a b (ret x).
Proof. intros h. cbn. split; lia. Qed.

Lemma costs_raise (a b : nat) (e : exn) : costs_at_most a b (@raise A e).
Proof. intros h. cbn. split; lia. Qed.

Lemma costs_lift (a b : nat) (r : result A) : costs_at_most a b (lift r).
Proof. intros h. cbn. split; lia. Qed.

Lemma costs_bind {B} (a b c d n t : nat) (m : M B) (k : B -> M A) :
  a + c <= n -> b + d <= t ->
  costs_at_most a b m -> (forall x, costs_at_most c d (k x)) ->
  costs_at_most n t (bind m k).
Proof.
  intros Hn Ht Hm Hk h. rewrite bind_run. destruct (Hm h) as [Hr Hs].
  destruct (fst (m h)) as [x | e]; cbn [snd]; [| split; lia].
  destruct (Hk x (h ++ snd (m h))) as [Hr' Hs'].
  rewrite requests_app, sleeps_app, length_app, list_sum_app. split; lia.
Qed.

Lemma costs_try (a b c d n t : nat) (m : M A) (handler : exn -> M A) :
  a + c <= n -> b + d <= t ->
  costs_at_most a b m -> (forall e, costs_at_most c d (handler e)) ->
  costs_at_most n t (try_except m handler).
Proof.
  intros Hn Ht Hm Hk h. rewrite try_except_run. destruct (Hm h) as [Hr Hs].
  destruct (fst (m h)) as [x | e]; cbn [snd]; [split; lia |].
  destruct (Hk e (h ++ snd (m h))) as [Hr' Hs'].
  rewrite requests_app, sleeps_app, length_app, list_sum_app. split; lia.
Qed.
End Costs.

Lemma costs_log (a b : nat) l msg : costs_at_most a b (log l msg).
Proof. intros h. cbn. split; lia. Qed.

Lemma costs_sleep (a b n : nat) : n <= b -> costs_at_most a b (sleep n).
Proof. intros Hn h. cbn. split; lia. Qed.

Lemma costs_request (a b : nat) ctx m path data :
  1 <= a -> costs_at_most a b (_make_request ctx m path data).
Proof. intros Ha h. cbn. split; lia. Qed.

Lemma list_sum_repeat_one (n : nat) : list_sum (repeat 1 n) = n.
Proof. induction n as [| n IH]; cbn; [reflexivity | f_equal; exact IH]. Qed.

Section DeleteCost.
Variable ctx : context.
Variable api : ProxmoxAPI.
Variable vm_id : pyval.

Lemma unlock_cost (max_retries : nat) :
  costs_at_most max_retries max_retries (_wait_for_lxc_unlock ctx api vm_id max_retries).
Proof.
  intros h. unfold _wait_for_lxc_unlock.
  destruct (unlock_loop_run ctx api vm_id max_retries max_retries 0 h) as (_ & Hc).
  cbv zeta in Hc. rewrite requests_outcomes_length.
  destruct Hc as [(_ & pre & o & Hpo & _ & _ & Hlen & Hsl) | (_ & _ & Hlen & Hsl)].
  - rewrite Hpo, Hsl, length_app, list_sum_repeat_one. cbn. split; lia.
  - rewrite Hlen, Hsl, list_sum_repeat_one. split; lia.
Qed.

Lemma stop_cost (max_retries : nat) :
  costs_at_most max_retries max_retries (_wait_for_lxc_stop ctx api vm_id max_retries).
Proof.
  intros h. unfold _wait_for_lxc_stop.
  destruct (stop_loop_run ctx api vm_id max_retries max_retries 0 h) as (_ & _ & Hc).
  cbv zeta in Hc. rewrite requests_outcomes_length.
  destruct Hc as [(_ & pre & o & Hpo & _ & _ & Hlen & Hsl) | (_ & _ & Hlen & Hsl)].
  - rewrite Hpo, Hsl, length_app, list_sum_repeat_one. cbn. split; lia.
  - rewrite Hlen, Hsl, list_sum_repeat_one. split; lia.
Qed.

Lemma get_lxc_cost : costs_at_most 1 0 (get_lxc ctx api vm_id).
Proof.
  unfold get_lxc. destruct (py_int vm_id) as [vid | e].
  - apply (costs_try 1 0 0 0); [lia | lia | |].
    + apply (costs_bind 1 0 0 0); [lia | lia | now apply costs_request |].
      intros x. apply costs_lift.
    + intros e. apply (costs_bind 0 0 0 0); [lia | lia | apply costs_log |].
      intros _. apply costs_ret.
  - apply (costs_bind 0 0 0 0); [lia | lia | apply costs_log |].
    intros _. apply costs_ret.
Qed.

Lemma stop_phase_cost : costs_at_most 93 90 (stop_phase ctx api vm_id).
Proof.
  unfold stop_phase.
  apply (costs_try 93 90 0 0); [lia | lia | | intros e; apply costs_log].
  apply (costs_bind 1 0 92 90); [lia | lia | apply get_lxc_cost |]. intros info.
  apply (costs_bind 0 0 92 90); [lia | lia | apply costs_lift |]. intros status.
  apply (costs_bind 0 0 92 90); [lia | lia | apply costs_log |]. intros _.
  destruct (py_eqb status (VStr "running")); [| apply costs_ret].
  unfold stop_running.
  apply (costs_bind 0 0 92 90); [lia | lia | apply costs_log |]. intros _.
  apply (costs_bind 1 0 91 90); [lia | lia | |].
  { unfold graceful_stop.
    apply (costs_try 1 0 0 0); [lia | lia | | intros e; apply costs_log].
    apply (costs_bind 1 0 0 0); [lia | lia | now apply costs_request |].
    intros _. apply costs_log. }
  intros _.
  apply (costs_bind 60 60 31 30); [lia | lia | apply stop_cost |]. intros stopped.
  destruct (negb stopped); [| apply costs_ret].
  unfold force_shutdown.
  apply (costs_bind 0 0 31 30); [lia | lia | apply costs_log |]. intros _.
  apply (costs_try 31 30 0 0); [lia | lia | | intros e; apply costs_log].
  apply (costs_bind 1 0 30 30); [lia | lia | now apply costs_request |]. intros _.
  apply (costs_bind 30 30 0 0); [lia | lia | apply stop_cost |]. intros _.
  apply costs_ret.
Qed.

Lemma recheck_cost : costs_at_most 17 15 (recheck_before_retry ctx api vm_id).
Proof.
  unfold recheck_before_retry.
  apply (costs_try 17 15 0 0); [lia | lia | | intros e; apply costs_ret].
  apply (costs_bind 1 0 16 15); [lia | lia | apply get_lxc_cost |]. intros info.
  apply (costs_bind 0 0 16 15); [lia | lia | apply costs_lift |]. intros status.
  apply (costs_bind 0 0 16 15); [lia | lia | apply costs_log |]. intros _.
  destruct (py_eqb status (VStr "running")); [| apply costs_ret].
  apply (costs_bind 0 0 16 15); [lia | lia | apply costs_log |]. intros _.
  apply (costs_bind 1 0 15 15); [lia | lia | now apply costs_request |]. intros _.
  apply (costs_bind 15 15 0 0); [lia | lia | apply stop_cost |]. intros _.
  apply costs_ret.
Qed.

(** One pass of the retry loop: a pass that may retry costs up to 18
    requests and 15 seconds of polling plus its back-off; the last pass
    costs its delete call alone. *)
Lemma delete_attempt_cost (attempt : nat) :
  costs_at_most (if (attempt <? max_delete_retries - 1)%nat then 18 else 1)
                (if (attempt <? max_delete_retries - 1)%nat
                 then 15 + 3 * (attempt + 1) else 0)
                (delete_attempt ctx api vm_id attempt).
Proof.
  unfold delete_attempt.
  destruct (attempt <? max_delete_retries - 1)%nat.
  - apply (costs_try 1 0 17 (15 + 3 * (attempt + 1))); [lia | lia | |].
    + apply (costs_bind 1 0 0 0); [lia | lia | now apply costs_request |]. intros r.
      apply (costs_bind 0 0 0 0); [lia | lia | apply costs_log |]. intros _.
      apply costs_ret.
    + intros e. destruct (delete_retryable e); cbn [andb].
      * apply (costs_bind 0 0 17 (15 + 3 * (attempt + 1))); [lia | lia | apply costs_log |].
        intros _.
        apply (costs_bind 17 15 0 (3 * (attempt + 1))); [lia | lia | apply recheck_cost |].
        intros _.
        apply (costs_bind 0 (3 * (attempt + 1)) 0 0);
          [lia | lia | apply costs_sleep; lia |].
        intros _. apply costs_ret.
      * apply (costs_bind 0 0 0 0); [lia | lia | apply costs_log |]. intros _.
        apply costs_raise.
  - apply (costs_try 1 0 0 0); [lia | lia | |].
    + apply (costs_bind 1 0 0 0); [lia | lia | now apply costs_request |]. intros r.
      apply (costs_bind 0 0 0 0); [lia | lia | apply costs_log |]. intros _.
      apply costs_ret.
    + intros e. rewrite andb_false_r.
      apply (costs_bind 0 0 0 0); [lia | lia | apply costs_log |]. intros _.
      apply costs_raise.
Qed.

(** The retry loop from pass [attempt] on. *)
Lemma delete_loop_cost (left attempt : nat) :
  attempt + left = max_delete_retries ->
  costs_at_most (18 * (left - 1) + 1)
                (15 * (left - 1) + 3 * (list_sum (seq (attempt + 1) (left - 1))))
                (delete_loop ctx api vm_id attempt left).
Proof.
  revert attempt. induction left as [| left IH]; intros attempt Hsum.
  - apply costs_ret.
  - cbn [delete_loop]. replace (S left - 1) with left by lia.
    pose proof (delete_attempt_cost attempt) as Ha.
    destruct left as [| left'].
    + assert (Hlast : (attempt <? max_delete_retries - 1)%nat = false)
        by (apply Nat.ltb_ge; lia).
      rewrite Hlast in Ha.
      apply (costs_bind 1 0 0 0); [lia | lia | exact Ha |].
      intros [r |]; apply costs_ret.
    + assert (Hmore : (attempt <? max_delete_retries - 1)%nat = true)
        by (apply Nat.ltb_lt; lia).
      rewrite Hmore in Ha.
      specialize (IH (S attempt) ltac:(lia)).
      replace (S left' - 1) with left' in IH by lia.
      apply (costs_bind 18 (15 + 3 * (attempt + 1))
                        (18 * left' + 1)
                        (15 * left' + 3 * list_sum (seq (S attempt + 1) left')));
        [lia
        | change (seq (attempt + 1) (S left'))
            with ((attempt + 1) :: seq (S attempt + 1) left');
          unfold list_sum; cbn [fold_right]; lia
        | exact Ha |].
      intros [r |]; [apply costs_ret | exact IH].
Qed.

(** Whatever the remote side does, [delete_lxc] issues at most 316
    requests and sleeps at most 420 seconds in all. *)
Lemma delete_lxc_cost (h : history) :
  List.length (requests (snd (delete_lxc ctx api vm_id h))) <= 316
  /\ list_sum (sleeps (snd (delete_lxc ctx api vm_id h))) <= 420.
Proof.
  revert h. change (costs_at_most 316 420 (delete_lxc ctx api vm_id)).
  unfold delete_lxc.
  apply (costs_bind 0 0 316 420); [lia | lia | apply costs_log |]. intros _.
  apply (costs_bind 30 30 286 390); [lia | lia | apply unlock_cost |]. intros _.
  apply (costs_bind 93 90 193 300); [lia | lia | apply stop_phase_cost |]. intros _.
  apply (costs_bind 30 30 163 270); [lia | lia | apply unlock_cost |]. intros _.
  eapply costs_le; [| | exact (delete_loop_cost max_delete_retries 0 eq_refl)];
    vm_compute; lia.
Qed.
End DeleteCost.

(** Both bounds are reached. *)
Example delete_lxc_cost_reached :
  let p := delete_lxc (sample_ctx worst_case_remote) sample_api (VInt 215) [] in
  List.length (requests (snd p)) = 316
  /\ list_sum (sleeps (snd p)) = 420.
Proof. vm_compute. split; reflexivity. Qed.

(* ================================================================== *)
(** * More on updates *)
(* ================================================================== *)

Lemma split_once_storage (sep : ascii) (storage size : string) :
  split_once sep storage = None ->
  split_once sep (storage ++ String sep size) = Some (storage, size).
Proof.
  induction storage as [| c storage IH]; cbn [split_once String.append]; intros Hno.
  - now rewrite Ascii.eqb_refl.
  - destruct (Ascii.eqb c sep); [discriminate |].
    destruct (split_once sep storage) as [[l r] |]; [discriminate |].
    now rewrite IH.
Qed.

Lemma append_not_empty (a : string) (c : ascii) (b : string) :
  String.eqb (a ++ String c b) EmptyString = false.
Proof. destruct a; reflexivity. Qed.

(** X2: the storage named in a disk spec has no effect on a resize: two
    specs that agree after their first colon give the same run, whatever
    comes before it. *)
Theorem resize_ignores_storage
        (ctx : context) (api : ProxmoxAPI) (vm_id : pyval) (slot : string)
        (storage1 storage2 size : string) (h : history) :
  split_once ":"%char storage1 = None ->
  split_once ":"%char storage2 = None ->
  _resize_lxc_disk ctx api vm_id slot (VStr (storage1 ++ String ":"%char size)) h
  = _resize_lxc_disk ctx api vm_id slot (VStr (storage2 ++ String ":"%char size)) h.
Proof.
  intros H1 H2. unfold _resize_lxc_disk.
  rewrite !append_not_empty.
  rewrite (split_once_storage _ _ size H1), (split_once_storage _ _ size H2).
  reflexivity.
Qed.

Lemma resize_ignores_storage_witness :
  _resize_lxc_disk (sample_ctx calm_remote) sample_api (VInt 215) "rootfs"
                   (VStr "local-lvm:16") []
  = _resize_lxc_disk (sample_ctx calm_remote) sample_api (VInt 215) "rootfs"
                     (VStr "ceph-pool:16") [].
Proof.
  apply (resize_ignores_storage (sample_ctx calm_remote) sample_api (VInt 215)
           "rootfs" "local-lvm" "ceph-pool" "16" []); reflexivity.
Defined.

(** What [update_lxc] returns, and how many requests went before. *)
Lemma update_lxc_outcomes
        (ctx : context) (api : ProxmoxAPI) (vm_id : pyval) (params : pydict)
        (h : history) (disks base body : pydict) :
  match dict_get params "disks" with
  | Some v => py_items v = Ok disks
  | None => disks = []
  end ->
  scalar_params params = Ok base ->
  rest_params params base = Ok body ->
  let p := update_lxc ctx api vm_id params h in
  match body with
  | [] =>
      fst p = Ok (VDict [("data", VNone)])
      /\ List.length (outcomes (snd p)) = List.length (resize_requests api vm_id disks)
  | _ :: _ =>
      exists pre,
        outcomes (snd p) = pre ++ [fst p]
        /\ List.length pre = List.length (resize_requests api vm_id disks)
  end.
Proof.
  intros Hdisks Hbase Hbody. cbv zeta.
  unfold update_lxc. rewrite bind_log. cbn [fst snd outcomes].
  rewrite Hbase, bind_lift, bind_run.
  set (h0 := h ++ [Log Info [Lit "Updating LXC "; Val vm_id]]).
  assert (Hloop :
    let m := match dict_get params "disks" with
             | Some d => items <- lift (py_items d) ;; resize_disks ctx api vm_id items
             | None => ret tt
             end in
    fst (m h0) = Ok tt /\ requests (snd (m h0)) = resize_requests api vm_id disks).
  { cbv zeta. destruct (dict_get params "disks") as [v |].
    - rewrite bind_lift, Hdisks. apply resize_disks_run.
    - subst disks. split; reflexivity. }
  cbv zeta in Hloop. destruct Hloop as [Hf Hr]. rewrite Hf. cbn [fst snd].
  rewrite outcomes_app, <- Hr, requests_outcomes_length.
  rewrite Hbody, bind_lift, bind_log. cbn [fst snd outcomes].
  destruct body as [| kv body].
  - rewrite bind_log. cbn [fst snd ret outcomes]. rewrite app_nil_r. now split.
  - rewrite bind_request. cbv zeta.
    match goal with |- context [ctx_remote ctx ?hh ?rr] =>
      destruct (ctx_remote ctx hh rr) as [r | e] end.
    + rewrite bind_log. cbn [fst snd ret outcomes]. eexists. split; reflexivity.
    + cbn [fst snd outcomes]. eexists. split; reflexivity.
Qed.



Lemma py_eqb_none_l (v : pyval) : py_eqb VNone v = true -> v = VNone.
Proof. destruct v; cbn; intros H; first [reflexivity | discriminate]. Qed.

Lemma diff_fields_absent (fields : list string) (old_props new_props acc : pydict)
      (k : string) :
  In k fields ->
  dict_get new_props k = None ->
  get_or_none old_props k <> VNone ->
  exists k', In k' fields
             /\ dict_get new_props k' = None
             /\ diff_fields fields old_props new_props acc = Raise (key_error k').
Proof.
  intros Hin Habsent Hold. revert acc.
  induction fields as [| f fields IH]; intros acc; [destruct Hin |].
  cbn [diff_fields]. unfold py_index.
  destruct (py_neb (get_or_none new_props f) (get_or_none old_props f)) eqn:Hne.
  - destruct (dict_get new_props f) as [v |] eqn:Hf.
    + destruct Hin as [-> | Hin]; [congruence |].
      destruct (IH Hin (dict_set acc f v)) as (k' & Hk' & Hnone & Hd).
      exists k'. split; [now right | now split].
    + exists f. split; [now left | now split].
  - destruct Hin as [-> | Hin].
    + exfalso. apply Hold. apply py_eqb_none_l.
      unfold py_neb in Hne. apply negb_false_iff in Hne.
      unfold get_or_none at 1, get_default in Hne. now rewrite Habsent in Hne.
    + destruct (IH Hin acc) as (k' & Hk' & Hnone & Hd).
      exists k'. split; [now right | now split].
Qed.

(** X4: a mutable field that the old properties hold and the new ones
    leave out makes the update fail with a [KeyError] before anything is
    sent. *)
Theorem update_removed_field_raises
        (ctx : context) (id : string) (old_props new_props : pydict) (h : history)
        (api : ProxmoxAPI) (vid : Z) (k : string) :
  api_of_props ctx new_props = Ok api ->
  ctx_int_float ctx id = Ok vid ->
  In k mutable_fields ->
  dict_get new_props k = None ->
  get_or_none old_props k <> VNone ->
  let p := update ctx id old_props new_props h in
  (exists k', In k' mutable_fields
              /\ dict_get new_props k' = None
              /\ fst p = Raise (key_error k'))
  /\ requests (snd p) = [].
Proof.
  intros Hapi Hid Hin Habsent Hold. cbv zeta.
  destruct (diff_fields_absent mutable_fields old_props new_props [] k Hin Habsent Hold)
    as (k' & Hk' & Hnone & Hd).
  unfold update. rewrite try_except_run, bind_lift, Hapi, bind_lift, Hid, bind_lift, Hd.
  cbn [fst snd]. rewrite bind_log. cbn [fst snd raise requests].
  split; [| reflexivity]. exists k'. now repeat split.
Qed.

Lemma update_removed_field_raises_witness :
  let old_props := sample_props 2 [("rootfs", VStr "local-lvm:8")] in
  let new_props := filter (fun kv => negb (String.eqb (fst kv) "hostname")) old_props in
  let p := update (sample_ctx calm_remote) "215" old_props new_props [] in
  (exists k', In k' mutable_fields
              /\ dict_get new_props k' = None
              /\ fst p = Raise (key_error k'))
  /\ requests (snd p) = [].
Proof.
  intros old_props new_props.
  apply (update_removed_field_raises (sample_ctx calm_remote) "215" old_props new_props
           [] sample_api 215 "hostname");
    first [reflexivity | discriminate | (cbn; tauto)].
Defined.

Lemma diff_fields_one_of (fields : list string) (old_props new_props acc : pydict)
      (k : string) (v : pyval) :
  NoDup fields ->
  In k fields ->
  (forall f, In f fields -> f <> k ->
             py_eqb (get_or_none new_props f) (get_or_none old_props f) = true) ->
  py_eqb (get_or_none new_props k) (get_or_none old_props k) = false ->
  dict_get new_props k = Some v ->
  diff_fields fields old_props new_props acc = Ok (dict_set acc k v).
Proof.
  intros Hnd Hin Heq Hneq Hget. revert acc.
  induction Hnd as [| f fields Hnotin Hnd IH]; intros acc; [destruct Hin |].
  cbn [diff_fields]. destruct (string_dec f k) as [-> | Hfk].
  - unfold py_neb, py_index. rewrite Hneq, Hget. cbn [negb].
    apply diff_fields_unchanged. intros f Hf. apply Heq; [now right |].
    intros ->. contradiction.
  - unfold py_neb. rewrite Heq by (first [now left | assumption]). cbn [negb].
    destruct Hin as [-> | Hin]; [now elim Hfk |].
    apply IH; [exact Hin |]. intros f' Hf'. apply Heq. now right.
Qed.

Lemma diff_fields_one (old_props new_props : pydict) (k : string) (v : pyval) :
  In k mutable_fields ->
  (forall f, In f mutable_fields -> f <> k ->
             py_eqb (get_or_none new_props f) (get_or_none old_props f) = true) ->
  py_eqb (get_or_none new_props k) (get_or_none old_props k) = false ->
  dict_get new_props k = Some v ->
  diff_fields mutable_fields old_props new_props [] = Ok [(k, v)].
Proof.
  intros Hin Heq Hneq Hget.
  apply (diff_fields_one_of mutable_fields old_props new_props [] k v);
    try assumption.
  apply distinct_NoDup. reflexivity.
Qed.

(** X5: when one of [cores], [memory], [swap] is the only mutable field
    that changed, the update sends one configuration call whose body is
    that field alone, as an integer, and then reads the status. *)
Theorem update_one_integer_field
        (ctx : context) (id : string) (old_props new_props : pydict) (h : history)
        (api : ProxmoxAPI) (vid : Z) (k : string) (v : pyval) (z : Z) :
  api_of_props ctx new_props = Ok api ->
  ctx_int_float ctx id = Ok vid ->
  In k ["cores"; "memory"; "swap"] ->
  (forall f, In f mutable_fields -> f <> k ->
             py_eqb (get_or_none new_props f) (get_or_none old_props f) = true) ->
  py_eqb (get_or_none new_props k) (get_or_none old_props k) = false ->
  dict_get new_props k = Some v ->
  py_int v = Ok z ->
  let p := update ctx id old_props new_props h in
  exists o,
    hd_error (outcomes (snd p)) = Some o
    /\ match o with
       | Ok _ =>
           requests (snd p)
           = [config_request api (VInt vid) [(k, VInt z)];
              status_request api (VInt vid)]
       | Raise e =>
           requests (snd p) = [config_request api (VInt vid) [(k, VInt z)]]
           /\ fst p = Raise e
       end.
Proof.
  intros Hapi Hid Hk Heq Hneq Hget Hint. cbv zeta.
  assert (Hin : In k mutable_fields).
  { cbn in Hk. unfold mutable_fields. cbn.
    destruct Hk as [<- | [<- | [<- | []]]]; tauto. }
  pose proof (diff_fields_one old_props new_props k v Hin Heq Hneq Hget) as Hdiff.
  pose proof (update_run ctx id old_props new_props h api vid _ Hapi Hid Hdiff) as Hrun.
  cbv beta iota zeta in Hrun.
  assert (Hparams : dict_get [(k, v)] "disks" = None
                    /\ scalar_params [(k, v)] = Ok [(k, VInt z)]
                    /\ rest_params [(k, v)] [(k, VInt z)] = Ok [(k, VInt z)]).
  { cbn in Hk.
    destruct Hk as [<- | [<- | [<- | []]]];
      unfold scalar_params, rest_params, set_int_if_present;
      cbn [dict_get String.eqb Ascii.eqb Bool.eqb];
      rewrite Hint; cbn [rbind dict_set dict_get String.eqb Ascii.eqb Bool.eqb];
      repeat split; reflexivity. }
  destruct Hparams as (Hnodisks & Hbase & Hbody).
  assert (Hd : match dict_get [(k, v)] "disks" with
               | Some d => py_items d = Ok []
               | None => @nil (string * pyval) = []
               end) by now rewrite Hnodisks.
  pose proof (update_lxc_run ctx api (VInt vid) [(k, v)] h [] Hd _ _ Hbase Hbody) as Hreq.
  pose proof (update_lxc_outcomes ctx api (VInt vid) [(k, v)] h [] _ _ Hd Hbase Hbody)
    as Hres.
  cbv zeta in Hres. cbn [resize_requests flat_map app List.length] in Hreq, Hres.
  destruct Hres as (pre & Hout & Hpre).
  destruct pre; [| discriminate]. cbn [app] in Hout.
  rewrite bind_run in Hrun.
  exists (fst (update_lxc ctx api (VInt vid) [(k, v)] h)).
  destruct (fst (update_lxc ctx api (VInt vid) [(k, v)] h)) as [r | e] eqn:Hf;
    cbn [fst snd ret] in Hrun.
  - destruct Hrun as (Hr & Ho & _).
    rewrite Ho, outcomes_app, Hout. split; [reflexivity |].
    rewrite Hr, requests_app, Hreq. reflexivity.
  - destruct Hrun as (Hfst & Hr).
    assert (Houts : outcomes (snd (update ctx id old_props new_props h))
                    = outcomes (snd (update_lxc ctx api (VInt vid) [(k, v)] h))).
    { unfold update. rewrite try_except_run, bind_lift, Hapi, bind_lift, Hid,
        bind_lift, Hdiff, bind_run, bind_run, Hf.
      cbn [fst snd]. rewrite bind_log. cbn [fst snd raise].
      rewrite outcomes_app. cbn [outcomes]. now rewrite app_nil_r. }
    rewrite Houts, Hout. split; [reflexivity |].
    split; [now rewrite Hr, Hreq | exact Hfst].
Qed.

Lemma update_one_integer_field_witness :
  let old_props := sample_props 2 [("rootfs", VStr "local-lvm:8")] in
  let new_props := sample_props 3 [("rootfs", VStr "local-lvm:8")] in
  requests (snd (update (sample_ctx calm_remote) "215" old_props new_props []))
  = [config_request sample_api (VInt 215) [("cores", VInt 3)];
     status_request sample_api (VInt 215)].
Proof.
  intros old_props new_props.
  assert (Hsame : forall f, In f mutable_fields -> f <> "cores" ->
                            py_eqb (get_or_none new_props f) (get_or_none old_props f)
                            = true).
  { intros f Hf Hne. cbn in Hf.
    repeat (destruct Hf as [<- | Hf]; [first [reflexivity | now elim Hne] |]).
    destruct Hf. }
  destruct (update_one_integer_field (sample_ctx calm_remote) "215" old_props new_props
              [] sample_api 215 "cores" (VInt 3) 3
              eq_refl eq_refl (or_introl eq_refl) Hsame eq_refl eq_refl eq_refl)
    as (o & Ho & Hreq).
  vm_compute in Ho. injection Ho as <-. exact Hreq.
Defined.

(* ================================================================== *)
(** * Virtual machines *)
(* ================================================================== *)

Section VirtualMachines.
Variable ctx : context.
Variable api : ProxmoxAPI.

Lemma get_vm_run (vid : Z) (h : history) :
  let o := ctx_remote ctx h (vm_status_request api (VInt vid)) in
  let p := get_vm ctx api (VInt vid) h in
  fst p = Ok (lxc_info_of o)
  /\ requests (snd p) = [vm_status_request api (VInt vid)]
  /\ outcomes (snd p) = [o]
  /\ sleeps (snd p) = [].
Proof.
  cbv zeta. unfold get_vm, vm_status_request, lxc_info_of. cbn [py_int]. run.
  destruct (ctx_remote ctx h _) as [body | e]; cbn.
  - destruct (py_get body "data" (VDict [])); cbn; repeat split; reflexivity.
  - repeat split; reflexivity.
Qed.

(** X6: [get_vm] never raises and sends at most one request, a status
    read; when the id is no integer nothing is sent, and when nothing is
    sent or the read fails the result is the empty dictionary. *)
Theorem get_vm_total (vm_id : pyval) (h : history) :
  let p := get_vm ctx api vm_id h in
  (exists info, fst p = Ok info)
  /\ ((exists vid, py_int vm_id = Ok vid
                   /\ requests (snd p) = [vm_status_request api (VInt vid)])
      \/ (requests (snd p) = [] /\ fst p = Ok (VDict [])))
  /\ (forall e, In (Raise e) (outcomes (snd p)) -> fst p = Ok (VDict [])).
Proof.
  cbv zeta. destruct (py_int vm_id) as [vid | e0] eqn:Hint.
  - assert (Hsame : get_vm ctx api vm_id h = get_vm ctx api (VInt vid) h).
    { unfold get_vm. rewrite Hint. reflexivity. }
    rewrite Hsame.
    destruct (get_vm_run vid h) as (Hf & Hr & Ho & _). cbv zeta in Hf, Hr, Ho.
    rewrite Hf, Hr, Ho. split; [eauto |]. split; [left; eauto |].
    intros e [He | []]. rewrite He. reflexivity.
  - unfold get_vm. rewrite Hint, bind_log. cbn.
    split; [eauto |]. split; [right; split; reflexivity |]. intros e [].
Qed.

Lemma update_vm_run (vm_id : pyval) (params body : pydict) (h : history) :
  vm_update_params params = Ok body ->
  let p := update_vm ctx api vm_id params h in
  exists o,
    fst p = o
    /\ requests (snd p) = [vm_config_request api vm_id body]
    /\ outcomes (snd p) = [o].
Proof.
  intros Hbody. cbv zeta. unfold update_vm.
  rewrite bind_log. cbn [fst snd requests outcomes].
  rewrite Hbody, bind_lift, bind_log. cbn [fst snd requests outcomes].
  rewrite bind_request. cbv zeta. unfold vm_config_request.
  match goal with |- context [ctx_remote ctx ?hh ?rr] =>
    destruct (ctx_remote ctx hh rr) as [r | e] end.
  - rewrite bind_log. cbn. eexists. repeat split; reflexivity.
  - cbn. eexists. repeat split; reflexivity.
Qed.

Lemma delete_vm_run (vm_id : pyval) (h : history) :
  let p := delete_vm ctx api vm_id h in
  exists o_stop o_delete,
    requests (snd p) = [vm_stop_request api vm_id; vm_delete_request api vm_id]
    /\ outcomes (snd p) = [o_stop; o_delete]
    /\ sleeps (snd p) = []
    /\ fst p = o_delete
    /\ (forall e, o_stop = Raise e -> failure_warned (snd p) e)
    /\ (forall e, ~ failure_logged (snd p) e).
Proof.
  cbv zeta. unfold delete_vm, vm_stop_request, vm_delete_request.
  rewrite bind_log. cbn [fst snd]. rewrite bind_run, try_except_run, bind_request.
  cbv zeta.
  match goal with |- context [ctx_remote ctx ?hh ?rr] =>
    destruct (ctx_remote ctx hh rr) as [r | e] end;
    cbn [fst snd log emit app]; rewrite bind_request; cbv zeta;
    match goal with |- context [ctx_remote ctx ?hh (Req DELETE ?pp ?dd)] =>
      destruct (ctx_remote ctx hh (Req DELETE pp dd)) as [r' | e'] end;
    try rewrite bind_log; cbn [fst snd ret app requests outcomes sleeps].
  - exists (Ok r), (Ok r'). do 4 (split; [reflexivity |]). split.
    + intros e0 [=].
    + intros e0 (msg & Hin & Herr). cbn in Hin.
      repeat (destruct Hin as [Hin | Hin]; [discriminate Hin |]). destruct Hin.
  - exists (Ok r), (Raise e'). do 4 (split; [reflexivity |]). split.
    + intros e0 [=].
    + intros e0 (msg & Hin & Herr). cbn in Hin.
      repeat (destruct Hin as [Hin | Hin]; [discriminate Hin |]). destruct Hin.
  - exists (Raise e), (Ok r'). do 4 (split; [reflexivity |]). split.
    + intros e0 [= <-]. eexists. split; [cbn; eauto 10 | cbn; eauto].
    + intros e0 (msg & Hin & Herr). cbn in Hin.
      repeat (destruct Hin as [Hin | Hin]; [discriminate Hin |]). destruct Hin.
  - exists (Raise e), (Raise e'). do 4 (split; [reflexivity |]). split.
    + intros e0 [= <-]. eexists. split; [cbn; eauto 10 | cbn; eauto].
    + intros e0 (msg & Hin & Herr). cbn in Hin.
      repeat (destruct Hin as [Hin | Hin]; [discriminate Hin |]). destruct Hin.
Qed.
Lemma create_vm_run (vm_id : pyval) (params : pydict) (h : history) :
  let p := create_vm ctx api vm_id params h in
  (requests (snd p) = [] /\ exists e, fst p = Raise e)
  \/ (exists body vid,
         py_int vm_id = Ok vid
         /\ requests (snd p) = [vm_create_request api body]).
Proof.
  cbv zeta. unfold create_vm.
  rewrite bind_log. cbn [fst snd]. rewrite bind_lift.
  destruct (py_int vm_id) as [vid | e1];
    [| left; split; [reflexivity | eexists; reflexivity]].
  rewrite bind_lift.
  destruct (py_int (get_default params "cores" (VInt 1))) as [c | e2];
    [| left; split; [reflexivity | eexists; reflexivity]].
  rewrite bind_lift.
  destruct (py_int (get_default params "memory" (VInt 512))) as [m | e3];
    [| left; split; [reflexivity | eexists; reflexivity]].
  rewrite bind_lift.
  destruct (py_items (get_default params "disks" (VDict []))) as [ds | e4];
    [| left; split; [reflexivity | eexists; reflexivity]].
  rewrite bind_lift.
  destruct (py_items (get_default params "networks" (VDict []))) as [ns | e5];
    [| left; split; [reflexivity | eexists; reflexivity]].
  rewrite bind_log. cbn [fst snd]. rewrite bind_request. cbv zeta.
  right. eexists. exists vid. split; [reflexivity |].
  match goal with |- context [ctx_remote ctx ?hh ?rr] =>
    destruct (ctx_remote ctx hh rr) as [r | e] end.
  - rewrite bind_log. reflexivity.
  - reflexivity.
Qed.
End VirtualMachines.

(** X7: deleting a virtual machine sends the stop call and then the
    delete call, once each, with no status read and no waiting; a failed
    stop is only warned about, and the deletion fails exactly when the
    delete call does. *)
Theorem vm_delete_stop_then_delete
        (ctx : context) (id : string) (props : pydict) (h : history)
        (api : ProxmoxAPI) (vid : Z) :
  api_of_props ctx props = Ok api ->
  ctx_int_float ctx id = Ok vid ->
  let p := VirtualMachineProvider.delete ctx id props h in
  exists o_stop o_delete,
    requests (snd p) = [vm_stop_request api (VInt vid); vm_delete_request api (VInt vid)]
    /\ outcomes (snd p) = [o_stop; o_delete]
    /\ sleeps (snd p) = []
    /\ fst p = match o_delete with Ok _ => Ok tt | Raise e => Raise e end
    /\ (forall e, o_stop = Raise e -> failure_warned (snd p) e).
Proof.
  intros Hapi Hid. cbv zeta. unfold VirtualMachineProvider.delete.
  rewrite try_except_run, bind_lift, Hapi, bind_lift, Hid, bind_run.
  destruct (delete_vm_run ctx api (VInt vid) h)
    as (o_stop & o_delete & Hr & Ho & Hs & Hf & Hw & _).
  cbv zeta in Hr, Ho, Hs, Hf, Hw.
  exists o_stop, o_delete. rewrite Hf.
  destruct o_delete as [r | e]; cbn [fst snd log emit raise].
  - rewrite requests_app, outcomes_app, sleeps_app, Hr, Ho, Hs.
    repeat split; try reflexivity.
    intros e He. destruct (Hw e He) as (msg & Hin & Herr).
    exists msg. split; [apply in_or_app; now left | exact Herr].
  - rewrite bind_log. cbn [fst snd raise].
    rewrite requests_app, outcomes_app, sleeps_app, Hr, Ho, Hs.
    repeat split; try reflexivity.
    intros e0 He. destruct (Hw e0 He) as (msg & Hin & Herr).
    exists msg. split; [apply in_or_app; now left | exact Herr].
Qed.

Lemma vm_delete_stop_then_delete_witness :
  let p := VirtualMachineProvider.delete (sample_ctx failing_remote) "115"
             (sample_vm_props [("scsi0", VStr "local-lvm:20")]) [] in
  exists o_stop o_delete,
    requests (snd p) = [vm_stop_request sample_api (VInt 115);
                        vm_delete_request sample_api (VInt 115)]
    /\ outcomes (snd p) = [o_stop; o_delete]
    /\ sleeps (snd p) = []
    /\ fst p = match o_delete with Ok _ => Ok tt | Raise e => Raise e end
    /\ (forall e, o_stop = Raise e -> failure_warned (snd p) e).
Proof.
  exact (vm_delete_stop_then_delete (sample_ctx failing_remote) "115"
           (sample_vm_props [("scsi0", VStr "local-lvm:20")]) []
           sample_api 115 eq_refl eq_refl).
Defined.

(** X8: when the disks are the only compared field of a virtual machine
    that changed, the update puts every disk slot as it stands into the
    body of one configuration call (no resize call, no check of the
    spec) and then reads the status. *)
Theorem vm_update_disks_in_config_body
        (ctx : context) (id : string) (old_props new_props : pydict) (h : history)
        (api : ProxmoxAPI) (vid : Z) (new_disks : pydict) :
  api_of_props ctx new_props = Ok api ->
  ctx_int_float ctx id = Ok vid ->
  (forall f, In f VirtualMachineProvider.mutable_fields -> f <> "disks" ->
             py_eqb (get_or_none new_props f) (get_or_none old_props f) = true) ->
  py_eqb (get_or_none new_props "disks") (get_or_none old_props "disks") = false ->
  dict_get new_props "disks" = Some (VDict new_disks) ->
  let p := VirtualMachineProvider.update ctx id old_props new_props h in
  exists o,
    hd_error (outcomes (snd p)) = Some o
    /\ match o with
       | Ok _ =>
           requests (snd p)
           = [vm_config_request api (VInt vid) (dict_update [] new_disks);
              vm_status_request api (VInt vid)]
       | Raise e =>
           requests (snd p)
           = [vm_config_request api (VInt vid) (dict_update [] new_disks)]
           /\ fst p = Raise e
       end.
Proof.
  intros Hapi Hid Heq Hneq Hget. cbv zeta.
  assert (Hdiff : diff_fields VirtualMachineProvider.mutable_fields old_props new_props []
                  = Ok [("disks", VDict new_disks)]).
  { apply (diff_fields_one_of VirtualMachineProvider.mutable_fields old_props new_props
             [] "disks" (VDict new_disks)); try assumption.
    - apply distinct_NoDup. reflexivity.
    - cbn. tauto. }
  unfold VirtualMachineProvider.update.
  rewrite try_except_run, bind_lift, Hapi, bind_lift, Hid, bind_lift, Hdiff.
  rewrite bind_run, bind_run.
  destruct (update_vm_run ctx api (VInt vid) [("disks", VDict new_disks)]
              (dict_update [] new_disks) h eq_refl) as (o & Hf & Hr & Ho).
  cbv zeta in Hf, Hr, Ho. exists o. rewrite Hf.
  destruct o as [r | e]; cbn [fst snd ret].
  - rewrite bind_run.
    match goal with |- context [get_vm ctx api (VInt vid) ?hh] =>
      destruct (get_vm_run ctx api vid hh) as (Hgf & Hgr & Hgo & _) end.
    cbv zeta in Hgf, Hgr, Hgo. rewrite Hgf. cbn [fst snd].
    rewrite bind_lift.
    match goal with |- context [py_get ?info "status" ?d] =>
      destruct (py_get info "status" d) as [status | e] end.
    + rewrite bind_log. cbn [fst snd ret].
      rewrite !outcomes_app, !requests_app, Hr, Ho, Hgr, Hgo. cbn.
      split; reflexivity.
    + cbn [fst snd]. rewrite bind_log. cbn [fst snd raise].
      rewrite !outcomes_app, !requests_app, Hr, Ho, Hgr, Hgo. cbn.
      split; reflexivity.
  - rewrite bind_log. cbn [fst snd raise].
    rewrite !outcomes_app, !requests_app, Hr, Ho. cbn. repeat split; reflexivity.
Qed.

Lemma vm_update_disks_in_config_body_witness :
  let old_props := sample_vm_props [("scsi0", VStr "local-lvm:20")] in
  let new_props := sample_vm_props [("scsi0", VStr "local-lvm:40")] in
  requests (snd (VirtualMachineProvider.update (sample_ctx calm_remote) "115"
                   old_props new_props []))
  = [vm_config_request sample_api (VInt 115) [("scsi0", VStr "local-lvm:40")];
     vm_status_request sample_api (VInt 115)].
Proof.
  intros old_props new_props.
  assert (Hsame : forall f, In f VirtualMachineProvider.mutable_fields -> f <> "disks" ->
                            py_eqb (get_or_none new_props f) (get_or_none old_props f)
                            = true).
  { intros f Hf Hne. cbn in Hf.
    repeat (destruct Hf as [<- | Hf]; [first [reflexivity | now elim Hne] |]).
    destruct Hf. }
  destruct (vm_update_disks_in_config_body (sample_ctx calm_remote) "115"
              old_props new_props [] sample_api 115 [("scsi0", VStr "local-lvm:40")]
              eq_refl eq_refl Hsame eq_refl eq_refl)
    as (o & Ho & Hreq).
  vm_compute in Ho. injection Ho as <-. exact Hreq.
Defined.

Lemma start_vm_requests (ctx : context) (api : ProxmoxAPI) (vm_id : pyval)
      (h : history) (r : request) :
  In r (requests (snd (start_vm ctx api vm_id h))) ->
  req_method r = POST /\ req_data r = None.
Proof.
  unfold start_vm. rewrite bind_log. cbn [fst snd requests]. rewrite bind_lift.
  destruct (py_int vm_id) as [vid | e]; [| intros []].
  unfold _make_request. cbn [fst snd requests]. intros [<- | []]. split; reflexivity.
Qed.

(** X9: creating a virtual machine sends nothing, or the create call
    alone, or the create call followed by one status read; none of them is
    a call that [start_vm] sends: the machine is never started. *)
Theorem vm_create_never_starts (ctx : context) (props : pydict) (h : history) :
  let p := VM.create ctx props h in
  (requests (snd p) = []
   \/ exists api body,
        api_of_props ctx props = Ok api
        /\ ((requests (snd p) = [vm_create_request api body]
             /\ (exists e, fst p = Raise e))
            \/ (exists vid,
                   requests (snd p)
                   = [vm_create_request api body; vm_status_request api (VInt vid)])))
  /\ (forall api' vm h' r,
         In r (requests (snd (start_vm ctx api' vm h'))) ->
         ~ In r (requests (snd p))).
Proof.
  cbv zeta.
  assert (Hshape :
    requests (snd (VM.create ctx props h)) = []
    \/ exists api body,
         api_of_props ctx props = Ok api
         /\ ((requests (snd (VM.create ctx props h)) = [vm_create_request api body]
              /\ (exists e, fst (VM.create ctx props h) = Raise e))
             \/ (exists vid,
                    requests (snd (VM.create ctx props h))
                    = [vm_create_request api body; vm_status_request api (VInt vid)]))).
  { unfold VM.create. rewrite try_except_run, bind_lift.
      destruct (api_of_props ctx props) as [api | e0] eqn:Hapi;
        [| left; cbn [fst snd]; rewrite bind_log; reflexivity].
      set (vm := py_or (get_or_none props "vm_id") (VInt 100)).
      rewrite bind_run.
      destruct (create_vm_run ctx api vm (VM.create_vm_kwargs props vm) h)
        as [(Hnone & e & He) | (body & vid & Hvid & Hreq)].
      - left. cbv zeta in Hnone, He. rewrite He. cbn [fst snd].
        rewrite bind_log. cbn [fst snd raise]. rewrite requests_app, Hnone. reflexivity.
      - right. exists api, body. split; [reflexivity |]. cbv zeta in Hreq.
        destruct (fst (create_vm ctx api vm (VM.create_vm_kwargs props vm) h))
          as [r | e]; cbn [fst snd].
        + right. exists vid.
          assert (Hsame : forall hh, get_vm ctx api vm hh = get_vm ctx api (VInt vid) hh).
          { intros hh. unfold get_vm. rewrite Hvid. reflexivity. }
          rewrite bind_run, Hsame.
          match goal with |- context [get_vm ctx api (VInt vid) ?hh] =>
            destruct (get_vm_run ctx api vid hh) as (Hgf & Hgr & _) end.
          cbv zeta in Hgf, Hgr. rewrite Hgf. cbn [fst snd].
          rewrite bind_lift.
          destruct (py_index props "node") as [n | e6].
          * rewrite bind_lift.
            match goal with |- context [py_get ?info "status" ?d] =>
              destruct (py_get info "status" d) as [status | e7] end.
            -- rewrite bind_log. cbn [fst snd ret].
               rewrite !requests_app, Hreq, Hgr. reflexivity.
            -- cbn [fst snd]. rewrite bind_log. cbn [fst snd raise].
               rewrite !requests_app, Hreq, Hgr. reflexivity.
          * cbn [fst snd]. rewrite bind_log. cbn [fst snd raise].
            rewrite !requests_app, Hreq, Hgr. reflexivity.
        + left. rewrite bind_log. cbn [fst snd raise].
          rewrite requests_app, Hreq. split; [reflexivity | eexists; reflexivity]. }
  split; [exact Hshape |].
  intros api' vm h' r Hstart Hin.
  destruct (start_vm_requests ctx api' vm h' r Hstart) as [Hpost Hnone].
  destruct Hshape as [Hnil | (api & body & _ & [(Hone & _) | (vid & Htwo)])].
  - rewrite Hnil in Hin. destruct Hin.
  - rewrite Hone in Hin. destruct Hin as [<- | []]. discriminate Hnone.
  - rewrite Htwo in Hin. destruct Hin as [<- | [<- | []]];
      [discriminate Hnone | discriminate Hpost].
Qed.

(* ================================================================== *)
(** * Reading the status of a container *)
(* ================================================================== *)

Lemma int_body_string_of_uint (d : Decimal.uint) (b : bool) (acc : Z) :
  int_body b acc (NilEmpty.string_of_uint d)
  = match d with
    | Decimal.Nil => if b then Some acc else None
    | _ => Some (uint_value acc d)
    end.
Proof.
  revert b acc.
  induction d as [| d IH | d IH | d IH | d IH | d IH | d IH | d IH | d IH | d IH | d IH];
    intros b acc; [reflexivity | ..];
    cbn [NilEmpty.string_of_uint int_body uint_value];
    match goal with |- context [is_digit ?c] =>
      change (is_digit c) with true; cbv iota
    end;
    rewrite IH; destruct d; reflexivity.
Qed.

Lemma uint_value_pos (d : Decimal.uint) (acc : positive) :
  uint_value (Z.pos acc) d = Z.pos (Pos.of_uint_acc d acc).
Proof.
  revert acc.
  induction d as [| d IH | d IH | d IH | d IH | d IH | d IH | d IH | d IH | d IH | d IH];
    intros acc; cbn [uint_value Pos.of_uint_acc]; [reflexivity | ..];
    rewrite <- IH; f_equal; lia.
Qed.

Lemma uint_value_of_uint (d : Decimal.uint) :
  uint_value 0 d = Z.of_N (Pos.of_uint d).
Proof.
  induction d as [| d IH | d IH | d IH | d IH | d IH | d IH | d IH | d IH | d IH | d IH];
    cbn [uint_value Pos.of_uint Z.of_N]; [reflexivity | exact IH | ..];
    apply uint_value_pos.
Qed.

Lemma all_digits_string_of_uint (d : Decimal.uint) :
  all_digits (NilEmpty.string_of_uint d) = true.
Proof. induction d; cbn [NilEmpty.string_of_uint all_digits]; auto. Qed.

Lemma digit_not_space (c : ascii) : is_digit c = true -> is_space c = false.
Proof.
  destruct c as [[] [] [] [] [] [] [] []]; vm_compute; intros H;
    first [reflexivity | discriminate H].
Qed.

Lemma rstrip_digits (s : string) : all_digits s = true -> rstrip s = s.
Proof.
  induction s as [| c s IH]; [reflexivity |].
  cbn [all_digits rstrip]. intros H. apply andb_true_iff in H. destruct H as [Hc Hs].
  rewrite (IH Hs). destruct s; [| reflexivity].
  now rewrite (digit_not_space c Hc).
Qed.

Lemma lstrip_digits (s : string) : all_digits s = true -> lstrip s = s.
Proof.
  destruct s as [| c s]; [reflexivity |].
  cbn [all_digits lstrip]. intros H. apply andb_true_iff in H. destruct H as [Hc _].
  now rewrite (digit_not_space c Hc).
Qed.

Lemma int_of_str_digits (s : string) :
  all_digits s = true -> int_of_str s = int_body false 0 s.
Proof.
  intros H. unfold int_of_str. rewrite (lstrip_digits s H), (rstrip_digits s H).
  destruct s as [| c s]; [reflexivity |].
  cbn [all_digits] in H. apply andb_true_iff in H. destruct H as [Hc _].
  destruct c as [[] [] [] [] [] [] [] []]; first [reflexivity | discriminate Hc].
Qed.

Lemma to_uint_not_nil (p : positive) : Pos.to_uint p <> Decimal.Nil.
Proof.
  intros H. pose proof (DecimalPos.Unsigned.of_to p) as Hp.
  rewrite H in Hp. discriminate Hp.
Qed.

Lemma int_body_to_uint (p : positive) :
  int_body false 0 (NilEmpty.string_of_uint (Pos.to_uint p)) = Some (Z.pos p).
Proof.
  rewrite int_body_string_of_uint.
  pose proof (to_uint_not_nil p) as Hn.
  rewrite uint_value_of_uint, DecimalPos.Unsigned.of_to.
  destruct (Pos.to_uint p); [now elim Hn | reflexivity ..].
Qed.

(** [int(str(z))] gives [z] back. *)
Lemma int_of_str_of_int (z : Z) : int_of_str (str_of_int z) = Some z.
Proof.
  unfold str_of_int. destruct z as [| p | p]; [reflexivity | |];
    cbn [Z.to_int NilZero.string_of_int]; unfold NilZero.string_of_uint;
    pose proof (to_uint_not_nil p) as Hn;
    pose proof (all_digits_string_of_uint (Pos.to_uint p)) as Hd;
    pose proof (int_body_to_uint p) as Hv.
  - assert (Hs : match Pos.to_uint p with
                 | Decimal.Nil => "0"
                 | _ => NilEmpty.string_of_uint (Pos.to_uint p)
                 end = NilEmpty.string_of_uint (Pos.to_uint p))
      by (destruct (Pos.to_uint p); [now elim Hn | reflexivity ..]).
    rewrite Hs, (int_of_str_digits _ Hd). exact Hv.
  - assert (Hs : match Pos.to_uint p with
                 | Decimal.Nil => "0"
                 | _ => NilEmpty.string_of_uint (Pos.to_uint p)
                 end = NilEmpty.string_of_uint (Pos.to_uint p))
      by (destruct (Pos.to_uint p); [now elim Hn | reflexivity ..]).
    rewrite Hs. unfold int_of_str.
    change (lstrip (String "-"%char ?s)) with (String "-"%char s).
    cbn [lstrip]. change (is_space "-"%char) with false. cbv iota.
    cbn [rstrip]. rewrite (rstrip_digits _ Hd).
    destruct (NilEmpty.string_of_uint (Pos.to_uint p)) as [| c s] eqn:Hstr.
    + cbn in Hv. discriminate Hv.
    + rewrite Hv. reflexivity.
Qed.

Section Status.
Variable ctx : context.

Lemma get_status_body_run (vm_id_str : string) (h : history) :
  let p := _get_status_body ctx vm_id_str h in
  ((exists e, fst p = Raise e) /\ snd p = []
   /\ (forall z endpoint username secret,
          py_int (VStr vm_id_str) = Ok z ->
          dict_get (ctx_config ctx) "endpoint" = Some endpoint ->
          dict_get (ctx_config ctx) "username" = Some username ->
          dict_get (ctx_config ctx) "password" = Some secret -> False))
  \/ (exists api z,
         py_int (VStr vm_id_str) = Ok z
         /\ requests (snd p) = [status_request api (VInt z)]
         /\ outcomes (snd p) = [ctx_remote ctx h (status_request api (VInt z))]
         /\ fst p
            = match py_get (lxc_info_of (ctx_remote ctx h (status_request api (VInt z))))
                           "status" VNone with
              | Ok status => Ok (if is_none status then VStr "unknown" else status)
              | Raise e => Raise e
              end).
Proof.
  cbv zeta. unfold _get_status_body, config_require.
  rewrite bind_lift.
  destruct (dict_get (ctx_config ctx) "endpoint") as [endpoint |] eqn:Hep.
  2:{ left. split; [eexists; reflexivity |]. split; [reflexivity |].
      intros; congruence. }
  rewrite bind_lift.
  destruct (dict_get (ctx_config ctx) "username") as [username |] eqn:Hus.
  2:{ left. split; [eexists; reflexivity |]. split; [reflexivity |].
      intros; congruence. }
  rewrite bind_lift.
  destruct (dict_get (ctx_config ctx) "password") as [secret |] eqn:Hpw.
  2:{ left. split; [eexists; reflexivity |]. split; [reflexivity |].
      intros; congruence. }
  rewrite bind_lift.
  assert (Hinit : exists api,
             ProxmoxAPI_init ctx endpoint username secret
               (get_default (ctx_config ctx) "node" (VStr "pve"))
               (get_default (ctx_config ctx) "insecure" (VBool false)) = Ok api).
  { unfold ProxmoxAPI_init, config_require. rewrite Hep, Hus, Hpw.
    destruct endpoint; eauto. }
  destruct Hinit as [api Hinit]. rewrite Hinit, bind_lift.
  destruct (py_int (VStr vm_id_str)) as [z | e] eqn:Hint.
  2:{ left. split; [eexists; reflexivity |]. split; [reflexivity |].
      intros; congruence. }
  right. exists api, z. split; [reflexivity |].
  rewrite bind_run.
  destruct (get_lxc_run ctx api z h) as (Hf & Hr & Ho & _). cbv zeta in Hf, Hr, Ho.
  rewrite Hf. cbn [fst snd]. rewrite bind_lift.
  destruct (py_get (lxc_info_of (ctx_remote ctx h (status_request api (VInt z))))
                   "status" VNone) as [status | e];
    cbn [fst snd ret]; rewrite ?app_nil_r; now repeat split.
Qed.

(** X10: [get_status] never raises and never returns [None]: it sends at
    most one request, a status read, and answers [unknown] whenever
    nothing was sent or the read failed; for an integer id [z] and a
    complete configuration the read is that of container [z]. *)
Theorem get_status_total (vm_id : pyval) (h : history) :
  let p := get_status ctx vm_id h in
  exists status,
    fst p = Ok status
    /\ status <> VNone
    /\ ((requests (snd p) = [] /\ status = VStr "unknown")
        \/ (exists api z,
               py_int (VStr (py_str vm_id)) = Ok z
               /\ requests (snd p) = [status_request api (VInt z)]
               /\ (forall e, In (Raise e) (outcomes (snd p)) ->
                             status = VStr "unknown")))
    /\ (forall z endpoint username secret,
           vm_id = VInt z ->
           dict_get (ctx_config ctx) "endpoint" = Some endpoint ->
           dict_get (ctx_config ctx) "username" = Some username ->
           dict_get (ctx_config ctx) "password" = Some secret ->
           exists api, requests (snd p) = [status_request api (VInt z)]).
Proof.
  cbv zeta. unfold get_status, _get_status. rewrite try_except_run.
  assert (Hunknown : VStr "unknown" <> VNone) by discriminate.
  assert (Hback : forall z, vm_id = VInt z -> py_int (VStr (py_str vm_id)) = Ok z).
  { intros z ->. cbn [py_str py_str_aux py_int]. now rewrite int_of_str_of_int. }
  destruct (get_status_body_run (py_str vm_id) h)
    as [((e & He) & Hnil & Habs) | (api & z & Hint & Hr & Ho & Hf)];
    cbv zeta in *.
  - rewrite He, Hnil. cbn [fst snd]. rewrite bind_log. cbn [fst snd ret app requests].
    exists (VStr "unknown"). split; [reflexivity |]. split; [exact Hunknown |].
    split; [left; split; reflexivity |].
    intros z0 ep0 us0 pw0 Hz H1 H2 H3. exfalso.
    exact (Habs z0 ep0 us0 pw0 (Hback z0 Hz) H1 H2 H3).
  - assert (Hlast : forall z', vm_id = VInt z' -> z' = z).
    { intros z' Hz. rewrite (Hback z' Hz) in Hint. now injection Hint. }
    rewrite Hf.
    destruct (ctx_remote ctx h (status_request api (VInt z))) as [body | e] eqn:Hcall.
    + destruct (py_get (lxc_info_of (Ok body)) "status" VNone) as [status | e2].
      * cbn [fst snd].
        exists (if is_none status then VStr "unknown" else status).
        split; [reflexivity |]. split; [destruct status; cbn; discriminate |].
        split.
        -- right. exists api, z. split; [exact Hint |]. split; [exact Hr |].
           rewrite Ho. intros e [He | []]. discriminate He.
        -- intros z' ? ? ? Hz _ _ _. exists api. now rewrite (Hlast z' Hz).
      * cbn [fst snd]. rewrite bind_log. cbn [fst snd ret].
        rewrite requests_app, outcomes_app, Hr, Ho. cbn [requests outcomes app].
        exists (VStr "unknown"). split; [reflexivity |]. split; [exact Hunknown |].
        split.
        -- right. exists api, z. now repeat split.
        -- intros z' ? ? ? Hz _ _ _. exists api. now rewrite (Hlast z' Hz).
    + cbn [lxc_info_of py_get get_default dict_get fst snd].
      exists (VStr "unknown"). split; [reflexivity |]. split; [exact Hunknown |].
      split.
      * right. exists api, z. now repeat split.
      * intros z' ? ? ? Hz _ _ _. exists api. now rewrite (Hlast z' Hz).
Qed.
End Status.

(* ================================================================== *)
(** * Authentication and transport *)
(* ================================================================== *)

Section TransportFacts.
Import Transport.
Variable net : http.

Lemma exchanges_app (a b : list wire_event) :
  exchanges (a ++ b) = exchanges a ++ exchanges b.
Proof.
  induction a as [| [s r o | l m] a IH]; cbn; [reflexivity | now rewrite IH | exact IH].
Qed.

Lemma send_exchanges (c : client) (m path : string) (data : option pydict)
      (h : wire_history) :
  exchanges (snd (send net c m path data h))
  = match wire_method m with
    | Some wm => [(http_session c, api_request c wm path data)]
    | None => []
    end.
Proof.
  unfold send. destruct (wire_method m) as [wm |]; [| reflexivity].
  destruct (net h (http_session c) (api_request c wm path data)) as [b | e [[[d | e'] t] |] | e];
    reflexivity.
Qed.

Lemma send_result (c : client) (m path : string) (data : option pydict)
      (h : wire_history) (wm : http_method) :
  wire_method m = Some wm ->
  fst (send net c m path data h)
  = match net h (http_session c) (api_request c wm path data) with
    | Json body => Ok body
    | RequestError e _ => Raise e
    | OtherError e => Raise e
    end.
Proof.
  intros Hm. unfold send. rewrite Hm.
  destruct (net h (http_session c) (api_request c wm path data)); reflexivity.
Qed.

Lemma ticket_holder_request
      (c : client) (m path : string) (data : option pydict) (h : wire_history)
      (wm : http_method) :
  truthy (ticket c) = true ->
  wire_method m = Some wm ->
  let p := _make_request net c m path data h in
  snd (fst p) = c
  /\ exchanges (snd p) = [(http_session c, api_request c wm path data)]
  /\ fst (fst p)
     = match net h (http_session c) (api_request c wm path data) with
       | Json body => Ok body
       | RequestError e _ => Raise e
       | OtherError e => Raise e
       end.
Proof.
  intros Hticket Hm. cbv zeta. unfold _make_request. rewrite Hticket. cbn [negb].
  pose proof (send_exchanges c m path data h) as Hex.
  pose proof (send_result c m path data h wm Hm) as Hres.
  destruct (send net c m path data h) as [r evs]. cbn [fst snd] in *.
  rewrite Hm in Hex. now repeat split.
Qed.

Lemma upper_upper (s : string) : upper (upper s) = upper s.
Proof.
  induction s as [| ch s IH]; [reflexivity |]. cbn [upper]. rewrite IH.
  f_equal. destruct ch as [[] [] [] [] [] [] [] []]; reflexivity.
Qed.

(** X11: a client that holds a ticket sends exactly the one exchange of
    the call, with its session as it is and without authenticating again;
    the client is left unchanged, the method is matched without regard to
    case, and [GET] and [DELETE] carry no body whatever [data] was passed. *)
Theorem authenticated_request
        (c : client) (m path : string) (data : option pydict) (h : wire_history)
        (wm : http_method) :
  truthy (ticket c) = true ->
  wire_method m = Some wm ->
  let p := _make_request net c m path data h in
  snd (fst p) = c
  /\ exchanges (snd p) = [(http_session c, api_request c wm path data)]
  /\ fst (fst p)
     = match net h (http_session c) (api_request c wm path data) with
       | Json body => Ok body
       | RequestError e _ => Raise e
       | OtherError e => Raise e
       end
  /\ _make_request net c (upper m) path data h = p
  /\ (wm = GET \/ wm = DELETE ->
      forall data', _make_request net c m path data' h = p).
Proof.
  intros Hticket Hm. cbv zeta.
  destruct (ticket_holder_request c m path data h wm Hticket Hm) as (Hc & Hex & Hres).
  cbv zeta in Hc, Hex, Hres.
  split; [exact Hc |]. split; [exact Hex |]. split; [exact Hres |]. split.
  - assert (Hup : wire_method (upper m) = Some wm).
    { unfold wire_method in *. cbv zeta in *. now rewrite upper_upper. }
    unfold _make_request, send. rewrite Hticket. cbn [negb]. now rewrite Hup, Hm.
  - intros Hwm data'. unfold _make_request, send. rewrite Hticket, Hm. cbn [negb].
    assert (Hsame : api_request c wm path data' = api_request c wm path data)
      by (destruct Hwm as [-> | ->]; reflexivity).
    now rewrite Hsame.
Qed.

(** X12: a client without a ticket authenticates first, with its session
    as it is; the call itself is sent only after an answer that held both
    the ticket and the CSRF token, and then with that token among the
    headers of the session; in every other case the authentication exchange
    is the only one and the request raises. *)
Theorem first_request_authenticates
        (c : client) (m path : string) (data : option pydict) (h : wire_history) :
  truthy (ticket c) = false ->
  let p := _make_request net c m path data h in
  let c' := snd (fst p) in
  exists rest,
    exchanges (snd p) = (http_session c, auth_request c) :: rest
    /\ ((rest = [] /\ exists e, fst (fst p) = Raise e)
        \/ (exists wm body data' t token,
              wire_method m = Some wm
              /\ net h (http_session c) (auth_request c) = Json body
              /\ py_get body "data" VNone = Ok data'
              /\ py_subscript data' "ticket" = Ok t
              /\ py_subscript data' "CSRFPreventionToken" = Ok token
              /\ ticket c' = t /\ csrf_token c' = token
              /\ dict_get (headers (http_session c')) "CSRFPreventionToken" = Some token
              /\ rest = [(http_session c', api_request c' wm path data)])).
Proof.
  intros Hticket. cbv zeta. unfold _make_request. rewrite Hticket. cbn [negb].
  unfold _authenticate. cbv zeta.
  destruct (net h (http_session c) (auth_request c)) as [body | e resp | e] eqn:Hnet;
    try (cbn [fst snd exchanges auth_failed_line]; eexists; split; [reflexivity |];
         left; split; [reflexivity | eexists; reflexivity]).
  destruct (py_get body "data" VNone) as [data' | e] eqn:Hdata;
    try (cbn [fst snd exchanges auth_failed_line]; eexists; split; [reflexivity |];
         left; split; [reflexivity | eexists; reflexivity]).
  destruct (truthy data') eqn:Htruthy;
    try (cbn [fst snd exchanges auth_failed_line]; eexists; split; [reflexivity |];
         left; split; [reflexivity | eexists; reflexivity]).
  destruct (py_subscript data' "ticket") as [t | e] eqn:Ht;
    try (cbn [fst snd exchanges auth_failed_line]; eexists; split; [reflexivity |];
         left; split; [reflexivity | eexists; reflexivity]).
  destruct (py_subscript data' "CSRFPreventionToken") as [token | e] eqn:Htok;
    try (cbn [fst snd exchanges auth_failed_line]; eexists; split; [reflexivity |];
         left; split; [reflexivity | eexists; reflexivity]).
  match goal with |- context [send net ?c1 m path data ?h1] =>
    pose proof (send_exchanges c1 m path data h1) as Hex;
    destruct (send net c1 m path data h1) as [r evs] eqn:Hsend
  end.
  cbn [fst snd] in *. cbn [app exchanges]. eexists. split; [reflexivity |].
  destruct (wire_method m) as [wm |] eqn:Hm.
  - right. exists wm, body, data', t, token.
    do 7 (split; [reflexivity || assumption |]).
    split; [| exact Hex].
    cbn [http_session headers dict_update fold_left fst snd].
    rewrite dict_get_set. now rewrite String.eqb_refl.
  - left. split; [exact Hex |].
    unfold send in Hsend. rewrite Hm in Hsend. injection Hsend as <- _. eauto.
Qed.

(** X13: an answer of the ticket endpoint that holds a ticket but no
    CSRF token leaves the client half authenticated: the request raises
    the authentication failure, yet the ticket is kept, so the next
    request does not authenticate again and is sent with the session
    untouched, without the token header and without the cookie. *)
Theorem half_authenticated_client
        (c : client) (m path : string) (data : option pydict) (h : wire_history)
        (body : pyval) (fields : pydict) (t : pyval)
        (m2 path2 : string) (data2 : option pydict) (h2 : wire_history)
        (wm2 : http_method) :
  truthy (ticket c) = false ->
  net h (http_session c) (auth_request c) = Json body ->
  py_get body "data" VNone = Ok (VDict fields) ->
  dict_get fields "ticket" = Some t ->
  truthy t = true ->
  dict_get fields "CSRFPreventionToken" = None ->
  wire_method m2 = Some wm2 ->
  let p := _make_request net c m path data h in
  let c1 := snd (fst p) in
  let q := _make_request net c1 m2 path2 data2 h2 in
  fst (fst p) = Raise (MkExn "Exception" "Failed to authenticate with Proxmox")
  /\ exchanges (snd p) = [(http_session c, auth_request c)]
  /\ ticket c1 = t
  /\ http_session c1 = http_session c
  /\ exchanges (snd q) = [(http_session c, api_request c1 wm2 path2 data2)]
  /\ snd (fst q) = c1.
Proof.
  intros Hticket Hnet Hdata Htick Htruthy Hnocsrf Hm2. cbv zeta.
  assert (Hfirst : _make_request net c m path data h
                   = (Raise (MkExn "Exception" "Failed to authenticate with Proxmox"),
                      MkClient (api c) t (csrf_token c) (http_session c),
                      [Sent (http_session c) (auth_request c) (Json body);
                       auth_failed_line (key_error "CSRFPreventionToken")])).
  { unfold _make_request. rewrite Hticket. cbn [negb].
    unfold _authenticate. cbv zeta. rewrite Hnet, Hdata.
    assert (Hnonempty : truthy (VDict fields) = true).
    { destruct fields; [discriminate Htick | reflexivity]. }
    rewrite Hnonempty. unfold py_subscript, py_index. rewrite Htick, Hnocsrf.
    reflexivity. }
  rewrite Hfirst. cbn [fst snd exchanges auth_failed_line ticket http_session].
  do 4 (split; [reflexivity |]).
  destruct (ticket_holder_request
              (MkClient (api c) t (csrf_token c) (http_session c))
              m2 path2 data2 h2 wm2 Htruthy Hm2) as (Hc & Hex & _).
  cbv zeta in Hc, Hex. split; [exact Hex | exact Hc].
Qed.

End TransportFacts.

Section TransportRuns.
Import Transport.

Lemma authenticated_request_witness :
  let c := MkClient sample_api (VStr "PVE:root@pam:66F0") (VStr "66F0:abc")
                    (MkSession [("CSRFPreventionToken", VStr "66F0:abc")]
                               [("PVEAuthCookie", VStr "PVE:root@pam:66F0")]) in
  let p := _make_request granting_net c "GET" "nodes/pve/storage/local/content"
                         (Some [("content", VStr "vztmpl")]) [] in
  exchanges (snd p)
  = [(http_session c,
      Wire GET [Val (api_endpoint sample_api); Lit "/";
                Lit "nodes/pve/storage/local/content"] None true 30)]
  /\ _make_request granting_net c "GET" "nodes/pve/storage/local/content" None [] = p.
Proof.
  intros c p.
  destruct (authenticated_request granting_net c "GET" "nodes/pve/storage/local/content"
              (Some [("content", VStr "vztmpl")]) [] GET eq_refl eq_refl)
    as (_ & Hex & _ & _ & Hnone).
  split; [exact Hex | apply Hnone; now left].
Defined.

Lemma first_request_authenticates_witness :
  let c := new_client sample_api in
  let p := _make_request granting_net c "GET" "nodes/pve/lxc/215/status/current" None [] in
  exists rest,
    exchanges (snd p) = (http_session c, auth_request c) :: rest
    /\ List.length rest = 1.
Proof.
  intros c p.
  destruct (first_request_authenticates granting_net c "GET"
              "nodes/pve/lxc/215/status/current" None [] eq_refl)
    as (rest & Hex & [(Hnil & e & He) | (wm & body & data' & t & token & Hrest)]).
  - vm_compute in He. discriminate He.
  - exists rest. split; [exact Hex |].
    destruct Hrest as (_ & _ & _ & _ & _ & _ & _ & _ & ->). reflexivity.
Defined.

Lemma half_authenticated_client_witness :
  let c := new_client sample_api in
  let p := _make_request ticket_only_net c "POST" "nodes/pve/lxc"
                         (Some [("vmid", VInt 215)]) [] in
  let c1 := snd (fst p) in
  let q := _make_request ticket_only_net c1 "POST" "nodes/pve/lxc"
                         (Some [("vmid", VInt 215)]) (snd p) in
  fst (fst p) = Raise (MkExn "Exception" "Failed to authenticate with Proxmox")
  /\ exchanges (snd q)
     = [(MkSession [] [], api_request c1 POST "nodes/pve/lxc" (Some [("vmid", VInt 215)]))].
Proof.
  intros c p c1 q.
  destruct (half_authenticated_client ticket_only_net c "POST" "nodes/pve/lxc"
              (Some [("vmid", VInt 215)]) []
              (VDict [("data", VDict [("ticket", VStr "PVE:root@pam:66F0")])])
              [("ticket", VStr "PVE:root@pam:66F0")] (VStr "PVE:root@pam:66F0")
              "POST" "nodes/pve/lxc" (Some [("vmid", VInt 215)]) (snd p) POST
              eq_refl eq_refl eq_refl eq_refl eq_refl eq_refl eq_refl)
    as (Hraise & _ & _ & _ & Hex & _).
  split; [exact Hraise | exact Hex].
Defined.
End TransportRuns.

(* ================================================================== *)
(** * The cost of the provider's delete, and legacy disk sizes *)
(* ================================================================== *)

(** X1: whatever the remote side does, deleting a container issues at
    most 316 requests and sleeps at most 420 seconds in all: 30 + 90 + 30
    seconds in the waits before the delete calls, 135 in the polling
    between retries and 135 of back-off. *)
Theorem delete_cost (ctx : context) (id : string) (props : pydict) (h : history) :
  List.length (requests (snd (delete ctx id props h))) <= 316
  /\ list_sum (sleeps (snd (delete ctx id props h))) <= 420.
Proof.
  revert h. change (costs_at_most 316 420 (delete ctx id props)).
  unfold delete.
  apply (costs_try 316 420 0 0); [lia | lia | |].
  - apply (costs_bind 0 0 316 420); [lia | lia | apply costs_lift |]. intros api.
    apply (costs_bind 0 0 316 420); [lia | lia | apply costs_lift |]. intros vid.
    apply (costs_bind 316 420 0 0); [lia | lia | | intros _; apply costs_log].
    exact (delete_lxc_cost ctx api (VInt vid)).
  - intros e. apply (costs_bind 0 0 0 0); [lia | lia | apply costs_log |].
    intros _. apply costs_raise.
Qed.

Lemma remove_char_absent (c : ascii) (s : string) :
  (forall x, is_digit x = true -> Ascii.eqb x c = false) ->
  all_digits s = true -> remove_char c s = s.
Proof.
  intros Hc. induction s as [| x s IH]; [reflexivity |].
  cbn [all_digits remove_char]. intros H. apply andb_true_iff in H.
  destruct H as [Hx Hs]. now rewrite (Hc x Hx), (IH Hs).
Qed.

Lemma remove_char_append (c : ascii) (a b : string) :
  remove_char c (a ++ b) = (remove_char c a ++ remove_char c b)%string.
Proof.
  induction a as [| x a IH]; [reflexivity |].
  cbn [String.append remove_char]. rewrite IH. now destruct (Ascii.eqb x c).
Qed.

Lemma digit_is_no_unit (x : ascii) :
  is_digit x = true -> Ascii.eqb x "G"%char = false /\ Ascii.eqb x "g"%char = false.
Proof.
  destruct x as [[] [] [] [] [] [] [] []]; vm_compute; intros H;
    first [discriminate H | split; reflexivity].
Qed.

Lemma append_empty_r (s : string) : (s ++ EmptyString)%string = s.
Proof. induction s as [| c s IH]; [reflexivity |]. cbn. now rewrite IH. Qed.

Lemma strip_size_unit_digits (ds unit : string) :
  all_digits ds = true ->
  In unit [EmptyString; "G"; "g"] ->
  strip_size_unit (VStr (ds ++ unit)) = Ok ds.
Proof.
  intros Hd Hu. unfold strip_size_unit. f_equal.
  rewrite remove_char_append, remove_char_append.
  rewrite (remove_char_absent "G"%char ds) by
    (first [exact Hd | intros x Hx; apply (digit_is_no_unit x Hx)]).
  rewrite (remove_char_absent "g"%char ds) by
    (first [exact Hd | intros x Hx; apply (digit_is_no_unit x Hx)]).
  cbn in Hu. destruct Hu as [<- | [<- | [<- | []]]]; cbn [remove_char Ascii.eqb Bool.eqb];
    apply append_empty_r.
Qed.

(** X14: a legacy [disk_size] of decimal digits, alone or followed by
    [G] or [g], becomes the root disk spec [local-lvm:<digits>], and that
    spec passes the checks of the resize: an update that carries it sends
    one resize call for [rootfs] with the size the digits denote. *)
Theorem legacy_disk_size_is_resizable
        (ctx : context) (api : ProxmoxAPI) (vm : pyval) (h : history)
        (a : lxc_args_in) (ds unit : string) :
  in_disks a = VNone ->
  in_disk_size a = VStr (ds ++ unit) ->
  isdigit ds = true ->
  In unit [EmptyString; "G"; "g"] ->
  exists args,
    LXCContainerArgs_init a = Ok args
    /\ disks args = VDict [("rootfs", VStr ("local-lvm:" ++ ds))]
    /\ requests (snd (resize_disks ctx api vm [("rootfs", VStr ("local-lvm:" ++ ds))] h))
       = [resize_request api vm "rootfs" (digits_value 0 ds)].
Proof.
  intros Hdisks Hsize Hdig Hunit.
  assert (Hall : all_digits ds = true) by (destruct ds; [discriminate Hdig | exact Hdig]).
  unfold LXCContainerArgs_init. rewrite Hdisks, Hsize. cbn [is_none negb].
  rewrite (strip_size_unit_digits ds unit Hall Hunit).
  eexists. split; [reflexivity |]. split; [reflexivity |].
  destruct (resize_disks_run ctx api vm [("rootfs", VStr ("local-lvm:" ++ ds))] h)
    as [_ Hreq].
  rewrite Hreq. unfold resize_requests, slot_resize_requests, size_segment.
  cbn [flat_map fst snd String.append split_once Ascii.eqb Bool.eqb option_map app].
  now rewrite Hdig.
Qed.

Lemma legacy_disk_size_is_resizable_witness :
  exists args,
    LXCContainerArgs_init legacy_lxc_args = Ok args
    /\ disks args = VDict [("rootfs", VStr "local-lvm:16")]
    /\ requests (snd (resize_disks (sample_ctx calm_remote) sample_api (VInt 215)
                        [("rootfs", VStr "local-lvm:16")] []))
       = [resize_request sample_api (VInt 215) "rootfs" 16].
Proof.
  exact (legacy_disk_size_is_resizable (sample_ctx calm_remote) sample_api (VInt 215) []
           legacy_lxc_args "16" "G" eq_refl eq_refl eq_refl (or_intror (or_introl eq_refl))).
Defined.

(* ================================================================== *)
(** * What the provider keeps and what it writes down *)
(* ================================================================== *)

Lemma bind_ok {A B} (m : M A) (k : A -> M B) (h : history) (b : B) :
  fst (bind m k h) = Ok b ->
  exists a, fst (m h) = Ok a /\ fst (k a (h ++ snd (m h))) = Ok b.
Proof.
  rewrite bind_run. destruct (fst (m h)) as [a | e]; cbn [fst]; [eauto | discriminate].
Qed.

Lemma bind_events {A B} (m : M A) (k : A -> M B) (h : history) (ev : event) :
  In ev (snd (m h)) -> In ev (snd (bind m k h)).
Proof.
  intros Hin. rewrite bind_run. destruct (fst (m h)); cbn [snd]; [| exact Hin].
  apply in_or_app. now left.
Qed.

Lemma try_except_events {A} (m : M A) (handler : exn -> M A) (h : history) (ev : event) :
  In ev (snd (m h)) -> In ev (snd (try_except m handler h)).
Proof.
  intros Hin. rewrite try_except_run. destruct (fst (m h)); cbn [snd]; [exact Hin |].
  apply in_or_app. now left.
Qed.

Lemma create_body_result (ctx : context) (props : pydict) (h : history)
      (res : CreateResult) :
  fst (create_body ctx props h) = Ok res ->
  exists the_node status,
    res = MkCreateResult
            (py_str (py_or (get_or_none props "vm_id") (VInt 200)))
            (create_outputs props (py_or (get_or_none props "vm_id") (VInt 200))
                            the_node status).
Proof.
  unfold create_body. intros H.
  apply bind_ok in H. destruct H as (api & _ & H).
  apply bind_ok in H. destruct H as (created & _ & H).
  apply bind_ok in H. destruct H as (started & _ & H).
  apply bind_ok in H. destruct H as (lxc_info & _ & H).
  apply bind_ok in H. destruct H as (the_node & _ & H).
  apply bind_ok in H. destruct H as (status & _ & H).
  rewrite bind_log in H. cbn [fst ret] in H. injection H as <-. eauto.
Qed.

(** X15: the outputs of a successful [create] hold twelve fixed keys and
    none of the credentials; so a client built from those outputs, the way
    [delete] builds its client from the properties it is handed, has
    neither user name nor password and does not skip the certificate
    check, whenever the endpoint was given. *)
Theorem create_outputs_hold_no_credentials
        (ctx : context) (props : pydict) (h : history) (res : CreateResult) :
  fst (create ctx props h) = Ok res ->
  dict_keys (create_outs res)
  = ["vm_id"; "node"; "hostname"; "status"; "cores"; "memory"; "swap"; "disks";
     "networks"; "unprivileged"; "proxmox_endpoint"; "proxmox_node"]
  /\ (get_or_none props "proxmox_endpoint" <> VNone ->
      exists api,
        api_of_props ctx (create_outs res) = Ok api
        /\ api_endpoint api = get_or_none props "proxmox_endpoint"
        /\ api_username api = VNone
        /\ api_password api = VNone
        /\ api_insecure api = VBool false).
Proof.
  intros Hok.
  destruct (reraise_run (create_body ctx props)
              (fun e => [Lit "Failed to create LXC: "; Err e]) h) as (Hfst & _).
  cbv zeta in Hfst. unfold create in Hok. rewrite Hfst in Hok.
  destruct (create_body_result ctx props h res Hok) as (the_node & status & ->).
  cbn [create_outs]. split; [reflexivity |].
  intros Hep. unfold api_of_props, get_or_none, get_default, create_outputs.
  cbn [dict_get String.eqb Ascii.eqb Bool.eqb].
  fold (get_default props "proxmox_endpoint" VNone).
  fold (get_or_none props "proxmox_endpoint").
  unfold ProxmoxAPI_init.
  destruct (get_or_none props "proxmox_endpoint") eqn:He; [now elim Hep | ..];
    eexists; repeat split; reflexivity.
Qed.

Lemma create_outputs_hold_no_credentials_witness :
  exists res,
    fst (create (sample_ctx calm_remote)
                (sample_props 2 [("rootfs", VStr "local-lvm:8")]) []) = Ok res
    /\ dict_get (create_outs res) "proxmox_password" = None
    /\ exists api,
        api_of_props (sample_ctx calm_remote) (create_outs res) = Ok api
        /\ api_username api = VNone /\ api_password api = VNone.
Proof.
  destruct (fst (create (sample_ctx calm_remote)
                        (sample_props 2 [("rootfs", VStr "local-lvm:8")]) []))
    as [res | e] eqn:Hrun; [| vm_compute in Hrun; discriminate Hrun].
  exists res. split; [reflexivity |].
  destruct (create_outputs_hold_no_credentials (sample_ctx calm_remote)
              (sample_props 2 [("rootfs", VStr "local-lvm:8")]) [] res Hrun)
    as (Hkeys & Hapi).
  split.
  - apply dict_get_absent. rewrite Hkeys. cbn.
    intros H. repeat (destruct H as [H | H]; [discriminate H |]). exact H.
  - destruct Hapi as (api & Ha & _ & Hu & Hp & _); [discriminate |].
    exists api. now repeat split.
Defined.

Lemma dict_get_update_other (d other : pydict) (k : string) :
  dict_get other k = None ->
  dict_get (dict_update d other) k = dict_get d k.
Proof.
  unfold dict_update. revert d.
  induction other as [| [k0 v0] other IH]; intros d Hnone; [reflexivity |].
  cbn [dict_get] in Hnone. cbn [fold_left fst snd].
  destruct (String.eqb k0 k) eqn:Hk; [discriminate Hnone |].
  rewrite (IH _ Hnone), dict_get_set, Hk. reflexivity.
Qed.

Lemma create_lxc_logs_params (ctx : context) (api : ProxmoxAPI) (vm : pyval)
      (params body : pydict) (h : history) :
  lxc_create_params vm params = Ok body ->
  In (Log Info [Lit "LXC params: "; Val (VDict body)])
     (snd (create_lxc ctx api vm params h)).
Proof.
  intros Hbody. unfold create_lxc. rewrite bind_log. cbn [fst snd].
  right. rewrite Hbody, bind_lift.
  destruct (get_or_none params "onboot");
    rewrite bind_log; cbn [fst snd]; right; rewrite bind_log; cbn [fst snd]; now left.
Qed.

(** X16: a container password, when one is given, is part of the
    create parameters, and [create] writes those parameters to the info
    log in full: the password appears there in clear. *)
Theorem create_logs_password
        (ctx : context) (props : pydict) (h : history) (api : ProxmoxAPI)
        (body : pydict) (pw : pyval) (the_disks the_networks : pydict) :
  api_of_props ctx props = Ok api ->
  lxc_create_params (py_or (get_or_none props "vm_id") (VInt 200))
                    (create_lxc_kwargs props (py_or (get_or_none props "vm_id") (VInt 200)))
  = Ok body ->
  dict_get props "password" = Some pw ->
  truthy pw = true ->
  get_default props "disks" (VDict []) = VDict the_disks ->
  get_default props "networks" (VDict []) = VDict the_networks ->
  dict_get the_disks "password" = None ->
  dict_get the_networks "password" = None ->
  dict_get body "password" = Some pw
  /\ In (Log Info [Lit "LXC params: "; Val (VDict body)]) (snd (create ctx props h)).
Proof.
  intros Hapi Hbody Hpw Htruthy Hdisks Hnets Hnd Hnn.
  split.
  - revert Hbody. set (vm := py_or (get_or_none props "vm_id") (VInt 200)).
    unfold lxc_create_params, rbind.
    destruct (py_int vm) as [vmid |]; [| discriminate].
    destruct (py_int (get_default (create_lxc_kwargs props vm) "cores" (VInt 1)))
      as [c |]; [| discriminate].
    destruct (py_int (get_default (create_lxc_kwargs props vm) "memory" (VInt 512)))
      as [m |]; [| discriminate].
    destruct (py_int (get_default (create_lxc_kwargs props vm) "swap" (VInt 512)))
      as [s |]; [| discriminate].
    destruct (py_int (get_default (create_lxc_kwargs props vm) "unprivileged" (VBool true)))
      as [u |]; [| discriminate].
    assert (Hd : get_default (create_lxc_kwargs props vm) "disks" (VDict [])
                 = VDict the_disks) by exact Hdisks.
    assert (Hn : get_default (create_lxc_kwargs props vm) "networks" (VDict [])
                 = VDict the_networks) by exact Hnets.
    assert (Hp : get_or_none (create_lxc_kwargs props vm) "password" = pw).
    { unfold create_lxc_kwargs, get_or_none at 1, get_default at 1.
      cbn [dict_get String.eqb Ascii.eqb Bool.eqb].
      unfold get_or_none, get_default. now rewrite Hpw. }
    rewrite Hd, Hn. cbn [py_items].
    match goal with |- context [dict_update (dict_update ?base the_disks) the_networks] =>
      assert (Hbase : dict_get (dict_update (dict_update base the_disks) the_networks)
                               "password" = Some pw)
    end.
    { rewrite (dict_get_update_other _ _ _ Hnn), (dict_get_update_other _ _ _ Hnd).
      rewrite dict_get_set_if_truthy. cbn [String.eqb Ascii.eqb Bool.eqb andb].
      rewrite dict_get_set_if_truthy, Hp, Htruthy. reflexivity. }
    destruct (truthy (get_default (create_lxc_kwargs props vm) "features" (VDict []))).
    + destruct (py_items (get_default (create_lxc_kwargs props vm) "features" (VDict [])))
        as [fs |]; [| discriminate].
      intros H. apply Ok_inj in H. subst body.
      destruct (get_or_none (create_lxc_kwargs props vm) "onboot");
        repeat (rewrite dict_get_set || rewrite dict_get_set_if_truthy);
        cbn [String.eqb Ascii.eqb Bool.eqb andb]; exact Hbase.
    + intros H. apply Ok_inj in H. subst body.
      destruct (get_or_none (create_lxc_kwargs props vm) "onboot");
        repeat (rewrite dict_get_set || rewrite dict_get_set_if_truthy);
        cbn [String.eqb Ascii.eqb Bool.eqb andb]; exact Hbase.
  - unfold create. apply try_except_events. unfold create_body.
    rewrite bind_lift, Hapi. apply bind_events.
    now apply create_lxc_logs_params.
Qed.

Lemma create_logs_password_witness :
  let props := dict_set (sample_props 2 [("rootfs", VStr "local-lvm:8")])
                        "password" (VStr "hunter2") in
  exists body,
    dict_get body "password" = Some (VStr "hunter2")
    /\ In (Log Info [Lit "LXC params: "; Val (VDict body)])
          (snd (create (sample_ctx calm_remote) props [])).
Proof.
  intros props. eexists.
  exact (create_logs_password (sample_ctx calm_remote) props [] sample_api _
           (VStr "hunter2") [("rootfs", VStr "local-lvm:8")]
           [("net0", VStr "name=eth0,bridge=vmbr0,ip=dhcp")]
           eq_refl eq_refl eq_refl eq_refl eq_refl eq_refl eq_refl eq_refl).
Defined.

(** X17: when the features are the only mutable field that changed and
    the new value is empty, the update detects the change but sends
    nothing for it: the status read is its only request, and the outputs
    still record the new, empty features. *)
Theorem update_cleared_features_not_sent
        (ctx : context) (id : string) (old_props new_props : pydict) (h : history)
        (api : ProxmoxAPI) (vid : Z) (v : pyval) :
  api_of_props ctx new_props = Ok api ->
  ctx_int_float ctx id = Ok vid ->
  (forall f, In f mutable_fields -> f <> "features" ->
             py_eqb (get_or_none new_props f) (get_or_none old_props f) = true) ->
  py_eqb (get_or_none new_props "features") (get_or_none old_props "features") = false ->
  dict_get new_props "features" = Some v ->
  truthy v = false ->
  NoDup (dict_keys new_props) ->
  let p := update ctx id old_props new_props h in
  requests (snd p) = [status_request api (VInt vid)]
  /\ forall res, fst p = Ok res -> dict_get (update_outs res) "features" = Some v.
Proof.
  intros Hapi Hid Heq Hneq Hget Hfalsy Hnd. cbv zeta.
  assert (Hin : In "features" mutable_fields) by (cbn; tauto).
  pose proof (diff_fields_one old_props new_props "features" v Hin Heq Hneq Hget) as Hdiff.
  pose proof (update_run ctx id old_props new_props h api vid _ Hapi Hid Hdiff) as Hrun.
  cbv beta iota zeta in Hrun.
  assert (Hbody : rest_params [("features", v)] [] = Ok []).
  { unfold rest_params. cbn [dict_get String.eqb Ascii.eqb Bool.eqb rbind].
    rewrite Hfalsy. reflexivity. }
  pose proof (update_lxc_run ctx api (VInt vid) [("features", v)] h [] eq_refl [] []
                eq_refl Hbody) as Hreq.
  pose proof (update_lxc_outcomes ctx api (VInt vid) [("features", v)] h [] [] []
                eq_refl eq_refl Hbody) as Hres.
  cbv zeta in Hres. destruct Hres as [Hf _]. cbn [resize_requests flat_map app] in Hreq.
  rewrite bind_run, Hf in Hrun. cbn [fst snd ret] in Hrun.
  destruct Hrun as (Hr & _ & Hfst). rewrite requests_app, Hreq in Hr. cbn [app requests] in Hr.
  split; [exact Hr |].
  intros res Hok. rewrite Hfst in Hok.
  match type of Hok with context [py_get ?info "status" ?d] =>
    destruct (py_get info "status" d) as [status | e]; [| discriminate Hok]
  end.
  injection Hok as <-.
  cbn [update_outs]. rewrite dict_get_set. cbn [String.eqb Ascii.eqb Bool.eqb].
  rewrite (dict_get_update _ _ _ Hnd), Hget. reflexivity.
Qed.

Lemma update_cleared_features_not_sent_witness :
  let old_props := sample_props 2 [("rootfs", VStr "local-lvm:8")] in
  let new_props := dict_set old_props "features" (VDict []) in
  requests (snd (update (sample_ctx calm_remote) "215" old_props new_props []))
  = [status_request sample_api (VInt 215)].
Proof.
  intros old_props new_props.
  assert (Hsame : forall f, In f mutable_fields -> f <> "features" ->
                            py_eqb (get_or_none new_props f) (get_or_none old_props f)
                            = true).
  { intros f Hf Hne. cbn in Hf.
    repeat (destruct Hf as [<- | Hf]; [first [reflexivity | now elim Hne] |]).
    destruct Hf. }
  assert (Hnd : NoDup (dict_keys new_props)) by (apply distinct_NoDup; reflexivity).
  exact (proj1 (update_cleared_features_not_sent (sample_ctx calm_remote) "215"
                  old_props new_props [] sample_api 215 (VDict [])
                  eq_refl eq_refl Hsame eq_refl eq_refl eq_refl Hnd)).
Defined.
